(** * picoclaw: the WhatsApp bridge channel, its message validator and its
    reconnection policy

    A shallow embedding of the validator file of package [channels] (the
    message validator and [ConnectionRetry]) and of the bridge channel file
    ([WhatsAppChannel]: construction, ping reply, connection, reconnection),
    with the properties of the design document stated over it.

    Conventions.
    - A Go [string] is a sequence of bytes: it is a Rocq [string], whose
      characters are the 256 byte values.  [len] is the number of bytes.
    - Go's [int], [int64] and [time.Duration] are 64-bit: they are [Z], and
      the arithmetic the code does on them is wrapped by [wrap64].
    - [time.Now()] is an explicit argument, [now]: the nanoseconds since the
      epoch in the channel file, and the value of [time.Now().Unix()] in
      [ValidateOutgoing].
    - A function returning [error] returns an [option] of an error value
      ([None] is Go's [nil]); one returning [(T, error)] returns a [result].
    - The Go standard library is not part of the repository.  What the code
      uses of it ([unicode/utf8], [strings], [encoding/json], [encoding/hex],
      [crypto/sha256], [crypto/hmac], [net/url], [time]) is modelled in the
      modules of the first part, from the packages' documented behaviour.
    - The connection is a [websocket.Conn] of gorilla/websocket: the calls
      of its methods are events, and what the library does on its own while
      [ReadMessage] waits (the replies to ping and close frames, the call of
      the pong handler) is in [listen_read]. *)

From Stdlib Require Import ZArith List Bool Ascii String Lia.
From Stdlib Require Import DecimalString Zbitwise.
Import ListNotations.

Local Open Scope string_scope.
Local Open Scope list_scope.
Local Open Scope Z_scope.

(** ** Machine integers *)

(** Two's complement wrap-around of a 64-bit signed integer. *)
Definition wrap64 (z : Z) : Z := (z + 2 ^ 63) mod 2 ^ 64 - 2 ^ 63.

(** ** Results *)

Inductive result (E A : Type) : Type :=
| Ok (a : A)
| Err (e : E).
Arguments Ok {E A} a.
Arguments Err {E A} e.

(** * Part I: the Go standard library, as far as the code uses it *)

(** ** Bytes and strings *)

(** The value of a byte, and Go's conversion [byte(x)]. *)
Definition byte_val (c : ascii) : Z := Z.of_N (N_of_ascii c).
Definition byte_of (z : Z) : ascii := ascii_of_N (Z.to_N (Z.land z 255)).

(** [len(s)]. *)
Definition len (s : string) : Z := Z.of_nat (String.length s).

(** [s[n:]] and [s[:n]]. *)
Fixpoint drop (n : nat) (s : string) : string :=
  match n, s with
  | O, _ => s
  | S n', String _ t => drop n' t
  | S _, EmptyString => EmptyString
  end.

Fixpoint take (n : nat) (s : string) : string :=
  match n, s with
  | O, _ => EmptyString
  | S n', String c t => String c (take n' t)
  | S _, EmptyString => EmptyString
  end.

Definition bytes (s : string) : list Z := map byte_val (list_ascii_of_string s).

Module utf8.

Definition RuneError : Z := 0xFFFD.
Definition RuneSelf : Z := 0x80.
Definition MaxRune : Z := 0x10FFFF.
Definition UTFMax : Z := 4.

Definition maskx : Z := 0x3F.
Definition mask2 : Z := 0x1F.
Definition mask3 : Z := 0x0F.
Definition mask4 : Z := 0x07.
Definition tx : Z := 0x80.
Definition t2 : Z := 0xC0.
Definition t3 : Z := 0xE0.
Definition t4 : Z := 0xF0.
Definition locb : Z := 0x80.
Definition hicb : Z := 0xBF.

(** The table [first] with [acceptRanges]: for a leading byte, the length
    of the sequence and the range allowed for its second byte; [None] for a
    byte that cannot start a sequence of more than one byte. *)
Definition first (s0 : Z) : option (Z * Z * Z) :=
  if s0 <? 0xC2 then None
  else if s0 <=? 0xDF then Some (2, locb, hicb)
  else if s0 =? 0xE0 then Some (3, 0xA0, hicb)
  else if s0 <=? 0xEC then Some (3, locb, hicb)
  else if s0 =? 0xED then Some (3, locb, 0x9F)
  else if s0 <=? 0xEF then Some (3, locb, hicb)
  else if s0 =? 0xF0 then Some (4, 0x90, hicb)
  else if s0 <=? 0xF3 then Some (4, locb, hicb)
  else if s0 =? 0xF4 then Some (4, locb, 0x8F)
  else None.

(** [DecodeRuneInString]: the first rune of [s] and its width in bytes;
    [(RuneError, 0)] for the empty string and [(RuneError, 1)] for an
    encoding that is invalid, too short, over-long or out of range. *)
Definition DecodeRuneInString (s : string) : Z * nat :=
  match s with
  | EmptyString => (RuneError, 0%nat)
  | String c0 r0 =>
      let s0 := byte_val c0 in
      if s0 <? RuneSelf then (s0, 1%nat)
      else
        match first s0 with
        | None => (RuneError, 1%nat)
        | Some (sz, lo, hi) =>
            match r0 with
            | EmptyString => (RuneError, 1%nat)
            | String c1 r1 =>
                let s1 := byte_val c1 in
                if (s1 <? lo) || (hi <? s1) then (RuneError, 1%nat)
                else if sz <=? 2 then
                  (Z.lor (Z.shiftl (Z.land s0 mask2) 6) (Z.land s1 maskx),
                   2%nat)
                else
                  match r1 with
                  | EmptyString => (RuneError, 1%nat)
                  | String c2 r2 =>
                      let s2 := byte_val c2 in
                      if (s2 <? locb) || (hicb <? s2) then (RuneError, 1%nat)
                      else if sz <=? 3 then
                        (Z.lor (Z.lor (Z.shiftl (Z.land s0 mask3) 12)
                                      (Z.shiftl (Z.land s1 maskx) 6))
                               (Z.land s2 maskx),
                         3%nat)
                      else
                        match r2 with
                        | EmptyString => (RuneError, 1%nat)
                        | String c3 _ =>
                            let s3 := byte_val c3 in
                            if (s3 <? locb) || (hicb <? s3)
                            then (RuneError, 1%nat)
                            else
                              (Z.lor
                                 (Z.lor
                                    (Z.lor (Z.shiftl (Z.land s0 mask4) 18)
                                           (Z.shiftl (Z.land s1 maskx) 12))
                                    (Z.shiftl (Z.land s2 maskx) 6))
                                 (Z.land s3 maskx),
                               4%nat)
                        end
                  end
            end
        end
  end.

(** [RuneStart]: the byte is not a continuation byte. *)
Definition RuneStart (b : Z) : bool := negb (Z.land b 0xC0 =? 0x80).

Definition byte_at (s : string) (i : Z) : Z :=
  match String.get (Z.to_nat i) s with
  | Some c => byte_val c
  | None => 0
  end.

(** The backward search of [DecodeLastRuneInString] for the start of the
    last rune: from [start] down to [lim]. *)
Fixpoint back (k : nat) (s : string) (start lim : Z) : Z :=
  match k with
  | O => start
  | S k' =>
      if start <? lim then start
      else if RuneStart (byte_at s start) then start
      else back k' s (start - 1) lim
  end.

(** [DecodeLastRuneInString]: the last rune of [s] and its width. *)
Definition DecodeLastRuneInString (s : string) : Z * nat :=
  let end_ := len s in
  if end_ =? 0 then (RuneError, 0%nat)
  else
    let r := byte_at s (end_ - 1) in
    if r <? RuneSelf then (r, 1%nat)
    else
      let lim := if end_ - UTFMax <? 0 then 0 else end_ - UTFMax in
      let start := back 4 s (end_ - 2) lim in
      let start := if start <? 0 then 0 else start in
      let '(r, size) := DecodeRuneInString (drop (Z.to_nat start) s) in
      if start + Z.of_nat size =? end_ then (r, size)
      else (RuneError, 1%nat).

(** [AppendRune] to the empty string: the UTF-8 encoding of [r]; a rune
    out of range or a surrogate is written as [RuneError]. *)
Definition EncodeRune (r : Z) : string :=
  if (0 <=? r) && (r <=? 0x7F) then String (byte_of r) EmptyString
  else if (0 <=? r) && (r <=? 0x7FF) then
    String (byte_of (Z.lor t2 (Z.shiftr r 6)))
      (String (byte_of (Z.lor tx (Z.land r maskx))) EmptyString)
  else
    let three (r : Z) :=
      String (byte_of (Z.lor t3 (Z.shiftr r 12)))
        (String (byte_of (Z.lor tx (Z.land (Z.shiftr r 6) maskx)))
           (String (byte_of (Z.lor tx (Z.land r maskx))) EmptyString)) in
    if (r <? 0) || (MaxRune <? r) || ((0xD800 <=? r) && (r <=? 0xDFFF))
    then three RuneError
    else if r <=? 0xFFFF then three r
    else
      String (byte_of (Z.lor t4 (Z.shiftr r 18)))
        (String (byte_of (Z.lor tx (Z.land (Z.shiftr r 12) maskx)))
           (String (byte_of (Z.lor tx (Z.land (Z.shiftr r 6) maskx)))
              (String (byte_of (Z.lor tx (Z.land r maskx))) EmptyString))).

(** [ValidString]: no step of the decoding loop meets an invalid byte. *)
Fixpoint valid_fuel (fuel : nat) (s : string) : bool :=
  match fuel with
  | O => match s with EmptyString => true | _ => false end
  | S f =>
      match s with
      | EmptyString => true
      | String c _ =>
          let '(r, w) := DecodeRuneInString s in
          if (r =? RuneError) && (w =? 1)%nat then false
          else valid_fuel f (drop w s)
      end
  end.

Definition ValidString (s : string) : bool := valid_fuel (String.length s) s.

(** [RuneCountInString]: the number of characters of [s], a byte that
    starts no valid encoding counting for one. *)
Fixpoint count_fuel (fuel : nat) (s : string) : Z :=
  match fuel with
  | O => 0
  | S f =>
      match s with
      | EmptyString => 0
      | String _ _ => 1 + count_fuel f (drop (snd (DecodeRuneInString s)) s)
      end
  end.

Definition RuneCountInString (s : string) : Z :=
  count_fuel (String.length s) s.

End utf8.

Module unicode.

(** [unicode.IsSpace]: the Latin-1 cases and the [White_Space] table. *)
Definition IsSpace (r : Z) : bool :=
  if (0 <=? r) && (r <=? 0xFF) then
    ((0x09 <=? r) && (r <=? 0x0D)) || (r =? 0x20) || (r =? 0x85)
    || (r =? 0xA0)
  else
    (r =? 0x1680) || ((0x2000 <=? r) && (r <=? 0x200A)) || (r =? 0x2028)
    || (r =? 0x2029) || (r =? 0x202F) || (r =? 0x205F) || (r =? 0x3000).

(** [unicode.ToLower], exact on ASCII and on the two other runes whose
    lower case is an ASCII letter (U+0130 and the Kelvin sign U+212A).
    The remaining upper-case letters, which Go maps to lower-case letters
    outside ASCII, are left as they are: a comparison of the result with
    an ASCII suffix, the only use in the code, cannot tell the difference. *)
Definition ToLower (r : Z) : Z :=
  if (0x41 <=? r) && (r <=? 0x5A) then r + 0x20
  else if r =? 0x130 then 0x69
  else if r =? 0x212A then 0x6B
  else r.

End unicode.

Module strings.

Definition HasPrefix (s p : string) : bool := String.prefix p s.

Definition HasSuffix (s suffix : string) : bool :=
  (String.length suffix <=? String.length s)%nat
  && String.eqb (drop (String.length s - String.length suffix) s) suffix.

(** [Contains]: [substr] occurs at some position of [s]. *)
Fixpoint Contains (s substr : string) : bool :=
  HasPrefix s substr
  || match s with
     | EmptyString => false
     | String _ t => Contains t substr
     end.

(** [Map]: the runes of [s], decoded as by [range], each replaced by the
    encoding of its image, or dropped when the image is negative. *)
Fixpoint Map_fuel (fuel : nat) (mapping : Z -> Z) (s : string) : string :=
  match fuel with
  | O => EmptyString
  | S f =>
      match s with
      | EmptyString => EmptyString
      | String _ _ =>
          let '(c, width) := utf8.DecodeRuneInString s in
          let r := mapping c in
          String.append (if 0 <=? r then utf8.EncodeRune r else EmptyString)
                        (Map_fuel f mapping (drop width s))
      end
  end.

Definition Map (mapping : Z -> Z) (s : string) : string :=
  Map_fuel (String.length s) mapping s.

(** [ReplaceAll] for a non-empty [old] (the only use in the code):
    the occurrences of [old], found from left to right without overlap,
    are replaced by [new]. *)
Fixpoint ReplaceAll_fuel (fuel : nat) (s old new : string) : string :=
  match fuel with
  | O => s
  | S f =>
      match s with
      | EmptyString => EmptyString
      | String c t =>
          if HasPrefix s old
          then String.append new
                 (ReplaceAll_fuel f (drop (String.length old) s) old new)
          else String c (ReplaceAll_fuel f t old new)
      end
  end.

Definition ReplaceAll (s old new : string) : string :=
  ReplaceAll_fuel (String.length s) s old new.

(** [TrimLeftFunc] and [TrimRightFunc]: the leading, respectively trailing,
    runes that satisfy [f] are removed. *)
Fixpoint TrimLeftFunc_fuel (fuel : nat) (f : Z -> bool) (s : string) : string :=
  match fuel with
  | O => s
  | S k =>
      match s with
      | EmptyString => EmptyString
      | String _ _ =>
          let '(r, w) := utf8.DecodeRuneInString s in
          if f r then TrimLeftFunc_fuel k f (drop w s) else s
      end
  end.

Definition TrimLeftFunc (s : string) (f : Z -> bool) : string :=
  TrimLeftFunc_fuel (String.length s) f s.

Fixpoint TrimRightFunc_fuel (fuel : nat) (f : Z -> bool) (s : string) : string :=
  match fuel with
  | O => s
  | S k =>
      match s with
      | EmptyString => EmptyString
      | String _ _ =>
          let '(r, size) := utf8.DecodeLastRuneInString s in
          if f r then TrimRightFunc_fuel k f (take (String.length s - size) s)
          else s
      end
  end.

Definition TrimRightFunc (s : string) (f : Z -> bool) : string :=
  TrimRightFunc_fuel (String.length s) f s.

(** [TrimSpace]: leading and trailing white space, as defined by Unicode,
    removed (Go's fast path for ASCII gives the same result). *)
Definition TrimSpace (s : string) : string :=
  TrimRightFunc (TrimLeftFunc s unicode.IsSpace) unicode.IsSpace.

(** [ToLower]. *)
Definition ToLower (s : string) : string := Map unicode.ToLower s.

End strings.

Module hex.

Definition hextable : string := "0123456789abcdef".

Definition digit (v : Z) : ascii :=
  match String.get (Z.to_nat v) hextable with
  | Some c => c
  | None => "0"%char
  end.

(** [EncodeToString]: two lower-case digits per byte. *)
Fixpoint EncodeToString (src : list Z) : string :=
  match src with
  | [] => EmptyString
  | v :: rest =>
      String (digit (Z.shiftr v 4))
        (String (digit (Z.land v 0x0F)) (EncodeToString rest))
  end.

End hex.

Module sha256.

Definition mask32 : Z := 0xFFFFFFFF.
Definition add32 (x y : Z) : Z := Z.land (x + y) mask32.
Definition rotr (n x : Z) : Z :=
  Z.lor (Z.shiftr x n) (Z.land (Z.shiftl x (32 - n)) mask32).
Definition not32 (x : Z) : Z := Z.lxor x mask32.

Definition Ch (x y z : Z) : Z :=
  Z.lxor (Z.land x y) (Z.land (not32 x) z).
Definition Maj (x y z : Z) : Z :=
  Z.lxor (Z.lxor (Z.land x y) (Z.land x z)) (Z.land y z).
Definition Sigma0 (x : Z) : Z :=
  Z.lxor (Z.lxor (rotr 2 x) (rotr 13 x)) (rotr 22 x).
Definition Sigma1 (x : Z) : Z :=
  Z.lxor (Z.lxor (rotr 6 x) (rotr 11 x)) (rotr 25 x).
Definition sigma0 (x : Z) : Z :=
  Z.lxor (Z.lxor (rotr 7 x) (rotr 18 x)) (Z.shiftr x 3).
Definition sigma1 (x : Z) : Z :=
  Z.lxor (Z.lxor (rotr 17 x) (rotr 19 x)) (Z.shiftr x 10).

(** The round constants and the initial hash value are the first 32 bits
    of the fractional parts of the cube roots of the first 64 primes, and
    of the square roots of the first 8. *)
Definition is_prime (n : nat) : bool :=
  forallb (fun d => negb (n mod d =? 0)%nat) (seq 2 (n - 2)).

Definition primes : list Z := map Z.of_nat (filter is_prime (seq 2 310)).

(** The integer cube root, bit by bit from bit [b] down. *)
Fixpoint cbrt_bits (b : nat) (n r : Z) : Z :=
  let r' := r + 2 ^ Z.of_nat b in
  let r := if r' * r' * r' <=? n then r' else r in
  match b with
  | O => r
  | S b' => cbrt_bits b' n r
  end.

Definition frac_cbrt (p : Z) : Z := cbrt_bits 40 (p * 2 ^ 96) 0 mod 2 ^ 32.
Definition frac_sqrt (p : Z) : Z := Z.sqrt (p * 2 ^ 64) mod 2 ^ 32.

Definition K : list Z := Eval vm_compute in map frac_cbrt primes.

Definition init : list Z := Eval vm_compute in map frac_sqrt (firstn 8 primes).

(** The padded message: a 1 bit, zeros up to 56 modulo 64 bytes, and the
    length in bits as 8 bytes, most significant first. *)
Definition be_bytes (n : nat) (v : Z) : list Z :=
  map (fun i => Z.land (Z.shiftr v (8 * Z.of_nat i)) 0xFF) (rev (seq 0 n)).

Definition pad (msg : list Z) : list Z :=
  let l := Z.of_nat (List.length msg) in
  let zeros := Z.to_nat ((55 - l) mod 64) in
  msg ++ [0x80] ++ repeat 0 zeros ++ be_bytes 8 (8 * l).

Fixpoint words (n : nat) (bs : list Z) : list Z :=
  match n with
  | O => []
  | S n' =>
      match bs with
      | b0 :: b1 :: b2 :: b3 :: rest =>
          Z.lor (Z.lor (Z.lor (Z.shiftl b0 24) (Z.shiftl b1 16))
                       (Z.shiftl b2 8)) b3
          :: words n' rest
      | _ => []
      end
  end.

(** The message schedule: from the 16 words of the block, extended to 64;
    [win] holds the last 16 words. *)
Fixpoint schedule (n : nat) (win : list Z) : list Z :=
  match n with
  | O => []
  | S n' =>
      let w := add32 (add32 (sigma1 (nth 14 win 0)) (nth 9 win 0))
                     (add32 (sigma0 (nth 1 win 0)) (nth 0 win 0)) in
      w :: schedule n' (tl win ++ [w])
  end.

Definition round (st : list Z) (kw : Z * Z) : list Z :=
  match st with
  | [a; b; c; d; e; f; g; h] =>
      let t1 := add32 (add32 (add32 h (Sigma1 e)) (Ch e f g))
                      (add32 (fst kw) (snd kw)) in
      let t2 := add32 (Sigma0 a) (Maj a b c) in
      [add32 t1 t2; a; b; c; add32 d t1; e; f; g]
  | _ => st
  end.

Definition block (h : list Z) (blk : list Z) : list Z :=
  let w16 := words 16 blk in
  let w := w16 ++ schedule 48 w16 in
  let st := fold_left round (combine K w) h in
  map (fun p => add32 (fst p) (snd p)) (combine h st).

Fixpoint blocks (n : nat) (h : list Z) (bs : list Z) : list Z :=
  match n with
  | O => h
  | S n' =>
      match bs with
      | [] => h
      | _ => blocks n' (block h (firstn 64 bs)) (skipn 64 bs)
      end
  end.

(** [Sum256]: the 32 bytes of the digest. *)
Definition Sum256 (msg : list Z) : list Z :=
  let p := pad msg in
  flat_map (be_bytes 4) (blocks (List.length p) init p).

End sha256.

Module hmac.

Definition BlockSize : nat := 64.

(** HMAC with SHA-256: a key longer than a block is hashed first, then
    padded with zeros to the block size. *)
Definition key_block (key : list Z) : list Z :=
  let k := if (BlockSize <? List.length key)%nat then sha256.Sum256 key
           else key in
  k ++ repeat 0 (BlockSize - List.length k).

Definition Sum (key msg : list Z) : list Z :=
  let k := key_block key in
  let ipad := map (Z.lxor 0x36) k in
  let opad := map (Z.lxor 0x5c) k in
  sha256.Sum256 (opad ++ sha256.Sum256 (ipad ++ msg)).

(** [hmac.Equal]: equality of the two byte sequences (the comparison takes
    constant time, which has no counterpart here). *)
Definition Equal (a b : string) : bool := String.eqb a b.

End hmac.

Module strconv.

(** [FormatInt(v, 10)]. *)
Definition FormatInt (v : Z) : string := NilZero.string_of_int (Z.to_int v).

Definition is_digit (c : ascii) : bool :=
  (0x30 <=? byte_val c) && (byte_val c <=? 0x39).

Fixpoint digits_value (acc : Z) (s : string) : option Z :=
  match s with
  | EmptyString => Some acc
  | String c t =>
      if is_digit c then digits_value (10 * acc + (byte_val c - 0x30)) t
      else None
  end.

(** [ParseInt(s, 10, 64)]: an optional sign and decimal digits; [None] for
    a syntax error or a value out of the range of [int64]. *)
Definition ParseInt (s : string) : option Z :=
  let '(neg, ds) :=
    match s with
    | String "-"%char t => (true, t)
    | String "+"%char t => (false, t)
    | _ => (false, s)
    end in
  match ds with
  | EmptyString => None
  | _ =>
      match digits_value 0 ds with
      | None => None
      | Some v =>
          let v := if neg then - v else v in
          if (- 2 ^ 63 <=? v) && (v <? 2 ^ 63) then Some v else None
      end
  end.

End strconv.

Module json.

Definition quote : ascii := "034"%char.
Definition backslash : ascii := "092"%char.

(** *** Encoding *)

(** [htmlSafeSet], for a byte below [utf8.RuneSelf]. *)
Definition htmlSafe (b : Z) : bool :=
  (0x20 <=? b) && negb (b =? 0x22) && negb (b =? 0x5C)
  && negb (b =? 0x3C) && negb (b =? 0x3E) && negb (b =? 0x26).

Definition escape_byte (b : Z) : string :=
  if (b =? 0x5C) || (b =? 0x22) then String backslash (String (byte_of b) "")
  else if b =? 0x08 then String backslash "b"
  else if b =? 0x0C then String backslash "f"
  else if b =? 0x0A then String backslash "n"
  else if b =? 0x0D then String backslash "r"
  else if b =? 0x09 then String backslash "t"
  else
    String backslash
      (String "u" (String "0" (String "0"
         (String (hex.digit (Z.shiftr b 4))
            (String (hex.digit (Z.land b 0xF)) ""))))).

(** The body of [appendString] with HTML escaping, between the quotes. *)
Fixpoint escape_fuel (fuel : nat) (src : string) : string :=
  match fuel with
  | O => EmptyString
  | S f =>
      match src with
      | EmptyString => EmptyString
      | String c t =>
          let b := byte_val c in
          if b <? utf8.RuneSelf then
            if htmlSafe b then String c (escape_fuel f t)
            else String.append (escape_byte b) (escape_fuel f t)
          else
            let '(r, size) := utf8.DecodeRuneInString (take 4 src) in
            if (r =? utf8.RuneError) && (size =? 1)%nat then
              String.append (String backslash "ufffd")
                            (escape_fuel f (drop size src))
            else if (r =? 0x2028) || (r =? 0x2029) then
              String.append
                (String.append (String backslash "u202")
                   (String (hex.digit (Z.land r 0xF)) ""))
                (escape_fuel f (drop size src))
            else
              String.append (take size src) (escape_fuel f (drop size src))
      end
  end.

Definition appendString (src : string) : string :=
  String quote
    (String.append (escape_fuel (String.length src) src) (String quote "")).

Definition appendStrings (l : list string) : string :=
  String.append "[" (String.append (String.concat "," (map appendString l)) "]").

(** A struct: the fields that are not omitted, as name and encoded value. *)
Definition appendObject (fields : list (string * string)) : string :=
  String.append "{"
    (String.append
       (String.concat ","
          (map (fun kv => String.append (appendString (fst kv))
                            (String.append ":" (snd kv))) fields))
       "}").

(** *** Decoding *)

#[local] Unset Elimination Schemes.
Inductive value : Type :=
| VNull
| VBool (b : bool)
| VNumber (lit : string)
| VString (s : string)
| VArray (l : list value)
| VObject (l : list (string * value)).
#[local] Set Elimination Schemes.

Definition is_space (c : ascii) : bool :=
  let b := byte_val c in
  (b =? 0x20) || (b =? 0x09) || (b =? 0x0D) || (b =? 0x0A).

Fixpoint skip_ws (s : string) : string :=
  match s with
  | String c t => if is_space c then skip_ws t else s
  | EmptyString => s
  end.

Definition hexval (c : ascii) : option Z :=
  let b := byte_val c in
  if (0x30 <=? b) && (b <=? 0x39) then Some (b - 0x30)
  else if (0x61 <=? b) && (b <=? 0x66) then Some (b - 0x61 + 10)
  else if (0x41 <=? b) && (b <=? 0x46) then Some (b - 0x41 + 10)
  else None.

(** [getu4]: the four hexadecimal digits after a backslash and [u]. *)
Definition getu4 (s : string) : option Z :=
  match s with
  | String a (String b (String c (String d _))) =>
      match hexval a, hexval b, hexval c, hexval d with
      | Some x, Some y, Some z, Some w =>
          Some (((x * 16 + y) * 16 + z) * 16 + w)
      | _, _, _, _ => None
      end
  | _ => None
  end.

Definition IsSurrogate (r : Z) : bool := (0xD800 <=? r) && (r <? 0xE000).

(** [utf16.DecodeRune]. *)
Definition utf16_DecodeRune (r1 r2 : Z) : Z :=
  if (0xD800 <=? r1) && (r1 <? 0xDC00) && (0xDC00 <=? r2) && (r2 <? 0xE000)
  then Z.lor (Z.shiftl (r1 - 0xD800) 10) (r2 - 0xDC00) + 0x10000
  else utf8.RuneError.

Definition simple_escape (c : ascii) : option ascii :=
  let b := byte_val c in
  if b =? 0x22 then Some quote
  else if b =? 0x5C then Some backslash
  else if b =? 0x2F then Some "/"%char
  else if b =? 0x62 then Some "008"%char
  else if b =? 0x66 then Some "012"%char
  else if b =? 0x6E then Some "010"%char
  else if b =? 0x72 then Some "013"%char
  else if b =? 0x74 then Some "009"%char
  else None.

(** A string literal, after its opening quote: the decoded string and the
    input after the closing quote.  Invalid UTF-8 and unpaired surrogate
    escapes become U+FFFD, as in [unquote]. *)
Fixpoint parse_string (fuel : nat) (s : string) : option (string * string) :=
  match fuel with
  | O => None
  | S f =>
      match s with
      | EmptyString => None
      | String c t =>
          let b := byte_val c in
          if b =? 0x22 then Some (EmptyString, t)
          else if b =? 0x5C then
            match t with
            | EmptyString => None
            | String e t' =>
                match simple_escape e with
                | Some ch =>
                    match parse_string f t' with
                    | Some (d, rest) => Some (String ch d, rest)
                    | None => None
                    end
                | None =>
                    if byte_val e =? 0x75 then
                      match getu4 t' with
                      | None => None
                      | Some rr =>
                          let t4 := drop 4 t' in
                          let '(rr, cont) :=
                            if IsSurrogate rr then
                              match t4 with
                              | String b1 (String u1 t5) =>
                                  if (byte_val b1 =? 0x5C)
                                     && (byte_val u1 =? 0x75) then
                                    match getu4 t5 with
                                    | Some rr1 =>
                                        let dec := utf16_DecodeRune rr rr1 in
                                        if dec =? utf8.RuneError
                                        then (utf8.RuneError, t4)
                                        else (dec, drop 4 t5)
                                    | None => (utf8.RuneError, t4)
                                    end
                                  else (utf8.RuneError, t4)
                              | _ => (utf8.RuneError, t4)
                              end
                            else (rr, t4) in
                          match parse_string f cont with
                          | Some (d, rest) =>
                              Some (String.append (utf8.EncodeRune rr) d, rest)
                          | None => None
                          end
                      end
                    else None
                end
            end
          else if b <? 0x20 then None
          else if b <? utf8.RuneSelf then
            match parse_string f t with
            | Some (d, rest) => Some (String c d, rest)
            | None => None
            end
          else
            let '(rr, size) := utf8.DecodeRuneInString s in
            match parse_string f (drop size s) with
            | Some (d, rest) =>
                Some (String.append (utf8.EncodeRune rr) d, rest)
            | None => None
            end
      end
  end.

Fixpoint span_digits (s : string) : string * string :=
  match s with
  | String c t =>
      if strconv.is_digit c then
        let '(ds, rest) := span_digits t in (String c ds, rest)
      else (EmptyString, s)
  | EmptyString => (EmptyString, EmptyString)
  end.

(** A number literal: sign, integer part without a leading zero, fraction
    and exponent. *)
Definition parse_number (s : string) : option (string * string) :=
  let '(sign, s1) :=
    match s with
    | String "-"%char t => ("-", t)
    | _ => (EmptyString, s)
    end in
  let '(int_part, s2) :=
    match s1 with
    | String "0"%char t => ("0", t)
    | _ => span_digits s1
    end in
  match int_part with
  | EmptyString => None
  | _ =>
      let frac :=
        match s2 with
        | String "."%char t =>
            let '(ds, rest) := span_digits t in
            match ds with
            | EmptyString => None
            | _ => Some (String "." ds, rest)
            end
        | _ => Some (EmptyString, s2)
        end in
      match frac with
      | None => None
      | Some (frac_part, s3) =>
          let exp :=
            match s3 with
            | String e t =>
                if (byte_val e =? 0x65) || (byte_val e =? 0x45) then
                  let '(esign, t1) :=
                    match t with
                    | String "+"%char u => ("+", u)
                    | String "-"%char u => ("-", u)
                    | _ => (EmptyString, t)
                    end in
                  let '(ds, rest) := span_digits t1 in
                  match ds with
                  | EmptyString => None
                  | _ => Some (String e (String.append esign ds), rest)
                  end
                else Some (EmptyString, s3)
            | EmptyString => Some (EmptyString, s3)
            end in
          match exp with
          | None => None
          | Some (exp_part, s4) =>
              Some (String.append sign
                      (String.append int_part
                         (String.append frac_part exp_part)), s4)
          end
      end
  end.

(** The scanner refuses a document whose objects and arrays are nested
    deeper than this. *)
Definition maxNestingDepth : Z := 10000.

(** A JSON value, white space before it skipped: the value and the input
    after it; [depth] counts the objects and arrays that are open around
    it. *)
Fixpoint parse_value (fuel : nat) (depth : Z) (s : string)
  : option (value * string) :=
  match fuel with
  | O => None
  | S f =>
      match skip_ws s with
      | EmptyString => None
      | String c t =>
          let b := byte_val c in
          if ((b =? 0x7B) || (b =? 0x5B)) && (maxNestingDepth <? depth + 1)
          then None
          else if b =? 0x7B then
            match skip_ws t with
            | String "}"%char t' => Some (VObject [], t')
            | _ =>
                match parse_members f (depth + 1) t with
                | Some (ms, rest) => Some (VObject ms, rest)
                | None => None
                end
            end
          else if b =? 0x5B then
            match skip_ws t with
            | String "]"%char t' => Some (VArray [], t')
            | _ =>
                match parse_elements f (depth + 1) t with
                | Some (vs, rest) => Some (VArray vs, rest)
                | None => None
                end
            end
          else if b =? 0x22 then
            match parse_string (S (String.length t)) t with
            | Some (d, rest) => Some (VString d, rest)
            | None => None
            end
          else if (b =? 0x2D) || strconv.is_digit c then
            match parse_number (String c t) with
            | Some (lit, rest) => Some (VNumber lit, rest)
            | None => None
            end
          else if strings.HasPrefix (String c t) "true"
          then Some (VBool true, drop 4 (String c t))
          else if strings.HasPrefix (String c t) "false"
          then Some (VBool false, drop 5 (String c t))
          else if strings.HasPrefix (String c t) "null"
          then Some (VNull, drop 4 (String c t))
          else None
      end
  end
with parse_members (fuel : nat) (depth : Z) (s : string)
     : option (list (string * value) * string) :=
  match fuel with
  | O => None
  | S f =>
      match skip_ws s with
      | String q t =>
          if byte_val q =? 0x22 then
            match parse_string (S (String.length t)) t with
            | None => None
            | Some (k, t1) =>
                match skip_ws t1 with
                | String ":"%char t2 =>
                    match parse_value f depth t2 with
                    | None => None
                    | Some (v, t3) =>
                        match skip_ws t3 with
                        | String ","%char t4 =>
                            match parse_members f depth t4 with
                            | Some (ms, t5) => Some ((k, v) :: ms, t5)
                            | None => None
                            end
                        | String "}"%char t4 => Some ([(k, v)], t4)
                        | _ => None
                        end
                    end
                | _ => None
                end
            end
          else None
      | EmptyString => None
      end
  end
with parse_elements (fuel : nat) (depth : Z) (s : string)
     : option (list value * string) :=
  match fuel with
  | O => None
  | S f =>
      match parse_value f depth s with
      | None => None
      | Some (v, t1) =>
          match skip_ws t1 with
          | String ","%char t2 =>
              match parse_elements f depth t2 with
              | Some (vs, t3) => Some (v :: vs, t3)
              | None => None
              end
          | String "]"%char t2 => Some ([v], t2)
          | _ => None
          end
      end
  end.

(** A whole document: one value, and nothing but white space after it. *)
Definition parse (data : string) : option value :=
  match parse_value (2 * String.length data + 2) 0 data with
  | Some (v, rest) =>
      match skip_ws rest with
      | EmptyString => Some v
      | _ => None
      end
  | None => None
  end.

(** The folding of field names: [foldName] maps a name to its upper-case
    form, the long s (U+017F) and the Kelvin sign (U+212A) included, the
    two runes outside ASCII that fold to an ASCII letter.  The other runes
    outside ASCII are left as they are: they fold to no ASCII letter, and
    the names of the fields are ASCII. *)
Definition foldRune (r : Z) : Z :=
  if (0x61 <=? r) && (r <=? 0x7A) then r - 0x20
  else if r =? 0x17F then 0x53
  else if r =? 0x212A then 0x4B
  else r.

Definition foldName (s : string) : string := strings.Map foldRune s.

End json.

Module url.

(** The parts of a parsed URL that the code reads or writes back, as
    they were written: [Host] is the authority (user information and port
    included), [Path] the path and [Fragment] the fragment, their escapes
    not decoded. *)
Record URL : Type := mkURL {
  Scheme : string;
  Opaque : string;
  Host : string;
  Path : string;
  ForceQuery : bool;
  RawQuery : string;
  Fragment : string;
  OmitHost : bool
}.

(** [strings.Cut] at the first occurrence of the byte [sep]. *)
Fixpoint Cut (s : string) (sep : ascii) : string * string * bool :=
  match s with
  | EmptyString => (EmptyString, EmptyString, false)
  | String c t =>
      if Ascii.eqb c sep then (EmptyString, t, true)
      else let '(a, b, found) := Cut t sep in (String c a, b, found)
  end.

Definition stringContainsCTLByte (s : string) : bool :=
  existsb (fun b => (b <? 0x20) || (b =? 0x7F)) (bytes s).

Definition is_alpha (b : Z) : bool :=
  ((0x61 <=? b) && (b <=? 0x7A)) || ((0x41 <=? b) && (b <=? 0x5A)).

(** [getScheme]: [None] for a URL that starts with a colon, otherwise the
    scheme, empty when there is none, and the rest. *)
Fixpoint getScheme_from (i : nat) (rawURL s : string)
  : option (string * string) :=
  match s with
  | EmptyString => Some (EmptyString, rawURL)
  | String c t =>
      let b := byte_val c in
      if is_alpha b then getScheme_from (S i) rawURL t
      else if strconv.is_digit c || (b =? 0x2B) || (b =? 0x2D) || (b =? 0x2E)
      then
        match i with
        | O => Some (EmptyString, rawURL)
        | _ => getScheme_from (S i) rawURL t
        end
      else if b =? 0x3A then
        match i with
        | O => None
        | _ => Some (take i rawURL, t)
        end
      else Some (EmptyString, rawURL)
  end.

Definition getScheme (rawURL : string) : option (string * string) :=
  getScheme_from 0 rawURL rawURL.

(** [validOptionalPort]: empty, or a colon and decimal digits. *)
Definition validOptionalPort (port : string) : bool :=
  match port with
  | EmptyString => true
  | String c t => Ascii.eqb c ":" && forallb strconv.is_digit (list_ascii_of_string t)
  end.

(** The part of [s] from the last occurrence of the byte [sep] on. *)
Fixpoint from_last (s : string) (sep : ascii) (acc : option string)
  : option string :=
  match s with
  | EmptyString => acc
  | String c t =>
      if Ascii.eqb c sep then from_last t sep (Some (String c t))
      else from_last t sep acc
  end.

(** *** Escaping *)

Definition unhex (c : ascii) : option Z := json.hexval c.

Definition unreserved (b : Z) : bool :=
  is_alpha b || ((0x30 <=? b) && (b <=? 0x39))
  || (b =? 0x2D) || (b =? 0x5F) || (b =? 0x2E) || (b =? 0x7E).

Definition upperhex : string := "0123456789ABCDEF".

Definition upper_digit (v : Z) : ascii :=
  match String.get (Z.to_nat v) upperhex with
  | Some c => c
  | None => "0"%char
  end.

(** The part of a URL that a string is escaped for. *)
Inductive encoding : Type :=
| encodePath
| encodeHost
| encodeZone
| encodeUserPassword
| encodeFragment.

Definition is_host_mode (mode : encoding) : bool :=
  match mode with
  | encodeHost | encodeZone => true
  | _ => false
  end.

Definition one_of (b : Z) (chars : string) : bool :=
  existsb (Z.eqb b) (bytes chars).

(** [shouldEscape]. *)
Definition shouldEscape (c : Z) (mode : encoding) : bool :=
  if is_alpha c || ((0x30 <=? c) && (c <=? 0x39)) then false
  else if is_host_mode mode
          && (one_of c "!$&'()*+,;=:[]<>" || (c =? 0x22))
  then false
  else if one_of c "-_.~" then false
  else if one_of c "$&+,/:;=?@" then
    match mode with
    | encodePath => c =? 0x3F
    | encodeUserPassword =>
        (c =? 0x40) || (c =? 0x2F) || (c =? 0x3F) || (c =? 0x3A)
    | encodeFragment => false
    | encodeHost | encodeZone => true
    end
  else
    match mode with
    | encodeFragment => negb (one_of c "!()*")
    | _ => true
    end.

(** [unescape]: the string with its percent escapes decoded; [None] for
    an escape that is not a percent sign and two hexadecimal digits, for
    an escape that the host does not allow, and for a byte that cannot
    stand in a host. *)
Fixpoint unescape (s : string) (mode : encoding) : option string :=
  match s with
  | EmptyString => Some EmptyString
  | String "%"%char (String a (String b t)) =>
      match unhex a, unhex b with
      | Some x, Some y =>
          let is25 := (x =? 2) && (y =? 5) in
          let v := x * 16 + y in
          let refused :=
            match mode with
            | encodeHost => (x <? 8) && negb is25
            | encodeZone =>
                negb is25 && negb (v =? 0x20) && shouldEscape v encodeHost
            | _ => false
            end in
          if refused then None
          else
            match unescape t mode with
            | Some r => Some (String (byte_of v) r)
            | None => None
            end
      | _, _ => None
      end
  | String "%"%char _ => None
  | String c t =>
      if is_host_mode mode && (byte_val c <? 0x80)
         && shouldEscape (byte_val c) encodeHost
      then None
      else
        match unescape t mode with
        | Some r => Some (String c r)
        | None => None
        end
  end.

(** [escape]. *)
Fixpoint escape (s : string) (mode : encoding) : string :=
  match s with
  | EmptyString => EmptyString
  | String c t =>
      let b := byte_val c in
      if shouldEscape b mode
      then String "%" (String (upper_digit (Z.shiftr b 4))
                         (String (upper_digit (Z.land b 15)) (escape t mode)))
      else String c (escape t mode)
  end.

(** [validEncoded]: the string can be written as it is. *)
Definition validEncoded (s : string) (mode : encoding) : bool :=
  forallb (fun b => one_of b "!$&'()*+,;=:@[]%" || negb (shouldEscape b mode))
          (bytes s).

(** *** The authority *)

(** Where the last occurrence of the byte [sep] is. *)
Fixpoint last_index (s : string) (sep : ascii) : option nat :=
  match s with
  | EmptyString => None
  | String c t =>
      match last_index t sep with
      | Some i => Some (S i)
      | None => if Ascii.eqb c sep then Some O else None
      end
  end.

(** Where the first occurrence of [substr] is. *)
Fixpoint index (s substr : string) : option nat :=
  if strings.HasPrefix s substr then Some O
  else
    match s with
    | EmptyString => None
    | String _ t =>
        match index t substr with
        | Some i => Some (S i)
        | None => None
        end
    end.

(** [parseHost]: the host with its escapes decoded.  A host in brackets
    must have its closing bracket, followed by nothing or by a port; what
    stands between the brackets is not looked at, beyond its escapes
    (the releases of Go since October 2025 want an IPv6 address there). *)
Definition parseHost (host : string) : option string :=
  if strings.HasPrefix host "[" then
    match last_index host "]" with
    | None => None
    | Some i =>
        if negb (validOptionalPort (drop (S i) host)) then None
        else
          match index (take i host) "%25" with
          | Some zone =>
              match unescape (take zone host) encodeHost,
                    unescape (take (i - zone) (drop zone host)) encodeZone,
                    unescape (drop i host) encodeHost with
              | Some host1, Some host2, Some host3 =>
                  Some (String.append host1 (String.append host2 host3))
              | _, _, _ => None
              end
          | None => unescape host encodeHost
          end
    end
  else
    match from_last host ":" None with
    | Some colonPort =>
        if validOptionalPort colonPort then unescape host encodeHost else None
    | None => unescape host encodeHost
    end.

(** [validUserinfo]. *)
Definition validUserinfo (s : string) : bool :=
  forallb (fun b => is_alpha b || ((0x30 <=? b) && (b <=? 0x39))
                    || one_of b "-._:~!$&'()*+,;=%@")
          (bytes s).

(** The user information and the host of an authority: what stands
    before and after its last [@]. *)
Definition split_authority (authority : string) : option string * string :=
  match last_index authority "@" with
  | Some i => (Some (take i authority), drop (S i) authority)
  | None => (None, authority)
  end.

(** The name and, after the first colon, the password, their escapes
    decoded. *)
Definition parseUserinfo (userinfo : string)
  : option (string * option string) :=
  if negb (validUserinfo userinfo) then None
  else if negb (strings.Contains userinfo ":") then
    match unescape userinfo encodeUserPassword with
    | Some name => Some (name, None)
    | None => None
    end
  else
    let '(name, password, _) := Cut userinfo ":" in
    match unescape name encodeUserPassword,
          unescape password encodeUserPassword with
    | Some name', Some password' => Some (name', Some password')
    | _, _ => None
    end.

(** [parseAuthority]: the user information and the host. *)
Definition parseAuthority (authority : string)
  : option (option (string * option string) * string) :=
  let '(userinfo, host) := split_authority authority in
  match parseHost host with
  | None => None
  | Some host' =>
      match userinfo with
      | None => Some (None, host')
      | Some ui =>
          match parseUserinfo ui with
          | Some user => Some (Some user, host')
          | None => None
          end
      end
  end.

(** [url.Parse].  The authority, the path and the fragment are checked
    as Go checks them and kept as they were written: [String_] decodes and
    escapes them again. *)
Definition Parse (rawURL : string) : option URL :=
  let '(u, frag, _) := Cut rawURL "#" in
  let parsed :=
    if stringContainsCTLByte u then None
    else if String.eqb u "*" then
      Some (mkURL "" "" "" "*" false "" frag false)
    else
      match getScheme u with
      | None => None
      | Some (scheme, rest) =>
          let scheme := strings.ToLower scheme in
          let '(rest, force, rawq) :=
            let '(a, b, found) := Cut rest "?" in
            if found && String.eqb b "" then (a, true, EmptyString)
            else (a, false, b) in
          if negb (strings.HasPrefix rest "/") && negb (String.eqb scheme "")
          then Some (mkURL scheme rest "" "" force rawq frag false)
          else if negb (strings.HasPrefix rest "/")
                  && (let '(segment, _, _) := Cut rest "/" in
                      strings.Contains segment ":")
          then None
          else if (negb (String.eqb scheme "")
                   || negb (strings.HasPrefix rest "///"))
                  && strings.HasPrefix rest "//"
          then
            let auth_rest := drop 2 rest in
            let '(authority, tail, found) := Cut auth_rest "/" in
            let path := if found then String "/" tail else EmptyString in
            match parseAuthority authority, unescape path encodePath with
            | Some _, Some _ =>
                Some (mkURL scheme "" authority path force rawq frag false)
            | _, _ => None
            end
          else
            match unescape rest encodePath with
            | Some _ =>
                Some (mkURL scheme "" "" rest force rawq frag
                        (negb (String.eqb scheme "")
                         && strings.HasPrefix rest "/"))
            | None => None
            end
      end in
  match parsed, unescape frag encodeFragment with
  | Some url, Some _ => Some url
  | _, _ => None
  end.

(** [EscapedPath] and [EscapedFragment] for a part that was written as
    [raw]: [raw] itself when it is a valid encoding that is not the
    default one, otherwise the default encoding of what it decodes to. *)
Definition escaped (raw : string) (mode : encoding) (star : bool) : string :=
  match unescape raw mode with
  | None => raw
  | Some decoded =>
      if negb (String.eqb raw (escape decoded mode)) && validEncoded raw mode
      then raw
      else if star && String.eqb decoded "*" then "*"
      else escape decoded mode
  end.

(** [Userinfo.String]. *)
Definition userString (user : string * option string) : string :=
  String.append (escape (fst user) encodeUserPassword)
    match snd user with
    | Some password =>
        String.append ":" (escape password encodeUserPassword)
    | None => EmptyString
    end.

(** The authority as [URL.String] writes it. *)
Definition authorityString (authority : string) : string :=
  match parseAuthority authority with
  | None => authority
  | Some (user, host) =>
      String.append
        match user with
        | Some ui => String.append (userString ui) "@"
        | None => EmptyString
        end
        (escape host encodeHost)
  end.

(** [URL.String]. *)
Definition String_ (u : URL) : string :=
  let scheme :=
    if String.eqb (Scheme u) "" then EmptyString
    else String.append (Scheme u) ":" in
  let authority :=
    if negb (String.eqb (Scheme u) "") || negb (String.eqb (Host u) "")
    then
      if OmitHost u && String.eqb (Host u) "" then EmptyString
      else
        String.append
          (if negb (String.eqb (Host u) "") || negb (String.eqb (Path u) "")
           then "//" else EmptyString)
          (authorityString (Host u))
    else EmptyString in
  let escapedPath := escaped (Path u) encodePath true in
  let path :=
    String.append
      (if negb (String.eqb escapedPath "")
          && negb (strings.HasPrefix escapedPath "/")
          && negb (String.eqb (snd (split_authority (Host u))) "")
       then "/"
       else if String.eqb scheme "" && String.eqb authority ""
               && (let '(segment, _, _) := Cut escapedPath "/" in
                   strings.Contains segment ":")
       then "./"
       else EmptyString)
      escapedPath in
  let body :=
    if negb (String.eqb (Opaque u) "") then Opaque u
    else String.append authority path in
  let query :=
    if ForceQuery u || negb (String.eqb (RawQuery u) "")
    then String.append "?" (RawQuery u)
    else EmptyString in
  let fragment :=
    if String.eqb (Fragment u) "" then EmptyString
    else String.append "#" (escaped (Fragment u) encodeFragment false) in
  String.append scheme (String.append body (String.append query fragment)).

(** *** Query values *)

(** [QueryUnescape]. *)
Fixpoint QueryUnescape (s : string) : option string :=
  match s with
  | EmptyString => Some EmptyString
  | String "%"%char (String a (String b t)) =>
      match unhex a, unhex b, QueryUnescape t with
      | Some x, Some y, Some r => Some (String (byte_of (x * 16 + y)) r)
      | _, _, _ => None
      end
  | String "%"%char _ => None
  | String "+"%char t =>
      match QueryUnescape t with
      | Some r => Some (String " " r)
      | None => None
      end
  | String c t =>
      match QueryUnescape t with
      | Some r => Some (String c r)
      | None => None
      end
  end.

(** [QueryEscape]. *)
Fixpoint QueryEscape (s : string) : string :=
  match s with
  | EmptyString => EmptyString
  | String c t =>
      let b := byte_val c in
      if unreserved b then String c (QueryEscape t)
      else if b =? 0x20 then String "+" (QueryEscape t)
      else String "%" (String (upper_digit (Z.shiftr b 4))
                         (String (upper_digit (Z.land b 15)) (QueryEscape t)))
  end.

(** The pieces of a string between the occurrences of [sep]. *)
Fixpoint split (s : string) (sep : ascii) : list string :=
  match s with
  | EmptyString => [EmptyString]
  | String c t =>
      if Ascii.eqb c sep then EmptyString :: split t sep
      else
        match split t sep with
        | piece :: rest => String c piece :: rest
        | [] => [String c EmptyString]
        end
  end.

(** [ParseQuery], its error dropped as [URL.Query] does: the pairs that
    parse, in order; a pair with a semicolon or a bad escape is skipped. *)
Definition parse_pair (kv : string) : list (string * string) :=
  if String.eqb kv "" then []
  else if strings.Contains kv ";" then []
  else
    let '(k, v, _) := Cut kv "=" in
    match QueryUnescape k, QueryUnescape v with
    | Some k', Some v' => [(k', v')]
    | _, _ => []
    end.

Definition Query (u : URL) : list (string * string) :=
  flat_map parse_pair (split (RawQuery u) "&").

(** [Values.Get]: the first value of the key, or the empty string. *)
Fixpoint Get (q : list (string * string)) (key : string) : string :=
  match q with
  | [] => EmptyString
  | (k, v) :: rest => if String.eqb k key then v else Get rest key
  end.

Definition Del (q : list (string * string)) (key : string)
  : list (string * string) :=
  filter (fun kv => negb (String.eqb (fst kv) key)) q.

Fixpoint insert_by_key (kv : string * string) (l : list (string * string))
  : list (string * string) :=
  match l with
  | [] => [kv]
  | x :: rest =>
      if String.ltb (fst kv) (fst x) then kv :: l
      else x :: insert_by_key kv rest
  end.

(** [Values.Encode]: the pairs sorted by key, the values of one key in
    their order. *)
Definition Encode (q : list (string * string)) : string :=
  String.concat "&"
    (map (fun kv => String.append (QueryEscape (fst kv))
                      (String.append "=" (QueryEscape (snd kv))))
         (fold_left (fun acc kv => insert_by_key kv acc) q [])).

End url.

Module time.

Definition Second : Z := 1000000000.
Definition Minute : Z := 60 * Second.

(** A time is a number of nanoseconds since the Unix epoch. *)
Definition Unix (t : Z) : Z := t / Second.
Definition UnixNano (t : Z) : Z := wrap64 t.

(** [t.Sub(u)] saturates at the limits of [Duration]. *)
Definition Sub (t u : Z) : Z :=
  let d := t - u in
  if d <? - 2 ^ 63 then - 2 ^ 63
  else if 2 ^ 63 - 1 <? d then 2 ^ 63 - 1
  else d.

Definition num (n : nat) (s : string) : option (Z * string) :=
  let ds := take n s in
  if (String.length ds =? n)%nat
  then
    match strconv.digits_value 0 ds with
    | Some v => Some (v, drop n s)
    | None => None
    end
  else None.

Definition lit (c : ascii) (s : string) : option string :=
  match s with
  | String d t => if Ascii.eqb c d then Some t else None
  | EmptyString => None
  end.

Definition isLeap (year : Z) : bool :=
  (year mod 4 =? 0) && (negb (year mod 100 =? 0) || (year mod 400 =? 0)).

Definition daysIn (month year : Z) : Z :=
  if month =? 2 then (if isLeap year then 29 else 28)
  else if (month =? 4) || (month =? 6) || (month =? 9) || (month =? 11)
  then 30 else 31.

(** Days from the epoch to the civil date. *)
Definition days (y m d : Z) : Z :=
  let y := if m <=? 2 then y - 1 else y in
  let era := y / 400 in
  let yoe := y - era * 400 in
  let mp := (m + 9) mod 12 in
  let doy := (153 * mp + 2) / 5 + d - 1 in
  let doe := yoe * 365 + yoe / 4 - yoe / 100 + doy in
  era * 146097 + doe - 719468.

(** The fraction of a second that may follow the seconds: a period or a
    comma and digits, of which nine count. *)
Definition fraction (s : string) : Z * string :=
  match s with
  | String c (String d t) =>
      if (Ascii.eqb c "." || Ascii.eqb c ",") && strconv.is_digit d then
        let '(ds, rest) := json.span_digits (String d t) in
        let nine := take 9 (String.append ds "000000000") in
        match strconv.digits_value 0 nine with
        | Some v => (v, rest)
        | None => (0, rest)
        end
      else (0, s)
  | _ => (0, s)
  end.

(** [getnum]: a number of two digits, or of one digit when the next byte
    is not a digit and the field is not of fixed width. *)
Definition getnum (fixed : bool) (s : string) : option (Z * string) :=
  match s with
  | String d0 t =>
      if strconv.is_digit d0 then
        match t with
        | String d1 t' =>
            if strconv.is_digit d1
            then Some ((byte_val d0 - 0x30) * 10 + (byte_val d1 - 0x30), t')
            else if fixed then None else Some (byte_val d0 - 0x30, t)
        | EmptyString => if fixed then None else Some (byte_val d0 - 0x30, t)
        end
      else None
  | EmptyString => None
  end.

Fixpoint cutspace (s : string) : string :=
  match s with
  | String " "%char t => cutspace t
  | _ => s
  end.

(** [skip] for a space of the layout: a run of spaces of the value. *)
Definition skip_space (s : string) : option string :=
  match s with
  | EmptyString => Some EmptyString
  | String " "%char _ => Some (cutspace s)
  | _ => None
  end.

(** [time.Parse("2006-01-02 15:04:05", value)], in UTC: the year in four
    digits, the month, the day, the minute and the second in two, the
    hour in one or two. *)
Definition Parse (value : string) : option Z :=
  match num 4 value with
  | None => None
  | Some (year, s) =>
  match lit "-" s with None => None | Some s =>
  match getnum true s with None => None | Some (month, s) =>
  match lit "-" s with None => None | Some s =>
  match getnum true s with None => None | Some (day, s) =>
  match skip_space s with None => None | Some s =>
  match getnum false s with None => None | Some (hour, s) =>
  match lit ":" s with None => None | Some s =>
  match getnum true s with None => None | Some (min, s) =>
  match lit ":" s with None => None | Some s =>
  match getnum true s with None => None | Some (sec, s) =>
    let '(nsec, s) := fraction s in
    if negb (String.eqb s "") then None
    else if (month <? 1) || (12 <? month) || (day <? 1)
            || (daysIn month year <? day) || (23 <? hour) || (59 <? min)
            || (59 <? sec)
    then None
    else
      Some ((((days year month day * 24 + hour) * 60 + min) * 60 + sec)
              * Second + nsec)
  end end end end end end end end end end end.

End time.

(** * Part II: the validator file *)

(** ** Constants *)

Definition MessageTypeMessage : string := "message".
Definition MessageTypeStatus : string := "status".
Definition MessageTypeError : string := "error".
Definition MessageTypePing : string := "ping".
Definition MessageTypePong : string := "pong".

Definition StatusDelivered : string := "delivered".
Definition StatusRead : string := "read".
Definition StatusSent : string := "sent".
Definition StatusFailed : string := "failed".

Definition MaxContentLength : Z := 4096.
Definition MaxReconnectAttempts : Z := 5.

Definition Second : Z := time.Second.
Definition InitialReconnectDelay : Z := 1 * Second.
Definition MaxReconnectDelay : Z := 30 * Second.

(** ** Errors

    One constructor for each [fmt.Errorf] of the two files; a constructor
    with an argument of type [error] wraps it, as [%w] does. *)
Inductive error : Type :=
| errInvalidJSON                 (* invalid JSON: ... *)
| errInvalidMessageType (t : string)   (* invalid message type: t *)
| errUnsupportedMessageType (t : string)
| errOutgoingType                (* outgoing message type must be 'message' *)
| errPhoneEmpty                  (* phone number cannot be empty *)
| errPhoneLength                 (* phone number must be between 1 and 50 characters *)
| errInvalidRecipient (e : error)
| errInvalidSender (e : error)
| errMissingFrom                 (* missing 'from' field *)
| errNoContentOrMedia            (* message must have either content or media *)
| errContentTooLong              (* content exceeds maximum length of 4096 characters *)
| errContentValidation (e : error)
| errTraversal                   (* invalid media path: directory traversal detected *)
| errExtension                   (* invalid media file extension *)
| errInvalidMediaPath (e : error)
| errMissingSignature            (* missing signature *)
| errInvalidSignature            (* invalid signature *)
| errSignatureVerification (e : error)
| errSignFailed (e : error)
| errStatusMissingID
| errStatusMissingStatus
| errInvalidStatus (s : string)
| errErrorMissing
| errErrorTooLong
| errBridgeURLEmpty              (* bridge URL cannot be empty *)
| errInvalidURLFormat            (* invalid URL format: ... *)
| errInvalidURL                  (* invalid URL: ... *)
| errSchemeGot (scheme : string) (* URL scheme must be ws or wss, got: scheme *)
| errScheme                      (* URL scheme must be ws or wss *)
| errInvalidBridgeURL (e : error)
| errConnectionFailed            (* connection failed ... *)
| errMissingAuthHeaders
| errServerTimestampFormat
| errServerTimestampOld
| errBridgeValidation (e : error)
| errAlreadyConnecting           (* connection already in progress *)
| errConnectFailed (e : error)   (* failed to connect to WhatsApp bridge: ... *)
| errNotEstablished              (* whatsapp connection not established *)
| errMessageValidation (e : error)
| errWriteDeadline
| errSendFailed
| errNotConnected.               (* not connected *)

(** ** Messages *)

Module IncomingMessage.
Record t : Type := mk {
  Type_ : string;
  ID : string;
  From : string;
  Chat : string;
  Content : string;
  Media : list string;
  FromName : string;
  Status : string;
  Error : string;
  Timestamp : Z;
  Signature : string
}.

(** The zero value. *)
Definition zero : t := mk "" "" "" "" "" [] "" "" "" 0 "".

Definition set_Type (m : t) (x : string) : t :=
  mk x (ID m) (From m) (Chat m) (Content m) (Media m) (FromName m)
     (Status m) (Error m) (Timestamp m) (Signature m).

Definition set_ID (m : t) (x : string) : t :=
  mk (Type_ m) x (From m) (Chat m) (Content m) (Media m) (FromName m)
     (Status m) (Error m) (Timestamp m) (Signature m).

Definition set_From (m : t) (x : string) : t :=
  mk (Type_ m) (ID m) x (Chat m) (Content m) (Media m) (FromName m)
     (Status m) (Error m) (Timestamp m) (Signature m).

Definition set_Chat (m : t) (x : string) : t :=
  mk (Type_ m) (ID m) (From m) x (Content m) (Media m) (FromName m)
     (Status m) (Error m) (Timestamp m) (Signature m).

Definition set_Content (m : t) (x : string) : t :=
  mk (Type_ m) (ID m) (From m) (Chat m) x (Media m) (FromName m) (Status m)
     (Error m) (Timestamp m) (Signature m).

Definition set_Media (m : t) (x : list string) : t :=
  mk (Type_ m) (ID m) (From m) (Chat m) (Content m) x (FromName m)
     (Status m) (Error m) (Timestamp m) (Signature m).

Definition set_FromName (m : t) (x : string) : t :=
  mk (Type_ m) (ID m) (From m) (Chat m) (Content m) (Media m) x (Status m)
     (Error m) (Timestamp m) (Signature m).

Definition set_Status (m : t) (x : string) : t :=
  mk (Type_ m) (ID m) (From m) (Chat m) (Content m) (Media m) (FromName m) x
     (Error m) (Timestamp m) (Signature m).

Definition set_Error (m : t) (x : string) : t :=
  mk (Type_ m) (ID m) (From m) (Chat m) (Content m) (Media m) (FromName m)
     (Status m) x (Timestamp m) (Signature m).

Definition set_Timestamp (m : t) (x : Z) : t :=
  mk (Type_ m) (ID m) (From m) (Chat m) (Content m) (Media m) (FromName m)
     (Status m) (Error m) x (Signature m).

Definition set_Signature (m : t) (x : string) : t :=
  mk (Type_ m) (ID m) (From m) (Chat m) (Content m) (Media m) (FromName m)
     (Status m) (Error m) (Timestamp m) x.

End IncomingMessage.
Abbreviation IncomingMessage := IncomingMessage.t.

Module OutgoingMessage.
Record t : Type := mk {
  Type_ : string;
  To : string;
  Content : string;
  Media : list string;
  Timestamp : Z;
  Signature : string
}.

Definition set_Content (m : t) (c : string) : t :=
  mk (Type_ m) (To m) c (Media m) (Timestamp m) (Signature m).

Definition set_Timestamp (m : t) (ts : Z) : t :=
  mk (Type_ m) (To m) (Content m) (Media m) ts (Signature m).

Definition set_Signature (m : t) (sig : string) : t :=
  mk (Type_ m) (To m) (Content m) (Media m) (Timestamp m) sig.
End OutgoingMessage.
Abbreviation OutgoingMessage := OutgoingMessage.t.

(** *** The wire format: [json.Marshal] and [json.Unmarshal] of the two
    structs, by their field tags.  The field [Extra] of [IncomingMessage]
    has the tag ["-"]: it is neither written nor read, and no code of the
    two files uses it; it is left out of the record. *)

Definition omitempty_string (name val : string) : list (string * string) :=
  if String.eqb val "" then [] else [(name, json.appendString val)].

Definition omitempty_strings (name : string) (val : list string)
  : list (string * string) :=
  match val with
  | [] => []
  | _ => [(name, json.appendStrings val)]
  end.

Definition omitempty_int64 (name : string) (val : Z) : list (string * string) :=
  if val =? 0 then [] else [(name, strconv.FormatInt val)].

Definition Marshal_OutgoingMessage (m : OutgoingMessage) : string :=
  json.appendObject
    ([("type", json.appendString (OutgoingMessage.Type_ m))]
       ++ omitempty_string "to" (OutgoingMessage.To m)
       ++ omitempty_string "content" (OutgoingMessage.Content m)
       ++ omitempty_strings "media" (OutgoingMessage.Media m)
       ++ omitempty_int64 "timestamp" (OutgoingMessage.Timestamp m)
       ++ omitempty_string "signature" (OutgoingMessage.Signature m)).

Definition Marshal_IncomingMessage (m : IncomingMessage) : string :=
  json.appendObject
    ([("type", json.appendString (IncomingMessage.Type_ m))]
       ++ omitempty_string "id" (IncomingMessage.ID m)
       ++ omitempty_string "from" (IncomingMessage.From m)
       ++ omitempty_string "chat" (IncomingMessage.Chat m)
       ++ omitempty_string "content" (IncomingMessage.Content m)
       ++ omitempty_strings "media" (IncomingMessage.Media m)
       ++ omitempty_string "from_name" (IncomingMessage.FromName m)
       ++ omitempty_string "status" (IncomingMessage.Status m)
       ++ omitempty_string "error" (IncomingMessage.Error m)
       ++ omitempty_int64 "timestamp" (IncomingMessage.Timestamp m)
       ++ omitempty_string "signature" (IncomingMessage.Signature m)).

(** Decoding into a field: [None] is a type mismatch
    ([UnmarshalTypeError]); [null] leaves a string or a number as it was and
    empties a slice. *)
Definition decode_string (v : json.value) (old : string) : option string :=
  match v with
  | json.VString s => Some s
  | json.VNull => Some old
  | _ => None
  end.

Definition decode_int64 (v : json.value) (old : Z) : option Z :=
  match v with
  | json.VNumber lit => strconv.ParseInt lit
  | json.VNull => Some old
  | _ => None
  end.

(** The elements of an array decoded into a slice of strings whose
    backing array holds [old]: the element at an index is decoded in
    place, so that [null] leaves what the array held there (the empty
    string where nothing was written).  The boolean records that no
    element had another type. *)
Fixpoint decode_elements (l : list json.value) (old : list string)
  : list string * bool :=
  match l with
  | [] => ([], true)
  | v :: rest =>
      let '(ss, ok) := decode_elements rest (tl old) in
      match v with
      | json.VString s => (s :: ss, ok)
      | json.VNull => (hd EmptyString old :: ss, ok)
      | _ => (hd EmptyString old :: ss, false)
      end
  end.

(** An array decoded into the slice: the new slice and what its backing
    array holds then.  An empty array gives a new empty slice, [null] the
    nil slice; a shorter array truncates the slice and leaves the rest of
    the backing array as it was. *)
Definition decode_strings (v : json.value) (old : list string)
  : option (list string * list string) :=
  match v with
  | json.VArray [] => Some ([], [])
  | json.VArray l =>
      let '(ss, ok) := decode_elements l old in
      if ok then Some (ss, ss ++ skipn (List.length ss) old) else None
  | json.VNull => Some ([], [])
  | _ => None
  end.

(** One member of the object: the field whose name matches the key, up to
    the folding of case, is set; a key that matches no field is skipped.
    The state is the message, a boolean that records that no type
    mismatch was met, and what the backing array of [Media] holds (a key
    may come more than once). *)
Definition bind_member (st : IncomingMessage * bool * list string)
           (kv : string * json.value)
  : IncomingMessage * bool * list string :=
  let '(m, ok, backing) := st in
  let '(k, v) := kv in
  let key := json.foldName k in
  let named (name : string) := String.eqb key (json.foldName name) in
  let str (get : IncomingMessage -> string)
          (set : IncomingMessage -> string -> IncomingMessage) :=
    match decode_string v (get m) with
    | Some s => (set m s, ok, backing)
    | None => (m, false, backing)
    end in
  if named "type" then str IncomingMessage.Type_ IncomingMessage.set_Type
  else if named "id" then str IncomingMessage.ID IncomingMessage.set_ID
  else if named "from" then str IncomingMessage.From IncomingMessage.set_From
  else if named "chat" then str IncomingMessage.Chat IncomingMessage.set_Chat
  else if named "content" then
    str IncomingMessage.Content IncomingMessage.set_Content
  else if named "media" then
    match decode_strings v backing with
    | Some (l, backing') => (IncomingMessage.set_Media m l, ok, backing')
    | None => (m, false, backing)
    end
  else if named "from_name" then
    str IncomingMessage.FromName IncomingMessage.set_FromName
  else if named "status" then
    str IncomingMessage.Status IncomingMessage.set_Status
  else if named "error" then str IncomingMessage.Error IncomingMessage.set_Error
  else if named "timestamp" then
    match decode_int64 v (IncomingMessage.Timestamp m) with
    | Some ts => (IncomingMessage.set_Timestamp m ts, ok, backing)
    | None => (m, false, backing)
    end
  else if named "signature" then
    str IncomingMessage.Signature IncomingMessage.set_Signature
  else (m, ok, backing).

(** [json.Unmarshal(data, &msg)] for a zero [msg]: [None] for a syntax
    error, a document that is not an object (or [null]), or a type
    mismatch. *)
Definition Unmarshal_IncomingMessage (data : string) : option IncomingMessage :=
  match json.parse data with
  | Some (json.VObject ms) =>
      let '(m, ok, _) :=
        fold_left bind_member ms (IncomingMessage.zero, true, []) in
      if ok then Some m else None
  | Some json.VNull => Some IncomingMessage.zero
  | _ => None
  end.

(** ** MessageValidator *)

Record MessageValidator : Type := mkMessageValidator {
  hmacKey : string
}.

Definition NewMessageValidator (hmacKey : string) : MessageValidator :=
  {| hmacKey := hmacKey |}.

Definition validateMessageType (v : MessageValidator) (msgType : string)
  : option error :=
  if existsb (String.eqb msgType)
       [MessageTypeMessage; MessageTypeStatus; MessageTypeError;
        MessageTypePing; MessageTypePong]
  then None
  else Some (errInvalidMessageType msgType).

Definition validatePhoneNumber (v : MessageValidator) (phone : string)
  : option error :=
  if String.eqb phone "" then Some errPhoneEmpty
  else if (len phone <? 1) || (50 <? len phone) then Some errPhoneLength
  else None.

Definition sanitize_rune (r : Z) : Z :=
  if (r <? 32) && negb (r =? 0x0A) && negb (r =? 0x0D) && negb (r =? 0x09)
  then -1
  else r.

(** The three cleaning steps of [sanitizeContent], after its length check. *)
Definition sanitize_steps (content : string) : string :=
  let content := strings.Map sanitize_rune content in
  let content := strings.ReplaceAll content (String "000"%char "") "" in
  strings.TrimSpace content.

Definition sanitizeContent (v : MessageValidator) (content : string)
  : result error string :=
  if MaxContentLength <? len content then Err errContentTooLong
  else Ok (sanitize_steps content).

Definition validExtensions : list string :=
  [".jpg"; ".jpeg"; ".png"; ".gif"; ".mp4"; ".mp3"; ".pdf"; ".txt"].

Definition validateMediaPath (v : MessageValidator) (path : string)
  : option error :=
  if strings.Contains path ".." then Some errTraversal
  else if existsb (strings.HasSuffix (strings.ToLower path)) validExtensions
  then None
  else Some errExtension.

(** The loop over the media paths: the error of the first path refused. *)
Fixpoint validateMedia (v : MessageValidator) (media : list string)
  : option error :=
  match media with
  | [] => None
  | mediaPath :: rest =>
      match validateMediaPath v mediaPath with
      | Some err => Some (errInvalidMediaPath err)
      | None => validateMedia v rest
      end
  end.

Definition calculateSignature (v : MessageValidator) (data : string) : string :=
  hex.EncodeToString (hmac.Sum (bytes (hmacKey v)) (bytes data)).

(** [signMessage] changes the message in place: the message after the call
    and the error.  [json.Marshal] of an [OutgoingMessage] cannot fail. *)
Definition signMessage (v : MessageValidator) (msg : OutgoingMessage)
  : OutgoingMessage * option error :=
  if len (hmacKey v) =? 0 then (msg, None)
  else
    let msg := OutgoingMessage.set_Signature msg "" in
    let data := Marshal_OutgoingMessage msg in
    (OutgoingMessage.set_Signature msg (calculateSignature v data), None).

Definition VerifySignature (v : MessageValidator) (msg : IncomingMessage)
  : option error :=
  if len (hmacKey v) =? 0 then None
  else if String.eqb (IncomingMessage.Signature msg) "" then
    Some errMissingSignature
  else
    let tempMsg := IncomingMessage.set_Signature msg "" in
    let data := Marshal_IncomingMessage tempMsg in
    let expectedSig := calculateSignature v data in
    if negb (hmac.Equal (IncomingMessage.Signature msg) expectedSig)
    then Some errInvalidSignature
    else None.

(** [ValidateOutgoing] changes the message in place, also when it fails:
    the message after the call and the error.  [now] is the value of
    [time.Now().Unix()]. *)
Definition ValidateOutgoing (v : MessageValidator) (now : Z)
           (msg : OutgoingMessage) : OutgoingMessage * option error :=
  if negb (String.eqb (OutgoingMessage.Type_ msg) MessageTypeMessage)
  then (msg, Some errOutgoingType)
  else
    match validatePhoneNumber v (OutgoingMessage.To msg) with
    | Some err => (msg, Some (errInvalidRecipient err))
    | None =>
        match sanitizeContent v (OutgoingMessage.Content msg) with
        | Err err => (msg, Some (errContentValidation err))
        | Ok sanitized =>
            let msg := OutgoingMessage.set_Content msg sanitized in
            match validateMedia v (OutgoingMessage.Media msg) with
            | Some err => (msg, Some err)
            | None =>
                let msg :=
                  if OutgoingMessage.Timestamp msg =? 0
                  then OutgoingMessage.set_Timestamp msg now
                  else msg in
                match signMessage v msg with
                | (msg, Some err) => (msg, Some (errSignFailed err))
                | (msg, None) => (msg, None)
                end
            end
        end
    end.

Definition validateIncomingMessage (v : MessageValidator) (msg : IncomingMessage)
  : result error IncomingMessage :=
  if String.eqb (IncomingMessage.From msg) "" then Err errMissingFrom
  else
    match validatePhoneNumber v (IncomingMessage.From msg) with
    | Some err => Err (errInvalidSender err)
    | None =>
        if String.eqb (IncomingMessage.Content msg) ""
           && (Z.of_nat (List.length (IncomingMessage.Media msg)) =? 0)
        then Err errNoContentOrMedia
        else
          let sanitized :=
            if negb (String.eqb (IncomingMessage.Content msg) "")
            then
              match sanitizeContent v (IncomingMessage.Content msg) with
              | Err err => Err (errContentValidation err)
              | Ok sanitized => Ok (IncomingMessage.set_Content msg sanitized)
              end
            else Ok msg in
          match sanitized with
          | Err err => Err err
          | Ok msg =>
              match validateMedia v (IncomingMessage.Media msg) with
              | Some err => Err err
              | None =>
                  match VerifySignature v msg with
                  | Some err => Err (errSignatureVerification err)
                  | None => Ok msg
                  end
              end
          end
    end.

Definition validateIncomingStatus (v : MessageValidator) (msg : IncomingMessage)
  : result error IncomingMessage :=
  if String.eqb (IncomingMessage.ID msg) "" then Err errStatusMissingID
  else if String.eqb (IncomingMessage.Status msg) "" then
    Err errStatusMissingStatus
  else if existsb (String.eqb (IncomingMessage.Status msg))
            [StatusDelivered; StatusRead; StatusSent; StatusFailed]
  then Ok msg
  else Err (errInvalidStatus (IncomingMessage.Status msg)).

Definition validateIncomingError (v : MessageValidator) (msg : IncomingMessage)
  : result error IncomingMessage :=
  if String.eqb (IncomingMessage.Error msg) "" then Err errErrorMissing
  else if 500 <? len (IncomingMessage.Error msg) then Err errErrorTooLong
  else Ok msg.

Definition validateIncomingPingPong (v : MessageValidator)
           (msg : IncomingMessage) : result error IncomingMessage :=
  Ok msg.

Definition ValidateIncoming (v : MessageValidator) (data : string)
  : result error IncomingMessage :=
  match Unmarshal_IncomingMessage data with
  | None => Err errInvalidJSON
  | Some msg =>
      match validateMessageType v (IncomingMessage.Type_ msg) with
      | Some err => Err err
      | None =>
          let ty := IncomingMessage.Type_ msg in
          if String.eqb ty MessageTypeMessage then validateIncomingMessage v msg
          else if String.eqb ty MessageTypeStatus then
            validateIncomingStatus v msg
          else if String.eqb ty MessageTypeError then
            validateIncomingError v msg
          else if String.eqb ty MessageTypePing
                  || String.eqb ty MessageTypePong
          then validateIncomingPingPong v msg
          else Err (errUnsupportedMessageType ty)
      end
  end.

(** ** ConnectionRetry: exponential backoff *)

Record ConnectionRetry : Type := mkConnectionRetry {
  attempts : Z;
  maxAttempts : Z;
  initialDelay : Z;
  maxDelay : Z;
  currentDelay : Z
}.

Definition NewConnectionRetry : ConnectionRetry :=
  {| attempts := 0;
     maxAttempts := MaxReconnectAttempts;
     initialDelay := InitialReconnectDelay;
     maxDelay := MaxReconnectDelay;
     currentDelay := InitialReconnectDelay |}.

(** [NextDelay] returns the delay and the updated receiver. *)
Definition NextDelay (r : ConnectionRetry) : Z * ConnectionRetry :=
  if maxAttempts r <=? attempts r then (0, r)
  else
    let attempts' := wrap64 (attempts r + 1) in
    let delay := currentDelay r in
    let doubled := wrap64 (currentDelay r * 2) in
    let current' := if maxDelay r <? doubled then maxDelay r else doubled in
    (delay,
     {| attempts := attempts';
        maxAttempts := maxAttempts r;
        initialDelay := initialDelay r;
        maxDelay := maxDelay r;
        currentDelay := current' |}).

Definition Reset (r : ConnectionRetry) : ConnectionRetry :=
  {| attempts := 0;
     maxAttempts := maxAttempts r;
     initialDelay := initialDelay r;
     maxDelay := maxDelay r;
     currentDelay := initialDelay r |}.

Definition ShouldRetry (r : ConnectionRetry) : bool :=
  attempts r <? maxAttempts r.

Definition GetAttempts (r : ConnectionRetry) : Z := attempts r.

(** [n] successive calls of [NextDelay]: the delays returned, in order, and
    the receiver after the last call. *)
Fixpoint NextDelays (n : nat) (r : ConnectionRetry) : list Z * ConnectionRetry :=
  match n with
  | O => ([], r)
  | S n' =>
      let '(d, r1) := NextDelay r in
      let '(ds, r2) := NextDelays n' r1 in
      (d :: ds, r2)
  end.

(** * Part III: the channel file *)

(** [config.WhatsAppConfig]. *)
Record WhatsAppConfig : Type := mkWhatsAppConfig {
  Enabled : bool;
  BridgeURL : string;
  AllowFrom : list string;
  FBPhoneNumberID : string;
  FBAccessToken : string;
  FBAPIVersion : string
}.

(** Modelled from the spec: [BaseChannel] (its file is not among the
    sources): the channel name, the allow-list and the running flag that
    [setRunning] writes.  [IsAllowed] "returns true unconditionally if the
    configured allow-list is empty; otherwise true iff [senderID] is a
    member". *)
Record BaseChannel : Type := mkBaseChannel {
  name : string;
  allowList : list string;
  running : bool
}.

Definition NewBaseChannel (name : string) (allowList : list string)
  : BaseChannel :=
  {| name := name; allowList := allowList; running := false |}.

Definition IsAllowed (b : BaseChannel) (senderID : string) : bool :=
  match allowList b with
  | [] => true
  | l => existsb (String.eqb senderID) l
  end.

(** ** What the channel does to the outside

    The channel runs against a WebSocket connection, a clock, a log and the
    message bus.  A method of the channel is a function of the channel
    state and of what the outside answers (the clock [now], in nanoseconds;
    the outcome of a dial, of a write); it returns the new state and, in
    order, the events it caused.  [go f()] is the event [Go f]: the method
    returns, and [f] runs later as a step of its own. *)

Inductive frameType : Type :=
| TextMessage | BinaryMessage | CloseMessage | PingMessage | PongMessage.

Inductive task : Type :=
| task_listen | task_keepalive | task_attemptReconnection.

(** A connection handle of [websocket.Conn]. *)
Definition Conn : Type := nat.

Inductive event : Type :=
| Log (text : string) (err : option error)
| Dial (url : string) (headers : list (string * string))
| SetReadDeadline (conn : Conn) (deadline : Z)
| SetWriteDeadline (conn : Conn) (deadline : Z)
| WriteMessage (conn : Conn) (messageType : frameType) (data : string)
| WriteControl (conn : Conn) (messageType : frameType) (data : string)
               (deadline : Z)
| Close (conn : Conn)
| Go (t : task)
| Sleep (d : Z)
| HandleMessage (senderID chatID content : string) (media : list string)
                (metadata : list (string * string)).

(** The outcome of [dialer.DialContext]: an error, with the status of the
    HTTP response when there is one, or a connection and the two headers of
    the response that the code reads. *)
Inductive dialOutcome : Type :=
| dial_failed (status : option Z)
| dial_ok (conn : Conn) (serverNonce serverTimestamp : string).

(** The fields [url] and [hmacKey] are [url_] and [hmacKey_] here ([url] is
    the module of the library, [hmacKey] the field of the validator); the
    mutex, the wait group and the stop channel have no counterpart beyond
    the flag [stopCh_closed]. *)
Record WhatsAppChannel : Type := mkWhatsAppChannel {
  base : BaseChannel;
  config : WhatsAppConfig;
  validator : MessageValidator;
  retryManager : ConnectionRetry;
  conn : option Conn;
  connected : bool;
  connecting : bool;
  url_ : string;
  authToken : string;
  hmacKey_ : string;
  pingInterval : Z;
  pongTimeout : Z;
  lastPing : Z;
  stopCh_closed : bool
}.

Definition set_conn (c : WhatsAppChannel) (cn : option Conn) (cd cg : bool)
  : WhatsAppChannel :=
  mkWhatsAppChannel (base c) (config c) (validator c) (retryManager c) cn cd cg
    (url_ c) (authToken c) (hmacKey_ c) (pingInterval c) (pongTimeout c)
    (lastPing c) (stopCh_closed c).

Definition set_retryManager (c : WhatsAppChannel) (r : ConnectionRetry)
  : WhatsAppChannel :=
  mkWhatsAppChannel (base c) (config c) (validator c) r (conn c) (connected c)
    (connecting c) (url_ c) (authToken c) (hmacKey_ c) (pingInterval c)
    (pongTimeout c) (lastPing c) (stopCh_closed c).

Definition set_lastPing (c : WhatsAppChannel) (t : Z) : WhatsAppChannel :=
  mkWhatsAppChannel (base c) (config c) (validator c) (retryManager c) (conn c)
    (connected c) (connecting c) (url_ c) (authToken c) (hmacKey_ c)
    (pingInterval c) (pongTimeout c) t (stopCh_closed c).

Definition setRunning (c : WhatsAppChannel) (r : bool) : WhatsAppChannel :=
  mkWhatsAppChannel
    {| name := name (base c); allowList := allowList (base c); running := r |}
    (config c) (validator c) (retryManager c) (conn c) (connected c)
    (connecting c) (url_ c) (authToken c) (hmacKey_ c) (pingInterval c)
    (pongTimeout c) (lastPing c) (stopCh_closed c).

(** ** Helper functions *)

Definition validateBridgeURL (bridgeURL : string) : option error :=
  if String.eqb bridgeURL "" then Some errBridgeURLEmpty
  else
    match url.Parse bridgeURL with
    | None => Some errInvalidURLFormat
    | Some u =>
        if negb (String.eqb (url.Scheme u) "wss")
           && negb (String.eqb (url.Scheme u) "ws")
        then Some (errSchemeGot (url.Scheme u))
        else None
    end.

Definition extractAuthToken (bridgeURL : string) : string * string :=
  match url.Parse bridgeURL with
  | None => (bridgeURL, EmptyString)
  | Some u =>
      let token := url.Get (url.Query u) "token" in
      if negb (String.eqb token "") then
        let q := url.Del (url.Query u) "token" in
        let u :=
          url.mkURL (url.Scheme u) (url.Opaque u) (url.Host u) (url.Path u)
            (url.ForceQuery u) (url.Encode q) (url.Fragment u)
            (url.OmitHost u) in
        (url.String_ u, token)
      else (bridgeURL, EmptyString)
  end.

Definition getHMACKey : string := EmptyString.

Definition generateNonce (now : Z) : string :=
  String.append (strconv.FormatInt (time.UnixNano now))
    (String.append "-" (strconv.FormatInt (time.Unix now))).

(** ** The channel *)

Definition NewWhatsAppChannel (cfg : WhatsAppConfig)
  : result error WhatsAppChannel :=
  let base := NewBaseChannel "whatsapp" (AllowFrom cfg) in
  match validateBridgeURL (BridgeURL cfg) with
  | Some err => Err (errInvalidBridgeURL err)
  | None =>
      let '(bridgeURL, authToken) := extractAuthToken (BridgeURL cfg) in
      let hmacKey := getHMACKey in
      let validator := NewMessageValidator hmacKey in
      Ok {| base := base;
            config := cfg;
            validator := validator;
            retryManager := NewConnectionRetry;
            conn := None;
            connected := false;
            connecting := false;
            url_ := bridgeURL;
            authToken := authToken;
            hmacKey_ := hmacKey;
            pingInterval := 30 * time.Second;
            pongTimeout := 10 * time.Second;
            lastPing := 0;
            stopCh_closed := false |}
  end.

Definition validateBridgeResponse (c : WhatsAppChannel) (now : Z)
           (serverNonce serverTimestamp : string) : option error :=
  if String.eqb serverNonce "" && String.eqb serverTimestamp "" then None
  else if String.eqb serverNonce "" || String.eqb serverTimestamp "" then
    Some errMissingAuthHeaders
  else
    match time.Parse serverTimestamp with
    | None => Some errServerTimestampFormat
    | Some ts =>
        if 5 * time.Minute <? time.Sub now ts then Some errServerTimestampOld
        else None
    end.

(** [connect]: the scheme is checked again, then the bridge is dialled. *)
Definition connect (c : WhatsAppChannel) (now : Z) (dial : dialOutcome)
  : WhatsAppChannel * option error * list event :=
  match url.Parse (url_ c) with
  | None => (c, Some errInvalidURL, [])
  | Some u =>
      if negb (String.eqb (url.Scheme u) "wss")
         && negb (String.eqb (url.Scheme u) "ws")
      then (c, Some errScheme, [])
      else
        let headers :=
          (if negb (String.eqb (authToken c) "")
           then [("Authorization", String.append "Bearer " (authToken c))]
           else [])
            ++ [("X-Nonce", generateNonce now);
                ("X-Timestamp", strconv.FormatInt (time.Unix now))] in
        let dialled := [Dial (url_ c) headers] in
        match dial with
        | dial_failed _ => (c, Some errConnectionFailed, dialled)
        | dial_ok cn serverNonce serverTimestamp =>
            match validateBridgeResponse c now serverNonce serverTimestamp with
            | Some err =>
                (c, Some (errBridgeValidation err), dialled ++ [Close cn])
            | None =>
                (set_conn c (Some cn) true false, None,
                 dialled ++ [SetReadDeadline cn (now + 60 * time.Second)])
            end
        end
  end.

(** [handlePing]: the reply to a ping frame. *)
Definition handlePing (c : WhatsAppChannel) (now : Z) (msg : IncomingMessage)
  : list event :=
  let pong :=
    {| OutgoingMessage.Type_ := MessageTypePong;
       OutgoingMessage.To := "";
       OutgoingMessage.Content := "";
       OutgoingMessage.Media := [];
       OutgoingMessage.Timestamp := time.Unix now;
       OutgoingMessage.Signature := "" |} in
  match ValidateOutgoing (validator c) (time.Unix now) pong with
  | (_, Some err) => [Log "Failed to validate pong message" (Some err)]
  | (pong, None) =>
      let data := Marshal_OutgoingMessage pong in
      match conn c with
      | Some cn => [WriteControl cn PongMessage data (now + 5 * time.Second)]
      | None => []
      end
  end.

Definition handleIncomingMessage (c : WhatsAppChannel) (msg : IncomingMessage)
  : list event :=
  let senderID := IncomingMessage.From msg in
  let chatID :=
    if String.eqb (IncomingMessage.Chat msg) "" then senderID
    else IncomingMessage.Chat msg in
  let content := IncomingMessage.Content msg in
  let metadata :=
    (if negb (String.eqb (IncomingMessage.ID msg) "")
     then [("message_id", IncomingMessage.ID msg)] else [])
      ++ (if negb (String.eqb (IncomingMessage.FromName msg) "")
          then [("user_name", IncomingMessage.FromName msg)] else [])
      ++ (if negb (IncomingMessage.Timestamp msg =? 0)
          then [("timestamp", strconv.FormatInt (IncomingMessage.Timestamp msg))]
          else []) in
  [Log "WhatsApp message" None;
   HandleMessage senderID chatID content (IncomingMessage.Media msg) metadata].

Definition handleStatusMessage (c : WhatsAppChannel) (msg : IncomingMessage)
  : list event :=
  [Log "WhatsApp status update" None].

(** [handleConnectionError]: the connection is dropped and a reconnection
    is started as a goroutine. *)
Definition handleConnectionError (c : WhatsAppChannel)
  : WhatsAppChannel * list event :=
  let closed :=
    match conn c with
    | Some cn => [Close cn]
    | None => []
    end in
  (set_conn c None false (connecting c), closed ++ [Go task_attemptReconnection]).

(** [attemptReconnection]: one attempt, after the delay of the policy. *)
Definition attemptReconnection (c : WhatsAppChannel) (now : Z)
           (dial : dialOutcome) : WhatsAppChannel * list event :=
  if negb (ShouldRetry (retryManager c)) then
    (c, [Log "Max reconnection attempts reached for WhatsApp channel" None])
  else
    let '(delay, r) := NextDelay (retryManager c) in
    let c := set_retryManager c r in
    let before := [Log "Attempting WhatsApp reconnection" None; Sleep delay] in
    match connect c now dial with
    | (c, Some err, evs) =>
        (c, before ++ evs ++ [Log "Reconnection attempt failed" (Some err)])
    | (c, None, evs) =>
        (set_retryManager c (Reset (retryManager c)),
         before ++ evs ++ [Log "WhatsApp reconnection successful" None])
    end.

(** [sendPing]; [written] tells whether [WriteControl] succeeded. *)
Definition sendPing (c : WhatsAppChannel) (now : Z) (written : bool)
  : WhatsAppChannel * option error * list event :=
  match connected c, conn c with
  | true, Some cn =>
      let ev := [WriteControl cn PingMessage "ping" (now + pongTimeout c)] in
      if written then (set_lastPing c now, None, ev)
      else (c, Some errSendFailed, ev)
  | _, _ => (c, Some errNotConnected, [])
  end.

(** One tick of the ticker of [keepalive]. *)
Definition keepalive_tick (c : WhatsAppChannel) (now : Z) (written : bool)
  : WhatsAppChannel * list event :=
  match sendPing c now written with
  | (c, Some err, evs) =>
      let '(c, evs') := handleConnectionError c in
      (c, evs ++ [Log "Failed to send ping" (Some err)] ++ evs')
  | (c, None, evs) => (c, evs)
  end.

(** What [conn.ReadMessage] returns: an error, or a message with its
    type, which is [TextMessage] or [BinaryMessage].  The control frames
    that arrive during the read are not returned: the library handles
    them, see [listen_read]. *)
Inductive readOutcome : Type :=
| read_failed
| read_frame (msgType : frameType) (data : string).

(** One round of the loop of [listen] on a connected channel, after the
    read. *)
Definition listen_round (c : WhatsAppChannel) (now : Z) (r : readOutcome)
  : WhatsAppChannel * list event :=
  match connected c, conn c with
  | true, Some _ =>
      match r with
      | read_failed => handleConnectionError c
      | read_frame TextMessage data =>
          match ValidateIncoming (validator c) data with
          | Err err => (c, [Log "Invalid incoming message" (Some err)])
          | Ok msg =>
              let ty := IncomingMessage.Type_ msg in
              if String.eqb ty MessageTypeMessage
              then (c, handleIncomingMessage c msg)
              else if String.eqb ty MessageTypeStatus
              then (c, handleStatusMessage c msg)
              else if String.eqb ty MessageTypeError
              then (c, [Log "Bridge error" None])
              else if String.eqb ty MessageTypePing
              then (c, handlePing c now msg)
              else (c, [])
          end
      | read_frame _ _ => (c, [])
      end
  | _, _ => (c, [Sleep (1 * time.Second)])
  end.

(** [Start]. *)
Definition Start (c : WhatsAppChannel) (now : Z) (dial : dialOutcome)
  : WhatsAppChannel * option error * list event :=
  if connecting c then (c, Some errAlreadyConnecting, [Log "Starting" None])
  else
    let c := set_conn c (conn c) (connected c) true in
    match connect c now dial with
    | (c, Some err, evs) =>
        (set_conn c (conn c) (connected c) false, Some (errConnectFailed err),
         Log "Starting" None :: evs)
    | (c, None, evs) =>
        let c := setRunning c true in
        let c := set_retryManager c (Reset (retryManager c)) in
        (c, None,
         Log "Starting" None :: evs
           ++ [Go task_listen; Go task_keepalive;
               Log "WhatsApp channel connected and started" None])
    end.

(** [Send]; the two booleans tell whether setting the write deadline and
    writing the frame succeeded. *)
Definition Send (c : WhatsAppChannel) (now : Z) (chatID content : string)
           (deadline_set written : bool)
  : WhatsAppChannel * option error * list event :=
  match connected c, conn c with
  | true, Some cn =>
      let outgoing :=
        {| OutgoingMessage.Type_ := MessageTypeMessage;
           OutgoingMessage.To := chatID;
           OutgoingMessage.Content := content;
           OutgoingMessage.Media := [];
           OutgoingMessage.Timestamp := 0;
           OutgoingMessage.Signature := "" |} in
      match ValidateOutgoing (validator c) (time.Unix now) outgoing with
      | (_, Some err) => (c, Some (errMessageValidation err), [])
      | (outgoing, None) =>
          let data := Marshal_OutgoingMessage outgoing in
          let deadline := [SetWriteDeadline cn (now + 10 * time.Second)] in
          if negb deadline_set then (c, Some errWriteDeadline, deadline)
          else
            let write := deadline ++ [WriteMessage cn TextMessage data] in
            if negb written then
              let '(c, evs) := handleConnectionError c in
              (c, Some errSendFailed, write ++ evs)
            else (c, None, write ++ [Log "WhatsApp message sent" None])
      end
  | _, _ => (c, Some errNotEstablished, [])
  end.

(** The frames that a list of events writes to the connection. *)
Definition is_write (e : event) : bool :=
  match e with
  | WriteMessage _ _ _ | WriteControl _ _ _ _ => true
  | _ => false
  end.

Definition is_dial (e : event) : bool :=
  match e with
  | Dial _ _ => true
  | _ => false
  end.






(** ** The notions of the design document

    What the document calls a parent-directory traversal segment and the
    extension of a path, written from its words, to be compared with what
    the code tests. *)

(** The segments of a path, between its slashes. *)
Definition path_segments (path : string) : list string := url.split path "/".

(** A path has a traversal segment when one of its segments is [..]. *)
Definition has_traversal_segment (path : string) : bool :=
  existsb (String.eqb "..") (path_segments path).

(** The extension of a path: what starts at the last dot of its last
    segment (as [filepath.Ext]). *)
Definition path_extension (path : string) : string :=
  match url.from_last (last (path_segments path) EmptyString) "." None with
  | Some ext => ext
  | None => EmptyString
  end.

Definition extension_allowed (path : string) : bool :=
  existsb (String.eqb (strings.ToLower (path_extension path))) validExtensions.

(** ** Frames written down

    A frame is written with apostrophes in the place of the double quotes
    of JSON; [frame] puts the quotes back. *)
Definition frame (s : string) : string :=
  string_of_list_ascii
    (map (fun c => if Ascii.eqb c "'" then json.quote else c)
       (list_ascii_of_string s)).

(** A byte that is not a control character, or is a tab, a line feed or a
    carriage return. *)
Definition plain_byte (b : Z) : bool :=
  (0x20 <=? b) || (b =? 0x09) || (b =? 0x0A) || (b =? 0x0D).

Definition no_control_bytes (s : string) : Prop :=
  forallb plain_byte (bytes s) = true.

(** No white space, in the sense of Unicode, at the start or at the end. *)
Definition no_surrounding_space (s : string) : Prop :=
  s = ""
  \/ (unicode.IsSpace (fst (utf8.DecodeRuneInString s)) = false
      /\ unicode.IsSpace (fst (utf8.DecodeLastRuneInString s)) = false).

(** [n] spaces. *)
Definition spaces (n : nat) : string := string_of_list_ascii (repeat " "%char n).

(** ** Channels and inputs for the examples *)

(** A channel as [NewWhatsAppChannel] builds it for a bridge URL without a
    token. *)
Definition example_channel (rawURL : string) : WhatsAppChannel :=
  {| base := NewBaseChannel "whatsapp" [];
     config := mkWhatsAppConfig true rawURL [] "" "" "";
     validator := NewMessageValidator getHMACKey;
     retryManager := NewConnectionRetry;
     conn := None;
     connected := false;
     connecting := false;
     url_ := rawURL;
     authToken := "";
     hmacKey_ := getHMACKey;
     pingInterval := 30 * time.Second;
     pongTimeout := 10 * time.Second;
     lastPing := 0;
     stopCh_closed := false |}.


(** The string with the given bytes. *)
Definition of_bytes (l : list Z) : string := string_of_list_ascii (map byte_of l).

(** ** Further notions for the properties of Part V *)

(** The message that inbound validation returns for [msg]: its content
    sanitized when it has one. *)
Definition cleaned (msg : IncomingMessage) : IncomingMessage :=
  if String.eqb (IncomingMessage.Content msg) "" then msg
  else IncomingMessage.set_Content msg
         (sanitize_steps (IncomingMessage.Content msg)).

(** A retry policy within the range where the arithmetic of [NextDelay]
    does not wrap around: the counter is an [int] below its bound, and the
    cap is below 2^62 nanoseconds (146 years). *)
Definition retry_wf (r : ConnectionRetry) : Prop :=
  0 <= attempts r <= maxAttempts r
  /\ maxAttempts r < 2 ^ 63
  /\ 0 < currentDelay r <= maxDelay r
  /\ 0 < initialDelay r <= maxDelay r
  /\ maxDelay r < 2 ^ 62.

(** The attempts that a policy has left. *)
Definition attempts_left (r : ConnectionRetry) : nat :=
  Z.to_nat (maxAttempts r - attempts r).

Definition is_lower_hex (b : Z) : bool :=
  ((0x30 <=? b) && (b <=? 0x39)) || ((0x61 <=? b) && (b <=? 0x66)).

(** The backoff in closed form: the first [n] delays of a policy that has
    attempts left, each the double of the one before, up to the cap. *)
Definition schedule (r : ConnectionRetry) (n : nat) : list Z :=
  map (fun k => Z.min (currentDelay r * 2 ^ Z.of_nat k) (maxDelay r)) (seq 0 n).

(** ** [Stop] and the calls of a channel in sequence *)

(** [websocket.FormatCloseMessage] of gorilla/websocket: the close code in
    two bytes, the high one first, then the text; nothing for the code
    1005. *)
Module websocket.

Definition CloseNormalClosure : Z := 1000.
Definition CloseGoingAway : Z := 1001.
Definition CloseProtocolError : Z := 1002.
Definition CloseNoStatusReceived : Z := 1005.
Definition CloseAbnormalClosure : Z := 1006.

(** The time that the library gives to the write of a reply. *)
Definition writeWait : Z := 1 * time.Second.

Definition maxControlFramePayloadSize : nat := 125.

Definition FormatCloseMessage (closeCode : Z) (text : string) : string :=
  if closeCode =? CloseNoStatusReceived then EmptyString
  else String (byte_of (Z.shiftr closeCode 8)) (String (byte_of closeCode) text).

End websocket.

Definition set_stopCh_closed (c : WhatsAppChannel) (b : bool)
  : WhatsAppChannel :=
  mkWhatsAppChannel (base c) (config c) (validator c) (retryManager c) (conn c)
    (connected c) (connecting c) (url_ c) (authToken c) (hmacKey_ c)
    (pingInterval c) (pongTimeout c) (lastPing c) b.

(** [Stop].  [close(c.stopCh)] panics when the stop channel is closed
    already: [None].  [c.wg.Wait()] is taken to return; the errors of
    [WriteControl] and [Close] are dropped by the code; the error returned
    is always [nil]. *)
Definition Stop (c : WhatsAppChannel) (now : Z)
  : option (WhatsAppChannel * list event) :=
  if stopCh_closed c then None
  else
    let c := set_stopCh_closed c true in
    let closing :=
      match conn c with
      | Some cn =>
          [WriteControl cn CloseMessage
             (websocket.FormatCloseMessage websocket.CloseNormalClosure
                "channel stopping")
             (now + 5 * time.Second);
           Close cn]
      | None => []
      end in
    let c := set_conn c None false false in
    let c := setRunning c false in
    Some (c, Log "Stopping WhatsApp channel..." None
               :: closing ++ [Log "WhatsApp channel stopped" None]).

(** ** What happens during a read

    [conn.ReadMessage] returns a text or a binary message, or an error.
    Before it returns, the library handles the control frames that
    arrive: a ping goes to its default ping handler, which answers with a
    pong of the same payload; a pong goes to the handler that [connect]
    installed on the connection; a close frame goes to the default close
    handler, which answers with a close frame of the same code, and the
    read ends with a [CloseError]; a frame that breaks the protocol is
    answered with a close frame of code 1002, and the read ends with an
    error.  A control frame is handled at a time of its own, the one that
    comes with it. *)
Inductive controlFrame : Type :=
| ping_frame (appData : string)
| pong_frame (appData : string).

(** How a read ends. *)
Inductive readEnd : Type :=
| end_data (binary : bool) (data : string)
| end_close (code : Z) (text : string)
| end_protocol_error (message : string)
| end_failed.

(** The pong handler of [connect], on the connection [cn] that [connect]
    made. *)
Definition pongHandler (c : WhatsAppChannel) (cn : Conn) (now : Z)
  : WhatsAppChannel * list event :=
  (set_lastPing c now, [SetReadDeadline cn (now + 60 * time.Second)]).

Definition handle_control (c : WhatsAppChannel) (cn : Conn)
           (f : Z * controlFrame) : WhatsAppChannel * list event :=
  match f with
  | (now, ping_frame appData) =>
      (c, [WriteControl cn PongMessage appData (now + websocket.writeWait)])
  | (now, pong_frame _) => pongHandler c cn now
  end.

Fixpoint read_controls (c : WhatsAppChannel) (cn : Conn)
         (frames : list (Z * controlFrame)) : WhatsAppChannel * list event :=
  match frames with
  | [] => (c, [])
  | f :: rest =>
      let '(c1, evs1) := handle_control c cn f in
      let '(c2, evs2) := read_controls c1 cn rest in
      (c2, evs1 ++ evs2)
  end.

(** The payload of the close frame that the library writes at the end of
    a read. *)
Definition close_reply (e : readEnd) : option string :=
  match e with
  | end_close code _ => Some (websocket.FormatCloseMessage code "")
  | end_protocol_error message =>
      Some (take websocket.maxControlFramePayloadSize
              (websocket.FormatCloseMessage websocket.CloseProtocolError
                 message))
  | end_data _ _ | end_failed => None
  end.

(** [websocket.IsUnexpectedCloseError] with the codes 1001 and 1006, of
    the error that ends a read. *)
Definition IsUnexpectedCloseError (e : readEnd) : bool :=
  match e with
  | end_close code _ =>
      negb ((code =? websocket.CloseGoingAway)
            || (code =? websocket.CloseAbnormalClosure))
  | _ => false
  end.

(** What [conn.ReadMessage] returns at the end of a read. *)
Definition returned (e : readEnd) : readOutcome :=
  match e with
  | end_data false data => read_frame TextMessage data
  | end_data true data => read_frame BinaryMessage data
  | _ => read_failed
  end.

(** One round of the loop of [listen], with the read: the control frames
    that arrive during the read, the end of the read, and then the round
    as [listen_round] has it. *)
Definition listen_read (c : WhatsAppChannel) (now : Z)
           (frames : list (Z * controlFrame)) (e : readEnd)
  : WhatsAppChannel * list event :=
  match connected c, conn c with
  | true, Some cn =>
      let '(c1, evs1) := read_controls c cn frames in
      let evs2 :=
        match close_reply e with
        | Some payload =>
            [WriteControl cn CloseMessage payload (now + websocket.writeWait)]
        | None => []
        end in
      let evs3 :=
        if IsUnexpectedCloseError e
        then [Log "WhatsApp WebSocket error" None]
        else [] in
      let '(c2, evs4) := listen_round c1 now (returned e) in
      (c2, evs1 ++ evs2 ++ evs3 ++ evs4)
  | _, _ => (c, [Sleep (1 * time.Second)])
  end.

Definition is_data_write (e : event) : bool :=
  match e with
  | WriteMessage _ _ _ => true
  | _ => false
  end.

(** The time of the last pong among control frames; [t0] when there is
    none. *)
Fixpoint last_pong (frames : list (Z * controlFrame)) (t0 : Z) : Z :=
  match frames with
  | [] => t0
  | (t, pong_frame _) :: rest => last_pong rest t
  | (_, ping_frame _) :: rest => last_pong rest t0
  end.

(** The pongs that answer the pings among control frames. *)
Fixpoint pong_replies (cn : Conn) (frames : list (Z * controlFrame))
  : list event :=
  match frames with
  | [] => []
  | (t, ping_frame appData) :: rest =>
      WriteControl cn PongMessage appData (t + websocket.writeWait)
        :: pong_replies cn rest
  | (_, pong_frame _) :: rest => pong_replies cn rest
  end.

(** A call of a method of the channel, or one step of one of its
    goroutines, with what the outside answers to it.  A round of [listen]
    is [call_read], with the read, or [call_listen], the round after the
    read alone. *)
Inductive call : Type :=
| call_Start (now : Z) (dial : dialOutcome)
| call_Stop (now : Z)
| call_Send (now : Z) (chatID content : string) (deadline_set written : bool)
| call_listen (now : Z) (r : readOutcome)
| call_keepalive (now : Z) (written : bool)
| call_attemptReconnection (now : Z) (dial : dialOutcome)
| call_read (now : Z) (frames : list (Z * controlFrame)) (e : readEnd).

Definition run_call (c : WhatsAppChannel) (k : call)
  : option (WhatsAppChannel * list event) :=
  match k with
  | call_Start now dial =>
      let '(c', _, evs) := Start c now dial in Some (c', evs)
  | call_Stop now => Stop c now
  | call_Send now chatID content deadline_set written =>
      let '(c', _, evs) := Send c now chatID content deadline_set written in
      Some (c', evs)
  | call_listen now r => Some (listen_round c now r)
  | call_keepalive now written => Some (keepalive_tick c now written)
  | call_attemptReconnection now dial => Some (attemptReconnection c now dial)
  | call_read now frames e => Some (listen_read c now frames e)
  end.

(** Calls that run one after the other, none during another. *)
Fixpoint run_calls (c : WhatsAppChannel) (ks : list call)
  : option (WhatsAppChannel * list event) :=
  match ks with
  | [] => Some (c, [])
  | k :: rest =>
      match run_call c k with
      | None => None
      | Some (c1, evs1) =>
          match run_calls c1 rest with
          | None => None
          | Some (c2, evs2) => Some (c2, evs1 ++ evs2)
          end
      end
  end.

Definition is_call_Stop (k : call) : bool :=
  match k with
  | call_Stop _ => true
  | _ => false
  end.

Definition is_any_go (e : event) : bool :=
  match e with
  | Go _ => true
  | _ => false
  end.

Definition is_close_any (e : event) : bool :=
  match e with
  | Close _ => true
  | _ => false
  end.

Definition is_handle (e : event) : bool :=
  match e with
  | HandleMessage _ _ _ _ _ => true
  | _ => false
  end.

(** What holds of a channel between two calls: it is connected exactly
    when it holds a connection, no connection attempt is under way, and
    the retry policy is the default one after some calls of [NextDelay]. *)
Definition channel_inv (c : WhatsAppChannel) : Prop :=
  (connected c = true <-> conn c <> None)
  /\ connecting c = false
  /\ exists n, retryManager c = snd (NextDelays n NewConnectionRetry).

(** The part of a channel that is set when it is built. *)
Definition settings (c : WhatsAppChannel)
  : WhatsAppConfig * MessageValidator * string * string * string * Z * Z
    * string * list string :=
  (config c, validator c, url_ c, authToken c, hmacKey_ c, pingInterval c,
   pongTimeout c, name (base c), allowList (base c)).

(** The number of calls of [Stop] among calls. *)
Definition stops (ks : list call) : nat :=
  List.length (filter is_call_Stop ks).

(** * Part IV: properties *)

(** ** The library models on known values *)

Example sha256_abc :
  hex.EncodeToString (sha256.Sum256 (bytes "abc")) =
  "ba7816bf8f01cfea414140de5dae2223b00361a396177a9cb410ff61f20015ad".
Proof. vm_compute. reflexivity. Qed.

Example sha256_two_blocks :
  hex.EncodeToString
    (sha256.Sum256
       (bytes "abcdbcdecdefdefgefghfghighijhijkijkljklmklmnlmnomnopnopq")) =
  "248d6a61d20638b8e5c026930c3e6039a33ce45964ff2167f6ecedd419db06c1".
Proof. vm_compute. reflexivity. Qed.

Example hmac_short_key :
  hex.EncodeToString
    (hmac.Sum (bytes "Jefe") (bytes "what do ya want for nothing?")) =
  "5bdcc146bf60754e6a042426089575c75a003f089d2739839dec58b964ec3843".
Proof. vm_compute. reflexivity. Qed.

Example hmac_long_key :
  hex.EncodeToString
    (hmac.Sum (repeat 0xaa 131)
       (bytes "Test Using Larger Than Block-Size Key - Hash Key First")) =
  "60e431591ee0b67f0d8a26aacbf5b77f8e0bc6213728c5140546040f0ee37f54".
Proof. vm_compute. reflexivity. Qed.

Example decode_euro :
  utf8.DecodeRuneInString (of_bytes [0xE2; 0x82; 0xAC; 0x41]) = (0x20AC, 3%nat)
  /\ utf8.DecodeLastRuneInString (of_bytes [0x41; 0xE2; 0x82; 0xAC])
     = (0x20AC, 3%nat)
  /\ utf8.DecodeLastRuneInString (of_bytes [0x41; 0x82; 0xAC])
     = (utf8.RuneError, 1%nat)
  /\ bytes (utf8.EncodeRune 0x20AC) = [0xE2; 0x82; 0xAC].
Proof. repeat split; reflexivity. Qed.

Example map_replaces_invalid_bytes :
  bytes (strings.Map sanitize_rune (of_bytes [0x01; 0x41; 0xFF; 0x00; 0x0A])) =
  [0x41; 0xEF; 0xBF; 0xBD; 0x0A].
Proof. reflexivity. Qed.

Example trim_space_unicode :
  bytes (strings.TrimSpace
           (of_bytes [0x20; 0xC2; 0xA0; 0x41; 0x20; 0x42; 0xE2; 0x80; 0x80; 0x09]))
  = [0x41; 0x20; 0x42].
Proof. reflexivity. Qed.

Example unmarshal_frame :
  Unmarshal_IncomingMessage
    (frame " { 'Type' : 'message', 'from':'+1', 'content':'A\né', 'media':['a.png', null], 'timestamp': 12, 'x': {'y':[1,2.5e3,true,null]} } ")
  = Some (IncomingMessage.mk "message" "" "+1" ""
            (String.append (String "A" (String "010" ""))
                           (of_bytes [0xC3; 0xA9]))
            ["a.png"; ""] "" "" "" 12 "")
  /\ Unmarshal_IncomingMessage (frame "{'type':'ping','timestamp':1.5}") = None
  /\ Unmarshal_IncomingMessage (frame "{'type':'ping',}") = None
  /\ Unmarshal_IncomingMessage "[1]" = None.
Proof. vm_compute. repeat split; reflexivity. Qed.

Example marshal_escapes :
  Marshal_OutgoingMessage
    (OutgoingMessage.mk "message" "+1" "a<b>&c" ["x.png"; "y.txt"] (-12) "")
  = frame "{'type':'message','to':'+1','content':'a\u003cb\u003e\u0026c','media':['x.png','y.txt'],'timestamp':-12}".
Proof. vm_compute. reflexivity. Qed.

Example parse_bridge_url :
  url.Parse "wss://bridge.example.com:8443/ws?token=abc%20d&x=1#frag" =
  Some (url.mkURL "wss" "" "bridge.example.com:8443" "/ws" false
          "token=abc%20d&x=1" "frag" false)
  /\ extractAuthToken "wss://bridge.example.com:8443/ws?token=abc%20d&x=1#frag"
     = ("wss://bridge.example.com:8443/ws?x=1#frag", "abc d")
  /\ url.Parse ":foo" = None
  /\ url.Parse "ws://host:12a" = None.
Proof. vm_compute. repeat split; reflexivity. Qed.

Example parse_server_timestamp :
  time.Parse "2024-02-29 12:34:56" = Some (1709210096 * time.Second)
  /\ time.Parse "2023-02-29 12:34:56" = None.
Proof. vm_compute. split; reflexivity. Qed.

(** The hour may have one digit and the space may be a run of spaces;
    the other fields have their two digits. *)
Example parse_timestamp_layout :
  time.Parse "2099-01-01 1:00:00" = time.Parse "2099-01-01 01:00:00"
  /\ time.Parse "2099-01-01    01:00:00" = time.Parse "2099-01-01 01:00:00"
  /\ time.Parse "2099-01-01 01:00:00" = Some (4070912400 * time.Second)
  /\ time.Parse "2099-01-01 01:0:00" = None
  /\ time.Parse "2099-1-01 01:00:00" = None
  /\ time.Parse "2099-01-0101:00:00" = None.
Proof. vm_compute. repeat split; reflexivity. Qed.

(** Arrays and objects nest 10000 deep and no deeper. *)
Example json_nesting_limit :
  let nested n :=
    string_of_list_ascii
      (repeat "["%char (Z.to_nat n) ++ repeat "]"%char (Z.to_nat n)) in
  let parses data :=
    match json.parse data with Some _ => true | None => false end in
  parses (nested 10000) = true /\ parses (nested 10001) = false.
Proof. vm_compute. split; reflexivity. Qed.

(** A key that comes twice is decoded twice into the same field: a
    [null] element of the second array leaves the element of the first. *)
Example unmarshal_repeated_key :
  option_map IncomingMessage.Media
    (Unmarshal_IncomingMessage
       (frame "{'media':['a.png','b.png'],'media':[null,'c.png']}"))
  = Some ["a.png"; "c.png"]
  /\ option_map IncomingMessage.Media
       (Unmarshal_IncomingMessage
          (frame "{'media':['a.png','b.png'],'media':[null]}"))
     = Some ["a.png"]
  /\ option_map IncomingMessage.Media
       (Unmarshal_IncomingMessage
          (frame "{'media':['a.png','b.png'],'media':[null],'media':[null,null,null]}"))
     = Some ["a.png"; "b.png"; ""]
  /\ option_map IncomingMessage.Media
       (Unmarshal_IncomingMessage
          (frame "{'media':['a.png','b.png'],'media':null,'media':[null,null]}"))
     = Some [""; ""]
  /\ option_map IncomingMessage.Content
       (Unmarshal_IncomingMessage (frame "{'content':'a','content':null}"))
     = Some "a".
Proof. vm_compute. repeat split; reflexivity. Qed.

(** What [url.Parse] refuses and what [URL.String] escapes. *)
Example parse_checks_escapes :
  url.Parse "ws://[::1" = None
  /\ url.Parse "ws://h/a%zzb?token=t" = None
  /\ url.Parse "ws://us er@h/" = None
  /\ url.Parse "ws://h%41/" = None
  /\ option_map url.String_ (url.Parse "ws://h/a b") = Some "ws://h/a%20b"
  /\ option_map url.String_ (url.Parse "ws://h/a%41b") = Some "ws://h/a%41b"
  /\ option_map url.String_ (url.Parse "ws://u:p%40@[fe80::1%25en0]:80/a%2Fb?x=1#f g")
     = Some "ws://u:p%40@[fe80::1%25en0]:80/a%2Fb?x=1#f%20g"
  /\ extractAuthToken "ws://h/a b?token=t" = ("ws://h/a%20b", "t")
  /\ extractAuthToken "ws://h/a%zzb?token=t" = ("ws://h/a%zzb?token=t", "")
  /\ validateBridgeURL "ws://[::1" = Some errInvalidURLFormat.
Proof. vm_compute. repeat split; reflexivity. Qed.


(** ** The retry policy *)

Lemma NextDelays_app (n m : nat) (r : ConnectionRetry) :
  NextDelays (n + m) r =
  (fst (NextDelays n r) ++ fst (NextDelays m (snd (NextDelays n r))),
   snd (NextDelays m (snd (NextDelays n r)))).
Proof.
  revert r. induction n as [|n IH]; intros r; simpl.
  - now destruct (NextDelays m r).
  - destruct (NextDelay r) as [d r1]. rewrite IH.
    destruct (NextDelays n r1) as [ds r2]. reflexivity.
Qed.

(** Once the attempts are used up, [NextDelay] answers 0 and changes nothing. *)
Lemma NextDelays_exhausted (n : nat) (r : ConnectionRetry) :
  maxAttempts r <= attempts r ->
  NextDelays n r = (repeat 0 n, r).
Proof.
  intros H. induction n as [|n IH]; simpl; [reflexivity|].
  unfold NextDelay. destruct (Z.leb_spec (maxAttempts r) (attempts r)); [|lia].
  now rewrite IH.
Qed.

Definition exhausted : ConnectionRetry :=
  {| attempts := 5;
     maxAttempts := MaxReconnectAttempts;
     initialDelay := InitialReconnectDelay;
     maxDelay := MaxReconnectDelay;
     currentDelay := MaxReconnectDelay |}.

Lemma exhausted_spent : maxAttempts exhausted <= attempts exhausted.
Proof. cbv. discriminate. Qed.

Lemma NextDelays_five :
  NextDelays 5 NewConnectionRetry =
  ([1 * Second; 2 * Second; 4 * Second; 8 * Second; 16 * Second], exhausted).
Proof. reflexivity. Qed.

Lemma NextDelays_default_state (n : nat) :
  snd (NextDelays n NewConnectionRetry) =
  if (n <? 5)%nat then snd (NextDelays n NewConnectionRetry) else exhausted.
Proof.
  destruct (Nat.ltb_spec n 5) as [Hlt|Hge]; [reflexivity|].
  replace n with (5 + (n - 5))%nat by lia.
  rewrite NextDelays_app, NextDelays_five. simpl fst; simpl snd.
  now rewrite NextDelays_exhausted by exact exhausted_spent.
Qed.

Lemma small_cases (n : nat) :
  (n < 5)%nat ->
  n = 0%nat \/ n = 1%nat \/ n = 2%nat \/ n = 3%nat \/ n = 4%nat.
Proof. lia. Qed.

Lemma ShouldRetry_default (n : nat) :
  ShouldRetry (snd (NextDelays n NewConnectionRetry)) = (n <? 5)%nat.
Proof.
  rewrite NextDelays_default_state.
  destruct (Nat.ltb_spec n 5) as [Hlt|Hge]; [|reflexivity].
  destruct (small_cases n Hlt) as [-> | [-> | [-> | [-> | ->]]]]; reflexivity.
Qed.

Lemma Reset_default (n : nat) :
  Reset (snd (NextDelays n NewConnectionRetry)) = NewConnectionRetry.
Proof.
  rewrite NextDelays_default_state.
  destruct (Nat.ltb_spec n 5) as [Hlt|Hge]; [|reflexivity].
  destruct (small_cases n Hlt) as [-> | [-> | [-> | [-> | ->]]]]; reflexivity.
Qed.

Lemma GetAttempts_default (n : nat) :
  GetAttempts (snd (NextDelays n NewConnectionRetry)) = Z.of_nat (Nat.min n 5).
Proof.
  rewrite NextDelays_default_state.
  destruct (Nat.ltb_spec n 5) as [Hlt|Hge].
  - destruct (small_cases n Hlt) as [-> | [-> | [-> | [-> | ->]]]]; reflexivity.
  - rewrite Nat.min_r by lia. reflexivity.
Qed.

(** C5. With the defaults (5 attempts, 1s initial, 30s cap) the calls of
    [NextDelay] return 1s, 2s, 4s, 8s, 16s and then 0 for ever; [Reset]
    after any number of calls restores the initial policy, so the sequence
    starts again from 1s; and [ShouldRetry] holds after [n] calls exactly
    when [n < 5]. *)
Theorem retry_default_sequence :
  (forall n : nat,
      fst (NextDelays (5 + n) NewConnectionRetry) =
      [1 * Second; 2 * Second; 4 * Second; 8 * Second; 16 * Second]
        ++ repeat 0 n)
  /\ (forall n : nat,
         Reset (snd (NextDelays n NewConnectionRetry)) = NewConnectionRetry)
  /\ (forall n : nat,
         ShouldRetry (snd (NextDelays n NewConnectionRetry)) = (n <? 5)%nat)
  /\ (forall n : nat,
         GetAttempts (snd (NextDelays n NewConnectionRetry)) =
         Z.of_nat (Nat.min n 5))
  /\ (forall n m : nat,
         fst (NextDelays (5 + m) (Reset (snd (NextDelays n NewConnectionRetry))))
         = [1 * Second; 2 * Second; 4 * Second; 8 * Second; 16 * Second]
             ++ repeat 0 m).
Proof.
  assert (Hseq : forall n : nat,
             fst (NextDelays (5 + n) NewConnectionRetry) =
             [1 * Second; 2 * Second; 4 * Second; 8 * Second; 16 * Second]
               ++ repeat 0 n).
  { intros n. rewrite NextDelays_app, NextDelays_five. simpl fst at 1.
    simpl snd. now rewrite NextDelays_exhausted by exact exhausted_spent. }
  split; [exact Hseq|]. split; [exact Reset_default|].
  split; [exact ShouldRetry_default|]. split; [exact GetAttempts_default|].
  intros n m. rewrite Reset_default. apply Hseq.
Qed.

(** ** Outbound validation *)

Lemma len_nonneg (s : string) : 0 <= len s.
Proof. unfold len. lia. Qed.

Lemma len_zero (s : string) : len s = 0 <-> s = "".
Proof.
  unfold len. destruct s; simpl; split; intros H; try reflexivity;
    try discriminate; lia.
Qed.

Lemma signMessage_no_error (v : MessageValidator) (msg : OutgoingMessage) :
  snd (signMessage v msg) = None.
Proof. unfold signMessage. now destruct (len (hmacKey v) =? 0). Qed.

Lemma signMessage_keeps (v : MessageValidator) (msg : OutgoingMessage) :
  let m := fst (signMessage v msg) in
  OutgoingMessage.Type_ m = OutgoingMessage.Type_ msg
  /\ OutgoingMessage.To m = OutgoingMessage.To msg
  /\ OutgoingMessage.Content m = OutgoingMessage.Content msg
  /\ OutgoingMessage.Media m = OutgoingMessage.Media msg
  /\ OutgoingMessage.Timestamp m = OutgoingMessage.Timestamp msg.
Proof.
  unfold signMessage. destruct (len (hmacKey v) =? 0); simpl; auto.
Qed.

Lemma validatePhoneNumber_ok (v : MessageValidator) (phone : string) :
  validatePhoneNumber v phone = None <-> 1 <= len phone <= 50.
Proof.
  unfold validatePhoneNumber.
  destruct (String.eqb_spec phone "") as [->|Hne].
  - split; [discriminate|]. unfold len; simpl; lia.
  - assert (len phone <> 0) by (rewrite len_zero; exact Hne).
    pose proof (len_nonneg phone).
    destruct (Z.ltb_spec (len phone) 1); [lia|].
    destruct (Z.ltb_spec 50 (len phone)); simpl; split;
      try discriminate; try reflexivity; lia.
Qed.

(** C10. [ValidateOutgoing] asks for no content and no media: a message of
    type "message" whose [to] has 1 to 50 bytes ([len], as the code counts)
    and whose content and media are empty is accepted, under any key; it
    comes back with the current time as its timestamp when that was zero,
    and with its type, recipient, content and media as they were. *)
Theorem outgoing_needs_no_content
        (v : MessageValidator) (now : Z) (msg : OutgoingMessage) :
  OutgoingMessage.Type_ msg = MessageTypeMessage ->
  1 <= len (OutgoingMessage.To msg) <= 50 ->
  OutgoingMessage.Content msg = "" ->
  OutgoingMessage.Media msg = [] ->
  let '(m, err) := ValidateOutgoing v now msg in
  err = None
  /\ OutgoingMessage.Timestamp m =
     (if OutgoingMessage.Timestamp msg =? 0 then now
      else OutgoingMessage.Timestamp msg)
  /\ OutgoingMessage.Type_ m = MessageTypeMessage
  /\ OutgoingMessage.To m = OutgoingMessage.To msg
  /\ OutgoingMessage.Content m = ""
  /\ OutgoingMessage.Media m = [].
Proof.
  intros Hty Hto Hc Hm. unfold ValidateOutgoing.
  rewrite Hty. simpl negb.
  apply validatePhoneNumber_ok with (v := v) in Hto. rewrite Hto.
  rewrite Hc. change (sanitizeContent v "") with (@Ok error string "").
  unfold OutgoingMessage.set_Content at 1 2. simpl OutgoingMessage.Media.
  rewrite Hm. simpl validateMedia.
  match goal with
  | |- context [signMessage v ?m] =>
      pose proof (signMessage_no_error v m) as Hs;
      pose proof (signMessage_keeps v m) as Hk;
      destruct (signMessage v m) as [m' e]
  end.
  simpl in Hs, Hk. subst e. destruct Hk as (H1 & H2 & H3 & H4 & H5).
  rewrite H1, H2, H3, H4, H5.
  destruct (OutgoingMessage.Timestamp msg =? 0) eqn:Hts; simpl;
    rewrite ?Hts, ?Hty, ?Hm; repeat split; reflexivity.
Qed.

Lemma outgoing_needs_no_content_witness :
  let msg := OutgoingMessage.mk "message" "+1234567890" "" [] 0 "" in
  OutgoingMessage.Type_ msg = MessageTypeMessage
  /\ 1 <= len (OutgoingMessage.To msg) <= 50
  /\ (let '(m, err) := ValidateOutgoing (NewMessageValidator "secret") 1700000000 msg in
      err = None
      /\ OutgoingMessage.Timestamp m =
         (if OutgoingMessage.Timestamp msg =? 0 then 1700000000
          else OutgoingMessage.Timestamp msg)
      /\ OutgoingMessage.Type_ m = MessageTypeMessage
      /\ OutgoingMessage.To m = OutgoingMessage.To msg
      /\ OutgoingMessage.Content m = ""
      /\ OutgoingMessage.Media m = []).
Proof.
  intros msg.
  assert (H1 : OutgoingMessage.Type_ msg = MessageTypeMessage) by reflexivity.
  assert (H2 : 1 <= len (OutgoingMessage.To msg) <= 50)
    by (vm_compute; split; discriminate).
  split; [exact H1|]. split; [exact H2|].
  exact (outgoing_needs_no_content (NewMessageValidator "secret") 1700000000
           msg H1 H2 eq_refl eq_refl).
Defined.

(** The length of [to] is counted in bytes, not in characters: a
    recipient of 26 characters of two bytes each (U+00E9, well-formed
    UTF-8) has 52 bytes, and [validatePhoneNumber] refuses it; the message,
    of type "message" and with empty content and media, is refused by
    [ValidateOutgoing] as having an invalid recipient. *)
Lemma recipient_length_is_in_bytes :
  let to := of_bytes (List.concat (repeat [0xC3; 0xA9] 26)) in
  let msg := OutgoingMessage.mk "message" to "" [] 0 "" in
  utf8.ValidString to = true
  /\ utf8.RuneCountInString to = 26
  /\ len to = 52
  /\ validatePhoneNumber (NewMessageValidator "") to = Some errPhoneLength
  /\ ValidateOutgoing (NewMessageValidator "") 1700000000 msg
     = (msg, Some (errInvalidRecipient errPhoneLength)).
Proof. vm_compute. repeat split; reflexivity. Qed.

(** ** The ping reply *)

(** C1. The reply to a ping is never sent: [handlePing] builds a message of
    type "pong", [ValidateOutgoing] refuses every type but "message", and
    [handlePing] returns after logging that error, whatever the key, the
    connection and the time.  Nothing is written to the connection. *)
Theorem handlePing_sends_no_pong
        (c : WhatsAppChannel) (now : Z) (msg : IncomingMessage) :
  handlePing c now msg =
  [Log "Failed to validate pong message" (Some errOutgoingType)]
  /\ filter is_write (handlePing c now msg) = [].
Proof. split; reflexivity. Qed.

(** The ping frame, from the read loop: on a connected channel it is
    validated as an inbound frame, handed to [handlePing], and answered by
    a line in the log. *)
Example ping_frame_gets_no_reply :
  let c := set_conn (example_channel "wss://bridge.example.com/ws")
             (Some 1%nat) true false in
  ValidateIncoming (validator c) (frame "{'type':'ping'}") =
  Ok (IncomingMessage.mk "ping" "" "" "" "" [] "" "" "" 0 "")
  /\ listen_round c (1700000000 * time.Second)
       (read_frame TextMessage (frame "{'type':'ping'}"))
     = (c, [Log "Failed to validate pong message" (Some errOutgoingType)]).
Proof. vm_compute. split; reflexivity. Qed.

(** ** The constructor *)

(** C9. A channel built by [NewWhatsAppChannel] has the empty HMAC key:
    its validator accepts the signature of every inbound message and leaves
    every outbound message as it is, without a signature of its own. *)
Theorem constructed_channel_has_no_key
        (cfg : WhatsAppConfig) (c : WhatsAppChannel) :
  NewWhatsAppChannel cfg = Ok c ->
  hmacKey (validator c) = ""
  /\ hmacKey_ c = ""
  /\ (forall msg : IncomingMessage, VerifySignature (validator c) msg = None)
  /\ (forall msg : OutgoingMessage, signMessage (validator c) msg = (msg, None)).
Proof.
  unfold NewWhatsAppChannel. intros H.
  destruct (validateBridgeURL (BridgeURL cfg)); [discriminate|].
  destruct (extractAuthToken (BridgeURL cfg)) as [bridgeURL token].
  injection H as <-. simpl. repeat split; reflexivity.
Qed.

Lemma constructed_channel_has_no_key_witness :
  let cfg :=
    mkWhatsAppConfig true "wss://bridge.example.com/ws?token=s3cret" [] "" "" "" in
  exists c : WhatsAppChannel,
    NewWhatsAppChannel cfg = Ok c
    /\ url_ c = "wss://bridge.example.com/ws"
    /\ authToken c = "s3cret"
    /\ hmacKey (validator c) = ""
    /\ hmacKey_ c = ""
    /\ (forall msg : IncomingMessage, VerifySignature (validator c) msg = None)
    /\ (forall msg : OutgoingMessage,
           signMessage (validator c) msg = (msg, None)).
Proof.
  intros cfg. eexists. split; [vm_compute; reflexivity|].
  split; [reflexivity|]. split; [reflexivity|].
  eapply (constructed_channel_has_no_key cfg). vm_compute. reflexivity.
Defined.

(** ** The scheme of the bridge URL *)

Lemma connect_dials (c : WhatsAppChannel) (now : Z) (dial : dialOutcome)
      (u : url.URL) :
  url.Parse (url_ c) = Some u ->
  String.eqb (url.Scheme u) "wss" || String.eqb (url.Scheme u) "ws" = true ->
  exists headers rest,
    snd (connect c now dial) = Dial (url_ c) headers :: rest
    /\ filter is_dial rest = [].
Proof.
  intros Hp Hs. unfold connect. rewrite Hp.
  rewrite <- negb_orb, Hs. simpl negb. cbv iota.
  destruct dial as [st|cn sn sts].
  - eexists. exists []. split; reflexivity.
  - destruct (validateBridgeResponse c now sn sts); eexists; eexists;
      split; reflexivity.
Qed.

(** C4, as the code has it.  The gate on the scheme lets through [wss] and
    [ws] alike: for a URL that parses, [validateBridgeURL] succeeds and
    [connect] dials exactly when the (lower-cased) scheme is one of the
    two; for any other scheme [validateBridgeURL] fails, and [connect]
    fails before it dials. *)
Theorem bridge_scheme_gate
        (c : WhatsAppChannel) (now : Z) (dial : dialOutcome)
        (rawURL : string) (u : url.URL) :
  rawURL <> "" ->
  url_ c = rawURL ->
  url.Parse rawURL = Some u ->
  if String.eqb (url.Scheme u) "wss" || String.eqb (url.Scheme u) "ws"
  then validateBridgeURL rawURL = None
       /\ exists headers rest,
            snd (connect c now dial) = Dial rawURL headers :: rest
            /\ filter is_dial rest = []
  else validateBridgeURL rawURL = Some (errSchemeGot (url.Scheme u))
       /\ connect c now dial = (c, Some errScheme, []).
Proof.
  intros Hne Hc Hp.
  destruct (String.eqb (url.Scheme u) "wss" || String.eqb (url.Scheme u) "ws")
    eqn:Hs.
  - split.
    + unfold validateBridgeURL. apply String.eqb_neq in Hne. rewrite Hne, Hp.
      now rewrite <- negb_orb, Hs.
    + subst rawURL. now apply connect_dials with (u := u).
  - split.
    + unfold validateBridgeURL. apply String.eqb_neq in Hne. rewrite Hne, Hp.
      now rewrite <- negb_orb, Hs.
    + unfold connect. rewrite Hc, Hp. now rewrite <- negb_orb, Hs.
Qed.

Lemma bridge_scheme_gate_witness :
  let rawURL := "http://localhost:3001" in
  let c := example_channel rawURL in
  rawURL <> ""
  /\ url.Parse rawURL =
     Some (url.mkURL "http" "" "localhost:3001" "" false "" "" false)
  /\ validateBridgeURL rawURL = Some (errSchemeGot "http")
  /\ connect c 0 (dial_ok 1%nat "" "") = (c, Some errScheme, []).
Proof.
  intros rawURL c.
  assert (Hne : rawURL <> "") by discriminate.
  assert (Hp : url.Parse rawURL =
               Some (url.mkURL "http" "" "localhost:3001" "" false "" "" false))
    by reflexivity.
  split; [exact Hne|]. split; [exact Hp|].
  exact (bridge_scheme_gate c 0 (dial_ok 1%nat "" "") rawURL _ Hne eq_refl Hp).
Defined.

(** C4, as the claim states it, fails: the plain [ws] scheme is accepted
    without any opt-in (the configuration has no field for one).  The
    constructor succeeds on the bridge URL of the tests, and [connect]
    dials it. *)
Lemma ws_scheme_accepted :
  let cfg := mkWhatsAppConfig true "ws://localhost:3001" [] "" "" "" in
  validateBridgeURL "ws://localhost:3001" = None
  /\ NewWhatsAppChannel cfg = Ok (example_channel "ws://localhost:3001")
  /\ connect (example_channel "ws://localhost:3001") 0 (dial_ok 1%nat "" "") =
     (set_conn (example_channel "ws://localhost:3001") (Some 1%nat) true false,
      None,
      [Dial "ws://localhost:3001"
         [("X-Nonce", "0-0"); ("X-Timestamp", "0")];
       SetReadDeadline 1%nat (60 * time.Second)]).
Proof. repeat split; vm_compute; reflexivity. Qed.

(** ** Reconnection *)







Lemma NextDelays_succ (n : nat) (r : ConnectionRetry) :
  NextDelays (n + 1) r =
  (fst (NextDelays n r) ++ [fst (NextDelay (snd (NextDelays n r)))],
   snd (NextDelay (snd (NextDelays n r)))).
Proof.
  rewrite NextDelays_app. simpl.
  now destruct (NextDelay (snd (NextDelays n r))).
Qed.



(** A successful attempt connects the channel and resets the policy. *)
Lemma attemptReconnection_success (c : WhatsAppChannel) (now : Z) (cn : Conn)
      (u : url.URL) :
  url.Parse (url_ c) = Some u ->
  String.eqb (url.Scheme u) "wss" || String.eqb (url.Scheme u) "ws" = true ->
  ShouldRetry (retryManager c) = true ->
  let c' := fst (attemptReconnection c now (dial_ok cn "" "")) in
  connected c' = true /\ conn c' = Some cn
  /\ retryManager c' = Reset (retryManager c).
Proof.
  intros Hp Hs Hsr. unfold attemptReconnection. rewrite Hsr. simpl negb.
  cbv iota. destruct (NextDelay (retryManager c)) as [delay r] eqn:Hnd.
  unfold connect. simpl url_. rewrite Hp, <- negb_orb, Hs. simpl.
  repeat split. unfold NextDelay in Hnd.
  destruct (maxAttempts (retryManager c) <=? attempts (retryManager c));
    injection Hnd as _ <-; reflexivity.
Qed.





(** ** Media paths *)

Lemma split_head (s : string) (sep : ascii) :
  exists piece rest,
    url.split s sep = piece :: rest /\ String.prefix piece s = true.
Proof.
  induction s as [|c t IH]; simpl.
  - exists "", []. split; reflexivity.
  - destruct (Ascii.eqb c sep).
    + exists "", (url.split t sep). split; reflexivity.
    + destruct IH as (piece & rest & -> & Hpre).
      exists (String c piece), rest. split; [reflexivity|].
      simpl. destruct (ascii_dec c c); [exact Hpre|congruence].
Qed.

Lemma Contains_tail (c : ascii) (t substr : string) :
  strings.Contains t substr = true ->
  strings.Contains (String c t) substr = true.
Proof.
  intros H. cbn [strings.Contains]. rewrite H. apply orb_true_r.
Qed.

Lemma segment_in_path (path : string) :
  In ".." (url.split path "/") -> strings.Contains path ".." = true.
Proof.
  induction path as [|c t IH]; simpl url.split.
  - intros [H|[]]. discriminate.
  - destruct (Ascii.eqb c "/") eqn:Hc.
    + intros [H|H]; [discriminate|]. apply Contains_tail, IH, H.
    + destruct (split_head t "/") as (piece & rest & Hsp & Hpre).
      rewrite Hsp. intros [H|H].
      * injection H as -> ->. cbn [strings.Contains].
        unfold strings.HasPrefix. cbn [String.prefix].
        destruct (ascii_dec "." "."); [|congruence].
        rewrite Hpre. reflexivity.
      * apply Contains_tail, IH. rewrite Hsp. now right.
Qed.

Lemma traversal_segment_in_path (path : string) :
  has_traversal_segment path = true -> strings.Contains path ".." = true.
Proof.
  unfold has_traversal_segment, path_segments. intros H.
  apply existsb_exists in H as (seg & Hin & Heq).
  apply String.eqb_eq in Heq. subst seg. now apply segment_in_path.
Qed.

(** C8, as the code has it.  [validateMediaPath] refuses, with the
    traversal error, exactly the paths that contain two dots in a row
    anywhere, which covers every path with a [..] segment; and it accepts
    a path exactly when the path contains no two dots in a row and its
    lower-cased form ends with one of the eight extensions. *)
Theorem media_path_gate (v : MessageValidator) (path : string) :
  (validateMediaPath v path = Some errTraversal
   <-> strings.Contains path ".." = true)
  /\ (validateMediaPath v path = None
      <-> strings.Contains path ".." = false
          /\ existsb (strings.HasSuffix (strings.ToLower path)) validExtensions
             = true)
  /\ (has_traversal_segment path = true ->
      validateMediaPath v path = Some errTraversal).
Proof.
  assert (H1 : validateMediaPath v path = Some errTraversal
               <-> strings.Contains path ".." = true).
  { unfold validateMediaPath. destruct (strings.Contains path "..").
    - split; reflexivity.
    - destruct (existsb _ validExtensions); split; discriminate. }
  split; [exact H1|]. split.
  - unfold validateMediaPath. destruct (strings.Contains path "..").
    + split; [discriminate|]. intros [H _]. discriminate.
    + destruct (existsb _ validExtensions).
      * split; [now split|reflexivity].
      * split; [discriminate|]. intros [_ H]. discriminate.
  - intros H. apply H1. now apply traversal_segment_in_path.
Qed.

Lemma media_path_gate_witness :
  has_traversal_segment "../../etc/passwd.png" = true
  /\ extension_allowed "../../etc/passwd.png" = true
  /\ validateMediaPath (NewMessageValidator "") "../../etc/passwd.png"
     = Some errTraversal.
Proof.
  assert (H : has_traversal_segment "../../etc/passwd.png" = true)
    by reflexivity.
  split; [exact H|]. split; [reflexivity|].
  exact (proj2 (proj2 (media_path_gate (NewMessageValidator "")
                         "../../etc/passwd.png")) H).
Defined.

(** C8, as the claim states it, fails: a path with an allow-listed
    extension and no [..] segment is refused when two dots stand in a row
    inside a name.  Inbound and outbound validation refuse it alike. *)
Lemma dotted_name_refused :
  let v := NewMessageValidator "" in
  has_traversal_segment "photo..png" = false
  /\ extension_allowed "photo..png" = true
  /\ validateMediaPath v "photo..png" = Some errTraversal
  /\ validateIncomingMessage v
       (IncomingMessage.mk "message" "" "+1" "" "" ["photo..png"] "" "" "" 0 "")
     = Err (errInvalidMediaPath errTraversal)
  /\ snd (ValidateOutgoing v 0
            (OutgoingMessage.mk "message" "+1" "" ["photo..png"] 0 ""))
     = Some (errInvalidMediaPath errTraversal).
Proof. vm_compute. repeat split; reflexivity. Qed.

(** ** Signatures *)

Lemma round_length (st : list Z) (kw : Z * Z) :
  List.length (sha256.round st kw) = List.length st.
Proof.
  unfold sha256.round.
  do 9 (destruct st as [|? st]; try reflexivity).
Qed.

Lemma rounds_length (l : list (Z * Z)) (st : list Z) :
  List.length (fold_left sha256.round l st) = List.length st.
Proof.
  revert st. induction l as [|kw l IH]; intros st; simpl; [reflexivity|].
  now rewrite IH, round_length.
Qed.

Lemma block_length (h blk : list Z) :
  List.length (sha256.block h blk) = List.length h.
Proof.
  unfold sha256.block.
  rewrite length_map, length_combine, rounds_length. apply Nat.min_id.
Qed.

Lemma blocks_length (n : nat) (h bs : list Z) :
  List.length (sha256.blocks n h bs) = List.length h.
Proof.
  revert h bs. induction n as [|n IH]; intros h bs; simpl; [reflexivity|].
  destruct bs; [reflexivity|]. now rewrite IH, block_length.
Qed.

Lemma be_bytes_length (n : nat) (v : Z) :
  List.length (sha256.be_bytes n v) = n.
Proof.
  unfold sha256.be_bytes. now rewrite length_map, length_rev, length_seq.
Qed.

Lemma flat_be_bytes_length (l : list Z) :
  List.length (flat_map (sha256.be_bytes 4) l) = (4 * List.length l)%nat.
Proof.
  induction l as [|x l IH]; [reflexivity|].
  cbn [flat_map]. rewrite length_app, be_bytes_length, IH. simpl. lia.
Qed.

(** A digest has 32 bytes. *)
Lemma Sum256_length (msg : list Z) :
  List.length (sha256.Sum256 msg) = 32%nat.
Proof.
  unfold sha256.Sum256. rewrite flat_be_bytes_length, blocks_length.
  reflexivity.
Qed.

Lemma EncodeToString_length (src : list Z) :
  String.length (hex.EncodeToString src) = (2 * List.length src)%nat.
Proof.
  induction src as [|x l IH]; [reflexivity|].
  cbn [hex.EncodeToString String.length List.length]. rewrite IH. lia.
Qed.

(** A signature has 64 hexadecimal digits. *)
Lemma calculateSignature_length (v : MessageValidator) (data : string) :
  String.length (calculateSignature v data) = 64%nat.
Proof.
  unfold calculateSignature, hmac.Sum.
  now rewrite EncodeToString_length, Sum256_length.
Qed.

Lemma calculateSignature_nonempty (v : MessageValidator) (data : string) :
  calculateSignature v data <> "".
Proof.
  intros H. pose proof (calculateSignature_length v data) as L.
  rewrite H in L. discriminate.
Qed.

Lemma signMessage_with_key (v : MessageValidator) (msg : OutgoingMessage) :
  hmacKey v <> "" ->
  signMessage v msg =
  (OutgoingMessage.set_Signature msg
     (calculateSignature v
        (Marshal_OutgoingMessage (OutgoingMessage.set_Signature msg ""))),
   None).
Proof.
  intros Hk. unfold signMessage.
  destruct (Z.eqb_spec (len (hmacKey v)) 0) as [H0|_]; [|reflexivity].
  apply len_zero in H0. contradiction.
Qed.

(** What [ValidateOutgoing] signs: the serialization of the message it
    returns, with the signature cleared. *)
Lemma ValidateOutgoing_signs (v : MessageValidator) (now : Z)
      (msg : OutgoingMessage) :
  hmacKey v <> "" ->
  snd (ValidateOutgoing v now msg) = None ->
  let m := fst (ValidateOutgoing v now msg) in
  OutgoingMessage.Signature m =
  calculateSignature v
    (Marshal_OutgoingMessage (OutgoingMessage.set_Signature m "")).
Proof.
  intros Hk. unfold ValidateOutgoing.
  destruct (negb (String.eqb (OutgoingMessage.Type_ msg) MessageTypeMessage));
    [discriminate|].
  destruct (validatePhoneNumber v (OutgoingMessage.To msg)); [discriminate|].
  destruct (sanitizeContent v (OutgoingMessage.Content msg)) as [sanitized|e];
    [|discriminate].
  destruct (validateMedia v _); [discriminate|].
  rewrite signMessage_with_key by exact Hk. intros _. reflexivity.
Qed.

Lemma VerifySignature_with_key (v : MessageValidator) (msg : IncomingMessage) :
  hmacKey v <> "" ->
  VerifySignature v msg =
  if String.eqb (IncomingMessage.Signature msg) "" then
    Some errMissingSignature
  else if String.eqb (IncomingMessage.Signature msg)
            (calculateSignature v
               (Marshal_IncomingMessage (IncomingMessage.set_Signature msg "")))
  then None
  else Some errInvalidSignature.
Proof.
  intros Hk. unfold VerifySignature, hmac.Equal.
  destruct (Z.eqb_spec (len (hmacKey v)) 0) as [H0|_].
  - apply len_zero in H0. contradiction.
  - destruct (String.eqb (IncomingMessage.Signature msg) ""); [reflexivity|].
    now destruct (String.eqb _ (calculateSignature v _)).
Qed.

(** ** Facts about the library models *)

(** ** Bytes *)

Lemma byte_val_range (c : ascii) : 0 <= byte_val c < 256.
Proof.
  unfold byte_val. pose proof (N_ascii_bounded c). lia.
Qed.

Lemma byte_val_of (z : Z) : byte_val (byte_of z) = Z.land z 255.
Proof.
  unfold byte_val, byte_of.
  assert (H : 0 <= Z.land z 255 < 256).
  { change 255 with (Z.ones 8). rewrite Z.land_ones by lia.
    apply Z.mod_pos_bound. reflexivity. }
  rewrite N_ascii_embedding by lia. rewrite Z2N.id; lia.
Qed.

Lemma byte_val_of_small (z : Z) : 0 <= z < 256 -> byte_val (byte_of z) = z.
Proof.
  intros H. rewrite byte_val_of. change 255 with (Z.ones 8).
  rewrite Z.land_ones by lia. apply Z.mod_small. exact H.
Qed.

(** A byte with its top bit set is at least 128. *)
Lemma high_byte (t x : Z) :
  Z.testbit t 7 = true -> 128 <= byte_val (byte_of (Z.lor t x)).
Proof.
  intros Ht. rewrite byte_val_of.
  assert (Hb : Z.testbit (Z.land (Z.lor t x) 255) 7 = true).
  { rewrite Z.land_spec, Z.lor_spec, Ht. reflexivity. }
  assert (Hr : 0 <= Z.land (Z.lor t x) 255 < 256).
  { change 255 with (Z.ones 8). rewrite Z.land_ones by lia.
    apply Z.mod_pos_bound. reflexivity. }
  apply Z.testbit_true in Hb; [|lia].
  change (2 ^ 7) with 128 in Hb.
  destruct (Z.lt_ge_cases (Z.land (Z.lor t x) 255) 128) as [Hlt|Hge];
    [|exact Hge].
  rewrite Z.div_small in Hb by lia. discriminate.
Qed.

Lemma bytes_String (c : ascii) (s : string) :
  bytes (String c s) = byte_val c :: bytes s.
Proof. reflexivity. Qed.

Lemma bytes_app (a b : string) : bytes (String.append a b) = bytes a ++ bytes b.
Proof.
  unfold bytes. induction a as [|c a IH]; simpl; [reflexivity|].
  now rewrite IH.
Qed.

Lemma bytes_drop (n : nat) (s : string) (P : Z -> bool) :
  forallb P (bytes s) = true -> forallb P (bytes (drop n s)) = true.
Proof.
  revert s. induction n as [|n IH]; intros s H; [exact H|].
  destruct s as [|c s]; [exact H|]. simpl. apply IH.
  change (bytes (String c s)) with (byte_val c :: bytes s) in H.
  simpl in H. now apply andb_prop in H.
Qed.

Lemma bytes_take (n : nat) (s : string) (P : Z -> bool) :
  forallb P (bytes s) = true -> forallb P (bytes (take n s)) = true.
Proof.
  revert s. induction n as [|n IH]; intros s H; [reflexivity|].
  destruct s as [|c s]; [reflexivity|].
  change (bytes (String c s)) with (byte_val c :: bytes s) in H.
  simpl in H. apply andb_prop in H as [H1 H2].
  change (bytes (take (S n) (String c s)))
    with (byte_val c :: bytes (take n s)).
  simpl. rewrite H1. now apply IH.
Qed.

Lemma drop_length (n : nat) (s : string) :
  String.length (drop n s) = (String.length s - n)%nat.
Proof.
  revert s. induction n as [|n IH]; intros s; simpl; [lia|].
  destruct s; simpl; [reflexivity|apply IH].
Qed.

Lemma take_length (n : nat) (s : string) :
  String.length (take n s) = Nat.min n (String.length s).
Proof.
  revert s. induction n as [|n IH]; intros s; simpl; [reflexivity|].
  destruct s; simpl; [reflexivity|now rewrite IH].
Qed.

Lemma append_length (a b : string) :
  String.length (String.append a b) = (String.length a + String.length b)%nat.
Proof. induction a as [|c a IH]; simpl; [reflexivity|now rewrite IH]. Qed.

(** ** Decoding *)

Lemma first_range (s0 sz lo hi : Z) :
  utf8.first s0 = Some (sz, lo, hi) ->
  0xC2 <= s0 /\ 0x80 <= lo /\ hi <= 0xBF /\ 2 <= sz <= 4.
Proof.
  unfold utf8.first, utf8.locb, utf8.hicb.
  repeat match goal with
         | |- context [if ?b then _ else _] => destruct b eqn:?
         end;
    intros H; try discriminate; injection H as <- <- <-;
    repeat match goal with
           | H : (_ <? _) = false |- _ => apply Z.ltb_ge in H
           end; lia.
Qed.

Lemma first_continuation (s0 : Z) : s0 <= 0xBF -> utf8.first s0 = None.
Proof.
  intros H. unfold utf8.first.
  destruct (Z.ltb_spec s0 0xC2); [reflexivity|lia].
Qed.

Lemma Decode_width (s : string) :
  s <> "" -> (1 <= snd (utf8.DecodeRuneInString s) <= 4)%nat.
Proof.
  intros Hne. destruct s as [|c0 s]; [contradiction|].
  unfold utf8.DecodeRuneInString.
  repeat match goal with
         | |- context [match ?x with EmptyString => _ | String _ _ => _ end] =>
             destruct x
         | |- context [match utf8.first ?x with _ => _ end] =>
             destruct (utf8.first x) as [[[? ?] ?]|]
         | |- context [if ?b then _ else _] => destruct b
         end; simpl; lia.
Qed.

Lemma Decode_width_le (s : string) :
  (snd (utf8.DecodeRuneInString s) <= String.length s)%nat.
Proof.
  destruct s as [|c0 s]; [simpl; lia|].
  unfold utf8.DecodeRuneInString.
  repeat match goal with
         | |- context [match ?x with EmptyString => _ | String _ _ => _ end] =>
             destruct x
         | |- context [match utf8.first ?x with _ => _ end] =>
             destruct (utf8.first x) as [[[? ?] ?]|]
         | |- context [if ?b then _ else _] => destruct b
         end; simpl; lia.
Qed.

(** A continuation byte starts no rune. *)
Lemma Decode_continuation (c : ascii) (s : string) :
  0x80 <= byte_val c <= 0xBF ->
  utf8.DecodeRuneInString (String c s) = (utf8.RuneError, 1%nat).
Proof.
  intros H. unfold utf8.DecodeRuneInString, utf8.RuneSelf.
  destruct (Z.ltb_spec (byte_val c) 0x80); [lia|].
  now rewrite first_continuation by lia.
Qed.

(** The bytes of a rune after its first byte are continuation bytes. *)
Lemma Decode_tail (s : string) (j : nat) :
  (1 <= j < snd (utf8.DecodeRuneInString s))%nat ->
  exists c rest, drop j s = String c rest /\ 0x80 <= byte_val c <= 0xBF.
Proof.
  destruct s as [|c0 s]; [simpl; lia|].
  unfold utf8.DecodeRuneInString.
  destruct (byte_val c0 <? utf8.RuneSelf); [simpl; lia|].
  destruct (utf8.first (byte_val c0)) as [[[sz lo] hi]|] eqn:Hf; [|simpl; lia].
  apply first_range in Hf. destruct Hf as (_ & Hlo & Hhi & _).
  destruct s as [|c1 s]; [simpl; lia|].
  destruct (Z.ltb_spec (byte_val c1) lo); [simpl; lia|].
  destruct (Z.ltb_spec hi (byte_val c1)); [simpl; lia|]. simpl orb. cbv iota.
  destruct (sz <=? 2).
  { simpl snd. intros Hj. assert (j = 1%nat) as -> by lia.
    exists c1, s. split; [reflexivity|lia]. }
  destruct s as [|c2 s]; [simpl; lia|].
  unfold utf8.locb, utf8.hicb.
  destruct (Z.ltb_spec (byte_val c2) 0x80); [simpl; lia|].
  destruct (Z.ltb_spec 0xBF (byte_val c2)); [simpl; lia|]. simpl orb. cbv iota.
  destruct (sz <=? 3).
  { simpl snd. intros Hj.
    assert (j = 1%nat \/ j = 2%nat) as [-> | ->] by lia.
    - exists c1, (String c2 s). split; [reflexivity|lia].
    - exists c2, s. split; [reflexivity|lia]. }
  destruct s as [|c3 s]; [simpl; lia|].
  destruct (Z.ltb_spec (byte_val c3) 0x80); [simpl; lia|].
  destruct (Z.ltb_spec 0xBF (byte_val c3)); [simpl; lia|]. simpl orb. cbv iota.
  simpl snd. intros Hj.
  assert (j = 1%nat \/ j = 2%nat \/ j = 3%nat) as [-> | [-> | ->]] by lia.
  - exists c1, (String c2 (String c3 s)). split; [reflexivity|lia].
  - exists c2, (String c3 s). split; [reflexivity|lia].
  - exists c3, s. split; [reflexivity|lia].
Qed.

(** The first rune of a string is the first rune of each of its prefixes
    that is at least as long as that rune. *)
Lemma Decode_take (s : string) (k : nat) :
  (1 <= k)%nat ->
  (snd (utf8.DecodeRuneInString s) <= k)%nat ->
  utf8.DecodeRuneInString (take k s) = utf8.DecodeRuneInString s.
Proof.
  intros Hk. destruct s as [|c0 s]; [now destruct k|].
  destruct k as [|k]; [lia|]. cbn [take].
  unfold utf8.DecodeRuneInString.
  destruct (byte_val c0 <? utf8.RuneSelf); [reflexivity|].
  destruct (utf8.first (byte_val c0)) as [[[sz lo] hi]|]; [|reflexivity].
  destruct s as [|c1 s]; [now destruct k|].
  destruct ((byte_val c1 <? lo) || (hi <? byte_val c1)) eqn:H1.
  { destruct k; cbn [take]; [reflexivity|]. now rewrite H1. }
  destruct (sz <=? 2) eqn:H2.
  { simpl snd. intros Hw. destruct k as [|k]; [lia|]. cbn [take].
    now rewrite ?H1. }
  destruct s as [|c2 s].
  { intros _. destruct k as [|[|k]]; cbn [take]; rewrite ?H1; reflexivity. }
  destruct ((byte_val c2 <? utf8.locb) || (utf8.hicb <? byte_val c2)) eqn:H3.
  { intros _. destruct k as [|[|k]]; cbn [take]; rewrite ?H1, ?H2, ?H3;
      reflexivity. }
  destruct (sz <=? 3) eqn:H4.
  { simpl snd. intros Hw. destruct k as [|[|k]]; try lia. cbn [take].
    now rewrite ?H1, ?H2, ?H3. }
  destruct s as [|c3 s].
  { intros _. destruct k as [|[|[|k]]]; cbn [take]; rewrite ?H1, ?H2, ?H3;
      reflexivity. }
  destruct ((byte_val c3 <? utf8.locb) || (utf8.hicb <? byte_val c3)) eqn:H5.
  { intros _. destruct k as [|[|[|k]]]; cbn [take];
      rewrite ?H1, ?H2, ?H3, ?H4, ?H5; reflexivity. }
  simpl snd. intros Hw. destruct k as [|[|[|k]]]; try lia. cbn [take].
  now rewrite ?H1, ?H2, ?H3, ?H4, ?H5.
Qed.

Lemma last_char (u : string) :
  u <> "" ->
  exists c, drop (String.length u - 1) u = String c ""
            /\ utf8.byte_at u (len u - 1) = byte_val c.
Proof.
  induction u as [|c0 u IH]; [contradiction|]. intros _.
  destruct u as [|c1 u].
  - exists c0. split; reflexivity.
  - destruct IH as (c & Hd & Hb); [discriminate|]. exists c. split.
    + replace (String.length (String c0 (String c1 u)) - 1)%nat
        with (S (String.length (String c1 u) - 1)) by (simpl; lia).
      cbn [drop]. exact Hd.
    + unfold utf8.byte_at, len in *.
      replace (Z.to_nat (Z.of_nat (String.length (String c0 (String c1 u))) - 1))
        with (S (String.length (String c1 u) - 1))
        by (simpl String.length; lia).
      replace (Z.to_nat (Z.of_nat (String.length (String c1 u)) - 1))
        with (String.length (String c1 u) - 1)%nat in Hb by lia.
      cbn [String.get]. exact Hb.
Qed.

Lemma IsSpace_RuneError : unicode.IsSpace utf8.RuneError = false.
Proof. reflexivity. Qed.

(** A white-space rune found at the end of a string by
    [DecodeLastRuneInString] is the rune that [DecodeRuneInString] finds
    at the place where it starts. *)
Lemma DecodeLast_space (u : string) (r : Z) (size : nat) :
  utf8.DecodeLastRuneInString u = (r, size) ->
  unicode.IsSpace r = true ->
  exists j : nat,
    (j + size = String.length u)%nat /\ (1 <= size)%nat
    /\ utf8.DecodeRuneInString (drop j u) = (r, size).
Proof.
  unfold utf8.DecodeLastRuneInString. intros H Hsp.
  destruct (Z.eqb_spec (len u) 0) as [H0|Hn0].
  { injection H as <- _. rewrite IsSpace_RuneError in Hsp. discriminate. }
  assert (Hne : u <> "") by (intros ->; apply Hn0; reflexivity).
  destruct (last_char u Hne) as (c & Hd & Hb).
  assert (Hlen : (1 <= String.length u)%nat)
    by (destruct u; [contradiction|simpl; lia]).
  destruct (utf8.byte_at u (len u - 1) <? utf8.RuneSelf) eqn:Hascii.
  { injection H as <- <-. exists (String.length u - 1)%nat.
    split; [lia|]. split; [lia|]. rewrite Hd, Hb in *.
    unfold utf8.DecodeRuneInString. now rewrite Hascii. }
  set (lim := if len u - utf8.UTFMax <? 0 then 0 else len u - utf8.UTFMax) in H.
  set (start0 := utf8.back 4 u (len u - 2) lim) in H.
  set (start := if start0 <? 0 then 0 else start0) in H.
  assert (Hs0 : 0 <= start)
    by (subst start; destruct (Z.ltb_spec start0 0); lia).
  destruct (utf8.DecodeRuneInString (drop (Z.to_nat start) u))
    as [r' size'] eqn:Hdec.
  destruct (Z.eqb_spec (start + Z.of_nat size') (len u)) as [He|_].
  - injection H as <- <-. exists (Z.to_nat start). unfold len in He.
    split; [lia|]. split; [|exact Hdec].
    destruct (drop (Z.to_nat start) u) as [|d rest] eqn:Hdrop.
    + simpl in Hdec. injection Hdec as <- _.
      rewrite IsSpace_RuneError in Hsp. discriminate.
    + pose proof (Decode_width (String d rest)) as Hw.
      rewrite Hdec in Hw. simpl in Hw. apply Hw. discriminate.
  - injection H as <- _. rewrite IsSpace_RuneError in Hsp. discriminate.
Qed.

Lemma drop_take (j : nat) (u : string) :
  String.append (take j u) (drop j u) = u.
Proof.
  revert u. induction j as [|j IH]; intros u; [reflexivity|].
  destruct u as [|c u]; [reflexivity|]. simpl. now rewrite IH.
Qed.

(** One step of the trimming on the right keeps the first rune. *)
Lemma trim_right_step (u : string) (r : Z) (size : nat) :
  u <> "" ->
  unicode.IsSpace (fst (utf8.DecodeRuneInString u)) = false ->
  utf8.DecodeLastRuneInString u = (r, size) ->
  unicode.IsSpace r = true ->
  let u' := take (String.length u - size) u in
  u' <> ""
  /\ utf8.DecodeRuneInString u' = utf8.DecodeRuneInString u
  /\ (String.length u' < String.length u)%nat.
Proof.
  intros Hne Hfirst Hlast Hsp u'.
  destruct (DecodeLast_space u r size Hlast Hsp) as (j & Hj & Hsize & Hdec).
  assert (Hu' : u' = take j u) by (subst u'; f_equal; lia).
  pose proof (Decode_width u Hne) as Hw.
  assert (Hjw : (snd (utf8.DecodeRuneInString u) <= j)%nat).
  { destruct (Nat.le_gt_cases (snd (utf8.DecodeRuneInString u)) j) as [|Hlt];
      [assumption|]. exfalso.
    destruct j as [|j].
    - simpl in Hdec. rewrite Hdec in Hfirst. simpl in Hfirst. congruence.
    - destruct (Decode_tail u (S j)) as (c & rest & Hd & Hc); [lia|].
      rewrite Hd, Decode_continuation in Hdec by exact Hc.
      injection Hdec as <- _. rewrite IsSpace_RuneError in Hsp.
      discriminate. }
  rewrite Hu'. split; [|split].
  - destruct u as [|c u]; [contradiction|].
    destruct j as [|j]; [lia|]. discriminate.
  - apply Decode_take; lia.
  - rewrite take_length. lia.
Qed.

Lemma TrimRight_first (fuel : nat) (u : string) :
  u <> "" ->
  unicode.IsSpace (fst (utf8.DecodeRuneInString u)) = false ->
  let t := strings.TrimRightFunc_fuel fuel unicode.IsSpace u in
  t <> "" /\ unicode.IsSpace (fst (utf8.DecodeRuneInString t)) = false.
Proof.
  revert u. induction fuel as [|k IH]; intros u Hne Hf; [now split|].
  cbn [strings.TrimRightFunc_fuel]. destruct u as [|c u0]; [contradiction|].
  set (u := String c u0) in *.
  destruct (utf8.DecodeLastRuneInString u) as [r size] eqn:Hlast.
  destruct (unicode.IsSpace r) eqn:Hsp; [|now split].
  destruct (trim_right_step u r size Hne Hf Hlast Hsp) as (H1 & H2 & _).
  apply IH; [exact H1|]. now rewrite H2.
Qed.

Lemma TrimRight_last (fuel : nat) (u : string) :
  (String.length u <= fuel)%nat ->
  let t := strings.TrimRightFunc_fuel fuel unicode.IsSpace u in
  t = "" \/ unicode.IsSpace (fst (utf8.DecodeLastRuneInString t)) = false.
Proof.
  revert u. induction fuel as [|k IH]; intros u Hlen.
  - destruct u; [now left|simpl in Hlen; lia].
  - cbn [strings.TrimRightFunc_fuel]. destruct u as [|c u0]; [now left|].
    set (u := String c u0) in *.
    destruct (utf8.DecodeLastRuneInString u) as [r size] eqn:Hlast.
    destruct (unicode.IsSpace r) eqn:Hsp.
    + apply IH.
      destruct (DecodeLast_space u r size Hlast Hsp) as (j & Hj & Hsize & _).
      rewrite take_length. lia.
    + right. now rewrite Hlast.
Qed.

Lemma TrimLeft_first (fuel : nat) (s : string) :
  (String.length s <= fuel)%nat ->
  let t := strings.TrimLeftFunc_fuel fuel unicode.IsSpace s in
  t = "" \/ unicode.IsSpace (fst (utf8.DecodeRuneInString t)) = false.
Proof.
  revert s. induction fuel as [|k IH]; intros s Hlen.
  - destruct s; [now left|simpl in Hlen; lia].
  - cbn [strings.TrimLeftFunc_fuel]. destruct s as [|c s0]; [now left|].
    set (s := String c s0) in *.
    destruct (utf8.DecodeRuneInString s) as [r w] eqn:Hdec.
    destruct (unicode.IsSpace r) eqn:Hsp.
    + apply IH. rewrite drop_length.
      pose proof (Decode_width s) as Hw. rewrite Hdec in Hw. simpl in Hw.
      assert (1 <= w)%nat by (apply Hw; discriminate). lia.
    + right. now rewrite Hdec.
Qed.

Lemma TrimLeft_bytes (fuel : nat) (f : Z -> bool) (s : string) (P : Z -> bool) :
  forallb P (bytes s) = true ->
  forallb P (bytes (strings.TrimLeftFunc_fuel fuel f s)) = true.
Proof.
  revert s. induction fuel as [|k IH]; intros s H; [exact H|].
  cbn [strings.TrimLeftFunc_fuel]. destruct s as [|c s0]; [reflexivity|].
  destruct (utf8.DecodeRuneInString (String c s0)) as [r w].
  destruct (f r); [|exact H]. apply IH. now apply bytes_drop.
Qed.

Lemma TrimRight_bytes (fuel : nat) (f : Z -> bool) (s : string) (P : Z -> bool) :
  forallb P (bytes s) = true ->
  forallb P (bytes (strings.TrimRightFunc_fuel fuel f s)) = true.
Proof.
  revert s. induction fuel as [|k IH]; intros s H; [exact H|].
  cbn [strings.TrimRightFunc_fuel]. destruct s as [|c s0]; [reflexivity|].
  destruct (utf8.DecodeLastRuneInString (String c s0)) as [r w].
  destruct (f r); [|exact H]. apply IH. now apply bytes_take.
Qed.

Lemma TrimLeft_length (fuel : nat) (f : Z -> bool) (s : string) :
  (String.length (strings.TrimLeftFunc_fuel fuel f s) <= String.length s)%nat.
Proof.
  revert s. induction fuel as [|k IH]; intros s; [simpl; lia|].
  cbn [strings.TrimLeftFunc_fuel]. destruct s as [|c s0]; [simpl; lia|].
  destruct (utf8.DecodeRuneInString (String c s0)) as [r w].
  destruct (f r); [|lia]. etransitivity; [apply IH|]. rewrite drop_length. lia.
Qed.

Lemma TrimRight_length (fuel : nat) (f : Z -> bool) (s : string) :
  (String.length (strings.TrimRightFunc_fuel fuel f s) <= String.length s)%nat.
Proof.
  revert s. induction fuel as [|k IH]; intros s; [simpl; lia|].
  cbn [strings.TrimRightFunc_fuel]. destruct s as [|c s0]; [simpl; lia|].
  destruct (utf8.DecodeLastRuneInString (String c s0)) as [r w].
  destruct (f r); [|lia]. etransitivity; [apply IH|]. rewrite take_length. lia.
Qed.

(** [TrimSpace] leaves no white space at either end. *)
Lemma TrimSpace_trimmed (s : string) :
  let t := strings.TrimSpace s in
  t = ""
  \/ (unicode.IsSpace (fst (utf8.DecodeRuneInString t)) = false
      /\ unicode.IsSpace (fst (utf8.DecodeLastRuneInString t)) = false).
Proof.
  unfold strings.TrimSpace, strings.TrimRightFunc, strings.TrimLeftFunc.
  set (l := strings.TrimLeftFunc_fuel (String.length s) unicode.IsSpace s).
  destruct (TrimLeft_first (String.length s) s (Nat.le_refl _)) as [He|Hf];
    fold l in He || fold l in Hf.
  - left. rewrite He. reflexivity.
  - destruct l as [|c l0] eqn:Hl; [now left|].
    destruct (TrimRight_first (String.length (String c l0)) (String c l0))
      as (Hne & Hfirst); [discriminate|exact Hf|].
    destruct (TrimRight_last (String.length (String c l0)) (String c l0)
                (Nat.le_refl _)) as [He|Hlast]; [contradiction|].
    right. split; assumption.
Qed.

(** ** Encoding *)

Lemma lor_bound (a b : Z) : 0 <= a -> 0 <= b -> 0 <= Z.lor a b <= a + b.
Proof.
  intros Ha Hb. pose proof (Zbitwise.Z.add_lor_land a b) as H.
  assert (0 <= Z.land a b) by (apply Z.land_nonneg; now left).
  assert (0 <= Z.lor a b) by (apply Z.lor_nonneg; now split).
  lia.
Qed.

Lemma land_mask (x : Z) (k : Z) :
  0 <= k -> 0 <= Z.land x (Z.ones k) < 2 ^ k.
Proof.
  intros Hk. rewrite Z.land_ones by exact Hk. apply Z.mod_pos_bound.
  now apply Z.pow_pos_nonneg.
Qed.

Lemma EncodeRune_length (r : Z) :
  (1 <= String.length (utf8.EncodeRune r) <= 4)%nat
  /\ (0 <= r <= 0x7F -> String.length (utf8.EncodeRune r) = 1%nat)
  /\ (0 <= r <= 0x7FF -> (String.length (utf8.EncodeRune r) <= 2)%nat)
  /\ (0 <= r <= 0xFFFF -> (String.length (utf8.EncodeRune r) <= 3)%nat).
Proof.
  unfold utf8.EncodeRune, utf8.MaxRune. cbv zeta.
  destruct (Z.leb_spec 0 r); destruct (Z.leb_spec r 0x7F);
    destruct (Z.leb_spec r 0x7FF); destruct (Z.ltb_spec r 0);
    destruct (Z.ltb_spec 0x10FFFF r); destruct (Z.leb_spec 0xD800 r);
    destruct (Z.leb_spec r 0xDFFF); destruct (Z.leb_spec r 0xFFFF);
    simpl; repeat split; intros; lia.
Qed.

(** The encoding of a rune that was decoded from a valid sequence is not
    longer than the sequence. *)
Lemma Encode_Decode_length (s : string) (r : Z) (w : nat) :
  s <> "" ->
  utf8.DecodeRuneInString s = (r, w) ->
  (r =? utf8.RuneError) && (w =? 1)%nat = false ->
  (String.length (utf8.EncodeRune r) <= w)%nat.
Proof.
  intros Hne. destruct s as [|c0 s]; [contradiction|].
  pose proof (EncodeRune_length r) as (Hall & H1 & H2 & H3).
  pose proof (byte_val_range c0) as Hc0.
  unfold utf8.DecodeRuneInString, utf8.RuneSelf.
  destruct (Z.ltb_spec (byte_val c0) 0x80).
  { intros Hd _. apply pair_equal_spec in Hd as [<- <-]. rewrite H1; lia. }
  assert (Hbad : (utf8.RuneError, 1%nat) = (r, w) ->
                 (r =? utf8.RuneError) && (w =? 1)%nat = false ->
                 (String.length (utf8.EncodeRune r) <= w)%nat).
  { intros Hd. injection Hd as <- <-. discriminate. }
  destruct (utf8.first (byte_val c0)) as [[[sz lo] hi]|]; [|exact Hbad].
  destruct s as [|c1 s]; [exact Hbad|].
  destruct ((byte_val c1 <? lo) || (hi <? byte_val c1)); [exact Hbad|].
  destruct (sz <=? 2).
  { intros Hd _. apply pair_equal_spec in Hd as [<- <-]. apply H2.
    change utf8.mask2 with (Z.ones 5). change utf8.maskx with (Z.ones 6).
    pose proof (land_mask (byte_val c0) 5 ltac:(lia)) as Ha.
    pose proof (land_mask (byte_val c1) 6 ltac:(lia)) as Hb.
    rewrite Z.shiftl_mul_pow2 by lia.
    pose proof (lor_bound (Z.land (byte_val c0) (Z.ones 5) * 2 ^ 6)
                  (Z.land (byte_val c1) (Z.ones 6)) ltac:(lia) ltac:(lia)).
    lia. }
  destruct s as [|c2 s]; [exact Hbad|].
  destruct ((byte_val c2 <? utf8.locb) || (utf8.hicb <? byte_val c2));
    [exact Hbad|].
  destruct (sz <=? 3).
  { intros Hd _. apply pair_equal_spec in Hd as [<- <-]. apply H3.
    change utf8.mask3 with (Z.ones 4). change utf8.maskx with (Z.ones 6).
    pose proof (land_mask (byte_val c0) 4 ltac:(lia)) as Ha.
    pose proof (land_mask (byte_val c1) 6 ltac:(lia)) as Hb.
    pose proof (land_mask (byte_val c2) 6 ltac:(lia)) as Hc.
    rewrite !Z.shiftl_mul_pow2 by lia.
    pose proof (lor_bound (Z.land (byte_val c0) (Z.ones 4) * 2 ^ 12)
                  (Z.land (byte_val c1) (Z.ones 6) * 2 ^ 6)
                  ltac:(lia) ltac:(lia)) as Hx.
    pose proof (lor_bound _ (Z.land (byte_val c2) (Z.ones 6))
                  (proj1 Hx) ltac:(lia)).
    lia. }
  destruct s as [|c3 s]; [exact Hbad|].
  destruct ((byte_val c3 <? utf8.locb) || (utf8.hicb <? byte_val c3));
    [exact Hbad|].
  intros Hd _. apply pair_equal_spec in Hd as [<- <-]. lia.
Qed.

(** The bytes of the encoding of a rune that is no control character. *)
Lemma EncodeRune_plain (r : Z) :
  0x20 <= r \/ r = 0x09 \/ r = 0x0A \/ r = 0x0D ->
  forallb plain_byte (bytes (utf8.EncodeRune r)) = true.
Proof.
  intros Hr.
  assert (Hhigh : forall t x, Z.testbit t 7 = true ->
                    plain_byte (byte_val (byte_of (Z.lor t x))) = true).
  { intros t x Ht. pose proof (high_byte t x Ht). unfold plain_byte.
    destruct (Z.leb_spec 0x20 (byte_val (byte_of (Z.lor t x)))); [reflexivity|lia]. }
  unfold utf8.EncodeRune. cbv zeta.
  destruct ((0 <=? r) && (r <=? 0x7F)) eqn:H1.
  { apply andb_prop in H1 as [Ha Hb]. apply Z.leb_le in Ha, Hb.
    rewrite bytes_String. cbn [forallb bytes map list_ascii_of_string].
    rewrite byte_val_of_small, andb_true_r by lia.
    unfold plain_byte.
    destruct (Z.leb_spec 0x20 r); [reflexivity|].
    destruct Hr as [Hr | [-> | [-> | ->]]]; [lia | reflexivity ..]. }
  repeat match goal with
         | |- context [if ?b then _ else _] => destruct b
         end;
    rewrite !bytes_String; cbn [forallb]; rewrite !Hhigh by reflexivity;
    reflexivity.
Qed.

Lemma sanitize_rune_keeps (r : Z) :
  0 <= sanitize_rune r ->
  sanitize_rune r = r /\ (0x20 <= r \/ r = 0x09 \/ r = 0x0A \/ r = 0x0D).
Proof.
  unfold sanitize_rune.
  destruct (Z.ltb_spec r 32); destruct (Z.eqb_spec r 0x0A);
    destruct (Z.eqb_spec r 0x0D); destruct (Z.eqb_spec r 0x09); simpl;
    intros Hge; try lia; split; auto; lia.
Qed.

Lemma Map_sanitize_plain (fuel : nat) (s : string) :
  forallb plain_byte (bytes (strings.Map_fuel fuel sanitize_rune s)) = true.
Proof.
  revert s. induction fuel as [|f IH]; intros s; [reflexivity|].
  cbn [strings.Map_fuel]. destruct s as [|c s0]; [reflexivity|].
  destruct (utf8.DecodeRuneInString (String c s0)) as [r w].
  rewrite bytes_app, forallb_app, IH, andb_true_r.
  destruct (Z.leb_spec 0 (sanitize_rune r)) as [H|H]; [|reflexivity].
  destruct (sanitize_rune_keeps r H) as [-> Hr]. now apply EncodeRune_plain.
Qed.

Lemma Map_sanitize_length (fuel : nat) (s : string) :
  utf8.valid_fuel fuel s = true ->
  (String.length (strings.Map_fuel fuel sanitize_rune s) <= String.length s)%nat.
Proof.
  revert s. induction fuel as [|f IH]; intros s; [simpl; lia|].
  cbn [strings.Map_fuel utf8.valid_fuel]. destruct s as [|c s0]; [simpl; lia|].
  set (s := String c s0).
  destruct (utf8.DecodeRuneInString s) as [r w] eqn:Hdec.
  destruct ((r =? utf8.RuneError) && (w =? 1)%nat) eqn:Hbad; [discriminate|].
  intros Hv. specialize (IH _ Hv). rewrite drop_length in IH.
  rewrite append_length.
  pose proof (Decode_width_le s) as Hw. rewrite Hdec in Hw. simpl snd in Hw.
  assert (Hpiece : (String.length
                      (if (0 <=? sanitize_rune r)%Z
                       then utf8.EncodeRune (sanitize_rune r) else "") <= w)%nat).
  { destruct (Z.leb_spec 0 (sanitize_rune r)) as [H|H]; [|simpl; lia].
    destruct (sanitize_rune_keeps r H) as [-> _].
    apply (Encode_Decode_length s); [discriminate|exact Hdec|exact Hbad]. }
  lia.
Qed.

Lemma ReplaceAll_remove_bytes (fuel : nat) (s old : string) (P : Z -> bool) :
  forallb P (bytes s) = true ->
  forallb P (bytes (strings.ReplaceAll_fuel fuel s old "")) = true.
Proof.
  revert s. induction fuel as [|f IH]; intros s H; [exact H|].
  cbn [strings.ReplaceAll_fuel]. destruct s as [|c s0]; [reflexivity|].
  destruct (strings.HasPrefix (String c s0) old).
  - cbn [String.append]. apply IH. now apply bytes_drop.
  - change (bytes (String c s0)) with (byte_val c :: bytes s0) in H.
    simpl in H. apply andb_prop in H as [H1 H2].
    change (bytes (String c (strings.ReplaceAll_fuel f s0 old "")))
      with (byte_val c :: bytes (strings.ReplaceAll_fuel f s0 old "")).
    simpl. rewrite H1. now apply IH.
Qed.

Lemma ReplaceAll_remove_length (fuel : nat) (s old : string) :
  (String.length (strings.ReplaceAll_fuel fuel s old "") <= String.length s)%nat.
Proof.
  revert s. induction fuel as [|f IH]; intros s; [simpl; lia|].
  cbn [strings.ReplaceAll_fuel]. destruct s as [|c s0]; [simpl; lia|].
  destruct (strings.HasPrefix (String c s0) old).
  - cbn [String.append]. etransitivity; [apply IH|]. rewrite drop_length. lia.
  - simpl. specialize (IH s0). lia.
Qed.

(** ** Sanitized content *)

(** What [sanitizeContent] returns has no control byte but tab, line feed
    and carriage return, and no white space around it. *)
Lemma sanitize_steps_clean (content : string) :
  no_control_bytes (sanitize_steps content)
  /\ no_surrounding_space (sanitize_steps content).
Proof.
  split.
  - unfold no_control_bytes, sanitize_steps, strings.TrimSpace,
      strings.TrimRightFunc, strings.TrimLeftFunc, strings.ReplaceAll,
      strings.Map.
    apply TrimRight_bytes, TrimLeft_bytes, ReplaceAll_remove_bytes,
      Map_sanitize_plain.
  - unfold sanitize_steps. apply TrimSpace_trimmed.
Qed.

(** Sanitizing does not lengthen a content that is valid UTF-8. *)
Lemma sanitize_steps_length (content : string) :
  utf8.ValidString content = true ->
  len (sanitize_steps content) <= len content.
Proof.
  intros Hv. unfold len. apply inj_le.
  unfold sanitize_steps, strings.TrimSpace, strings.TrimRightFunc,
    strings.TrimLeftFunc, strings.ReplaceAll, strings.Map.
  etransitivity; [apply TrimRight_length|].
  etransitivity; [apply TrimLeft_length|].
  etransitivity; [apply ReplaceAll_remove_length|].
  now apply Map_sanitize_length.
Qed.

(** ** Inbound validation *)

Lemma validateMedia_error (v : MessageValidator) (media : list string) (e : error) :
  validateMedia v media = Some e -> exists e', e = errInvalidMediaPath e'.
Proof.
  induction media as [|p media IH]; simpl; [discriminate|].
  destruct (validateMediaPath v p) as [e'|]; [|exact IH].
  intros H. injection H as <-. now exists e'.
Qed.

(** What [validateIncomingMessage] returns: the message, with its content
    sanitized when it has one. *)
Lemma validateIncomingMessage_ok (v : MessageValidator) (msg msg' : IncomingMessage) :
  validateIncomingMessage v msg = Ok msg' ->
  msg' = (if String.eqb (IncomingMessage.Content msg) "" then msg
          else IncomingMessage.set_Content msg
                 (sanitize_steps (IncomingMessage.Content msg))).
Proof.
  unfold validateIncomingMessage.
  destruct (String.eqb (IncomingMessage.From msg) ""); [discriminate|].
  destruct (validatePhoneNumber v (IncomingMessage.From msg)); [discriminate|].
  destruct (String.eqb (IncomingMessage.Content msg) "") eqn:Hc; simpl negb;
    cbv iota.
  - destruct (Z.of_nat (List.length (IncomingMessage.Media msg)) =? 0);
      simpl andb; cbv iota; [discriminate|].
    destruct (validateMedia v (IncomingMessage.Media msg)); [discriminate|].
    destruct (VerifySignature v msg); [discriminate|].
    intros H. now injection H as <-.
  - simpl andb. cbv iota. unfold sanitizeContent.
    destruct (MaxContentLength <? len (IncomingMessage.Content msg));
      [discriminate|].
    destruct (validateMedia v _); [discriminate|].
    destruct (VerifySignature v _); [discriminate|].
    intros H. now injection H as <-.
Qed.

(** When a message frame has a valid sender, its content decides whether
    it fails for length. *)
Lemma validateIncomingMessage_too_long (v : MessageValidator) (msg : IncomingMessage) :
  validateIncomingMessage v msg = Err (errContentValidation errContentTooLong)
  <-> 1 <= len (IncomingMessage.From msg) <= 50
      /\ MaxContentLength < len (IncomingMessage.Content msg).
Proof.
  unfold validateIncomingMessage.
  destruct (String.eqb_spec (IncomingMessage.From msg) "") as [Hf|Hf].
  { split; [discriminate|]. intros [H _]. rewrite Hf in H.
    unfold len in H. simpl in H. lia. }
  pose proof (validatePhoneNumber_ok v (IncomingMessage.From msg)) as Hp.
  destruct (validatePhoneNumber v (IncomingMessage.From msg)) as [e|].
  { split; [discriminate|]. intros [H _]. apply Hp in H. discriminate. }
  assert (Hfrom : 1 <= len (IncomingMessage.From msg) <= 50) by now apply Hp.
  destruct (String.eqb_spec (IncomingMessage.Content msg) "") as [Hc|Hc];
    simpl negb; cbv iota.
  - assert (Hshort : ~ MaxContentLength < len (IncomingMessage.Content msg))
      by (rewrite Hc; unfold len, MaxContentLength; simpl; lia).
    destruct (Z.of_nat (List.length (IncomingMessage.Media msg)) =? 0);
      simpl andb; cbv iota.
    { split; [discriminate|]. intros [_ H]. contradiction. }
    destruct (validateMedia v (IncomingMessage.Media msg)) as [e|] eqn:Hm.
    { apply validateMedia_error in Hm as [e' ->].
      split; [discriminate|]. intros [_ H]. contradiction. }
    destruct (VerifySignature v msg);
      (split; [discriminate|]); intros [_ H]; contradiction.
  - simpl andb. cbv iota. unfold sanitizeContent.
    destruct (Z.ltb_spec MaxContentLength (len (IncomingMessage.Content msg)))
      as [Hl|Hl].
    { split; [now split|reflexivity]. }
    destruct (validateMedia v _) as [e|] eqn:Hm.
    { apply validateMedia_error in Hm as [e' ->].
      split; [discriminate|]. intros [_ H]. lia. }
    destruct (VerifySignature v _);
      (split; [discriminate|]); intros [_ H]; lia.
Qed.

(** The frames that [ValidateIncoming] hands to [validateIncomingMessage]. *)
Lemma ValidateIncoming_message (v : MessageValidator) (data : string)
      (msg0 : IncomingMessage) :
  Unmarshal_IncomingMessage data = Some msg0 ->
  IncomingMessage.Type_ msg0 = MessageTypeMessage ->
  ValidateIncoming v data = validateIncomingMessage v msg0.
Proof.
  intros Hu Ht. unfold ValidateIncoming. rewrite Hu, Ht. reflexivity.
Qed.

Lemma ValidateIncoming_inv (v : MessageValidator) (data : string)
      (r : result error IncomingMessage) :
  ValidateIncoming v data = r ->
  (exists msg0,
      Unmarshal_IncomingMessage data = Some msg0
      /\ IncomingMessage.Type_ msg0 = MessageTypeMessage
      /\ r = validateIncomingMessage v msg0)
  \/ (match r with
      | Ok msg => IncomingMessage.Type_ msg <> MessageTypeMessage
      | Err e => e <> errContentValidation errContentTooLong
      end).
Proof.
  unfold ValidateIncoming.
  destruct (Unmarshal_IncomingMessage data) as [msg0|];
    [|intros <-; right; discriminate].
  destruct (validateMessageType v (IncomingMessage.Type_ msg0)) as [e|] eqn:Hty.
  { unfold validateMessageType in Hty.
    destruct (existsb _ _); [discriminate|]. injection Hty as <-.
    intros <-. right. discriminate. }
  destruct (String.eqb_spec (IncomingMessage.Type_ msg0) MessageTypeMessage)
    as [Hm|Hm].
  { intros <-. left. now exists msg0. }
  intros <-. right.
  destruct (String.eqb (IncomingMessage.Type_ msg0) MessageTypeStatus).
  { unfold validateIncomingStatus.
    repeat match goal with
           | |- context [if ?b then _ else _] => destruct b
           end; try discriminate; exact Hm. }
  destruct (String.eqb (IncomingMessage.Type_ msg0) MessageTypeError).
  { unfold validateIncomingError.
    repeat match goal with
           | |- context [if ?b then _ else _] => destruct b
           end; try discriminate; exact Hm. }
  destruct (String.eqb (IncomingMessage.Type_ msg0) MessageTypePing
            || String.eqb (IncomingMessage.Type_ msg0) MessageTypePong).
  - exact Hm.
  - discriminate.
Qed.

(** C7. The content of a message frame that [ValidateIncoming] accepts has
    no byte below 0x20 other than tab, line feed and carriage return, and
    neither starts nor ends with white space (as Unicode defines it, which
    is what [strings.TrimSpace] removes). *)
Theorem accepted_content_is_clean
        (v : MessageValidator) (data : string) (msg : IncomingMessage) :
  ValidateIncoming v data = Ok msg ->
  IncomingMessage.Type_ msg = MessageTypeMessage ->
  Forall (fun b => 0x20 <= b \/ b = 0x09 \/ b = 0x0A \/ b = 0x0D)
         (bytes (IncomingMessage.Content msg))
  /\ no_surrounding_space (IncomingMessage.Content msg).
Proof.
  intros Hv Ht.
  assert (Hclean : no_control_bytes (IncomingMessage.Content msg)
                   /\ no_surrounding_space (IncomingMessage.Content msg)).
  { destruct (ValidateIncoming_inv v data _ Hv)
      as [(msg0 & _ & _ & Hok) | Hno]; [|contradiction].
    symmetry in Hok. apply validateIncomingMessage_ok in Hok.
    destruct (String.eqb_spec (IncomingMessage.Content msg0) "") as [Hc|Hc].
    - subst msg. rewrite Hc. split; [reflexivity|now left].
    - subst msg. apply sanitize_steps_clean. }
  destruct Hclean as [Hb Hs]. split; [|exact Hs].
  unfold no_control_bytes in Hb. rewrite forallb_forall in Hb.
  apply Forall_forall. intros b Hin. specialize (Hb b Hin).
  unfold plain_byte in Hb.
  destruct (Z.leb_spec 0x20 b); [now left|].
  destruct (Z.eqb_spec b 0x09); [now right; left|].
  destruct (Z.eqb_spec b 0x0A); [now right; right; left|].
  destruct (Z.eqb_spec b 0x0D); [now right; right; right|].
  discriminate.
Qed.

Lemma accepted_content_is_clean_witness :
  let v := NewMessageValidator "" in
  let data := frame "{'type':'message','from':'+1','content':'  A\u0001b\t '}" in
  let msg := IncomingMessage.mk "message" "" "+1" "" "Ab" [] "" "" "" 0 "" in
  ValidateIncoming v data = Ok msg
  /\ IncomingMessage.Type_ msg = MessageTypeMessage
  /\ Forall (fun b => 0x20 <= b \/ b = 0x09 \/ b = 0x0A \/ b = 0x0D)
            (bytes (IncomingMessage.Content msg))
  /\ no_surrounding_space (IncomingMessage.Content msg).
Proof.
  intros v data msg.
  assert (H1 : ValidateIncoming v data = Ok msg) by (vm_compute; reflexivity).
  assert (H2 : IncomingMessage.Type_ msg = MessageTypeMessage) by reflexivity.
  split; [exact H1|]. split; [exact H2|].
  exact (accepted_content_is_clean v data msg H1 H2).
Defined.

(** C3, as the code has it.  The length is checked on the content as it
    was received, before it is sanitized.  For a message frame whose
    sender is valid (1 to 50 bytes), [ValidateIncoming] fails with the
    content-too-long error exactly when the received content has more than
    4096 bytes; and no frame fails with that error unless it is a message
    frame with such a content.  Sanitizing does not lengthen a content
    that is valid UTF-8 (as every decoded JSON string is), so a frame with
    a valid sender whose sanitized content would have more than 4096 bytes
    is refused with that error. *)
Theorem content_length_gate
        (v : MessageValidator) (data : string) (msg0 : IncomingMessage) :
  Unmarshal_IncomingMessage data = Some msg0 ->
  IncomingMessage.Type_ msg0 = MessageTypeMessage ->
  1 <= len (IncomingMessage.From msg0) <= 50 ->
  (ValidateIncoming v data = Err (errContentValidation errContentTooLong)
   <-> MaxContentLength < len (IncomingMessage.Content msg0))
  /\ (utf8.ValidString (IncomingMessage.Content msg0) = true ->
      MaxContentLength < len (sanitize_steps (IncomingMessage.Content msg0)) ->
      ValidateIncoming v data = Err (errContentValidation errContentTooLong))
  /\ (forall data' : string,
         ValidateIncoming v data' = Err (errContentValidation errContentTooLong) ->
         exists msg1,
           Unmarshal_IncomingMessage data' = Some msg1
           /\ IncomingMessage.Type_ msg1 = MessageTypeMessage
           /\ MaxContentLength < len (IncomingMessage.Content msg1)).
Proof.
  intros Hu Ht Hfrom.
  assert (Hiff : ValidateIncoming v data
                 = Err (errContentValidation errContentTooLong)
                 <-> MaxContentLength < len (IncomingMessage.Content msg0)).
  { rewrite (ValidateIncoming_message v data msg0 Hu Ht).
    rewrite validateIncomingMessage_too_long. tauto. }
  split; [exact Hiff|]. split.
  - intros Hvalid Hlong. apply Hiff.
    pose proof (sanitize_steps_length _ Hvalid). lia.
  - intros data' Hd.
    destruct (ValidateIncoming_inv v data' _ Hd)
      as [(msg1 & Hu1 & Ht1 & Hr) | Hno]; [|contradiction].
    exists msg1. split; [exact Hu1|]. split; [exact Ht1|].
    symmetry in Hr. now apply validateIncomingMessage_too_long in Hr.
Qed.

Lemma content_length_gate_witness :
  let v := NewMessageValidator "" in
  let content := string_of_list_ascii (repeat "A"%char 4097) in
  let data :=
    String.append (frame "{'type':'message','from':'+1','content':'")
      (String.append content (frame "'}")) in
  let msg0 := IncomingMessage.mk "message" "" "+1" "" content [] "" "" "" 0 "" in
  Unmarshal_IncomingMessage data = Some msg0
  /\ 1 <= len (IncomingMessage.From msg0) <= 50
  /\ utf8.ValidString content = true
  /\ len (sanitize_steps content) = 4097
  /\ ValidateIncoming v data = Err (errContentValidation errContentTooLong).
Proof.
  intros v content data msg0.
  assert (Hu : Unmarshal_IncomingMessage data = Some msg0)
    by (vm_compute; reflexivity).
  assert (Hf : 1 <= len (IncomingMessage.From msg0) <= 50)
    by (vm_compute; split; discriminate).
  assert (Hv : utf8.ValidString content = true) by (vm_compute; reflexivity).
  assert (Hs : len (sanitize_steps content) = 4097) by (vm_compute; reflexivity).
  split; [exact Hu|]. split; [exact Hf|]. split; [exact Hv|].
  split; [exact Hs|].
  apply (proj1 (proj2 (content_length_gate v data msg0 Hu eq_refl Hf)) Hv).
  change (IncomingMessage.Content msg0) with content. rewrite Hs.
  reflexivity.
Defined.

(** C3, as the claim states it, fails: a message frame whose content
    sanitizes to one byte is refused for its length, because the content
    received, a letter and 4096 spaces, has 4097 bytes. *)
Lemma long_content_refused_before_sanitizing :
  let v := NewMessageValidator "" in
  let content := String "A" (spaces 4096) in
  let data :=
    String.append (frame "{'type':'message','from':'+1','content':'")
      (String.append content (frame "'}")) in
  Unmarshal_IncomingMessage data =
  Some (IncomingMessage.mk "message" "" "+1" "" content [] "" "" "" 0 "")
  /\ len content = 4097
  /\ sanitize_steps content = "A"
  /\ len (sanitize_steps content) <= MaxContentLength
  /\ ValidateIncoming v data = Err (errContentValidation errContentTooLong).
Proof. vm_compute. repeat split; try reflexivity; discriminate. Qed.

(** * Part V: further properties of the two files *)

(** ** Inbound frames *)

Lemma validateMedia_ok (v : MessageValidator) (media : list string) :
  validateMedia v media = None
  <-> Forall (fun p => validateMediaPath v p = None) media.
Proof.
  induction media as [|p media IH]; simpl.
  - split; [constructor|reflexivity].
  - destruct (validateMediaPath v p) as [e|] eqn:Hp.
    + split; [discriminate|]. intros H. inversion H. congruence.
    + rewrite IH. split; [now constructor|]. intros H. now inversion H.
Qed.

Lemma set_Content_same (msg : IncomingMessage) :
  IncomingMessage.set_Content msg (IncomingMessage.Content msg) = msg.
Proof. now destruct msg. Qed.

(** X1. An accepted frame is the decoded frame, of one of the five types,
    with nothing changed but the content of a message, which is sanitized. *)
Theorem accepted_frame_is_decoded_frame
        (v : MessageValidator) (data : string) (msg : IncomingMessage) :
  ValidateIncoming v data = Ok msg ->
  exists msg0,
    Unmarshal_IncomingMessage data = Some msg0
    /\ In (IncomingMessage.Type_ msg0)
          [MessageTypeMessage; MessageTypeStatus; MessageTypeError;
           MessageTypePing; MessageTypePong]
    /\ msg = (if String.eqb (IncomingMessage.Type_ msg0) MessageTypeMessage
              then cleaned msg0 else msg0).
Proof.
  unfold ValidateIncoming.
  destruct (Unmarshal_IncomingMessage data) as [msg0|]; [|discriminate].
  unfold validateMessageType.
  destruct (existsb _ _) eqn:Hty; [|discriminate].
  intros H. exists msg0. split; [reflexivity|]. split.
  { apply existsb_exists in Hty as (t & Hin & Heq).
    apply String.eqb_eq in Heq. now rewrite Heq. }
  destruct (String.eqb (IncomingMessage.Type_ msg0) MessageTypeMessage).
  { apply validateIncomingMessage_ok in H. exact H. }
  destruct (String.eqb (IncomingMessage.Type_ msg0) MessageTypeStatus).
  { unfold validateIncomingStatus in H.
    repeat match type of H with
           | context [if ?b then _ else _] => destruct b
           end; try discriminate. now injection H. }
  destruct (String.eqb (IncomingMessage.Type_ msg0) MessageTypeError).
  { unfold validateIncomingError in H.
    repeat match type of H with
           | context [if ?b then _ else _] => destruct b
           end; try discriminate. now injection H. }
  destruct (String.eqb (IncomingMessage.Type_ msg0) MessageTypePing
            || String.eqb (IncomingMessage.Type_ msg0) MessageTypePong);
    [|discriminate].
  now injection H.
Qed.

Lemma accepted_frame_is_decoded_frame_witness :
  let v := NewMessageValidator "" in
  let data := frame "{'type':'message','from':'+1','chat':'g1','content':' hi ','id':'m1'}" in
  let msg := IncomingMessage.mk "message" "m1" "+1" "g1" "hi" [] "" "" "" 0 "" in
  ValidateIncoming v data = Ok msg
  /\ exists msg0,
      Unmarshal_IncomingMessage data = Some msg0
      /\ In (IncomingMessage.Type_ msg0)
            [MessageTypeMessage; MessageTypeStatus; MessageTypeError;
             MessageTypePing; MessageTypePong]
      /\ msg = (if String.eqb (IncomingMessage.Type_ msg0) MessageTypeMessage
                then cleaned msg0 else msg0).
Proof.
  intros v data msg.
  assert (H : ValidateIncoming v data = Ok msg) by (vm_compute; reflexivity).
  split; [exact H|]. exact (accepted_frame_is_decoded_frame v data msg H).
Defined.

(** X2. The frames that are not messages are validated without the key:
    the outcome is the same under every validator, no signature is looked
    at, and the frame is accepted, unchanged, exactly when it is a status
    with an id and one of the four status values, an error with a text of
    at most 500 bytes, a ping or a pong. *)
Theorem other_kinds_are_not_verified
        (v v' : MessageValidator) (data : string) (msg0 : IncomingMessage) :
  Unmarshal_IncomingMessage data = Some msg0 ->
  IncomingMessage.Type_ msg0 <> MessageTypeMessage ->
  ValidateIncoming v data = ValidateIncoming v' data
  /\ (ValidateIncoming v data = Ok msg0
      <-> (IncomingMessage.Type_ msg0 = MessageTypeStatus
           /\ IncomingMessage.ID msg0 <> ""
           /\ In (IncomingMessage.Status msg0)
                 [StatusDelivered; StatusRead; StatusSent; StatusFailed])
          \/ (IncomingMessage.Type_ msg0 = MessageTypeError
              /\ IncomingMessage.Error msg0 <> ""
              /\ len (IncomingMessage.Error msg0) <= 500)
          \/ IncomingMessage.Type_ msg0 = MessageTypePing
          \/ IncomingMessage.Type_ msg0 = MessageTypePong).
Proof.
  intros Hu Hne. unfold ValidateIncoming. rewrite Hu.
  apply String.eqb_neq in Hne. unfold validateMessageType.
  cbn [existsb]. rewrite Hne. cbn [orb].
  destruct (String.eqb_spec (IncomingMessage.Type_ msg0) MessageTypeStatus)
    as [Hs|Hs].
  { cbn [orb]. split; [reflexivity|]. unfold validateIncomingStatus.
    destruct (String.eqb_spec (IncomingMessage.ID msg0) "") as [Hi|Hi].
    { split; [discriminate|]. intros [(_ & H & _)|[(H & _)|[H|H]]];
        try contradiction; rewrite Hs in H; discriminate. }
    destruct (String.eqb_spec (IncomingMessage.Status msg0) "") as [Hst|Hst].
    { split; [discriminate|]. intros [(_ & _ & H)|[(H & _)|[H|H]]];
        try (rewrite Hs in H; discriminate).
      rewrite Hst in H. simpl in H. intuition discriminate. }
    destruct (existsb _ _) eqn:Hex.
    - split; [|reflexivity]. intros _. left. split; [exact Hs|].
      split; [exact Hi|]. apply existsb_exists in Hex as (t & Hin & Heq).
      apply String.eqb_eq in Heq. now rewrite Heq.
    - split; [discriminate|]. intros [(_ & _ & H)|[(H & _)|[H|H]]];
        try (rewrite Hs in H; discriminate).
      assert (existsb (String.eqb (IncomingMessage.Status msg0))
                [StatusDelivered; StatusRead; StatusSent; StatusFailed] = true).
      { apply existsb_exists. exists (IncomingMessage.Status msg0).
        split; [exact H|apply String.eqb_refl]. }
      congruence. }
  destruct (String.eqb_spec (IncomingMessage.Type_ msg0) MessageTypeError)
    as [He|He].
  { cbn [orb]. split; [reflexivity|]. unfold validateIncomingError.
    destruct (String.eqb_spec (IncomingMessage.Error msg0) "") as [Hi|Hi].
    { split; [discriminate|]. intros [(H & _)|[(_ & H & _)|[H|H]]];
        try contradiction; rewrite He in H; discriminate. }
    destruct (Z.ltb_spec 500 (len (IncomingMessage.Error msg0))) as [Hl|Hl].
    - split; [discriminate|]. intros [(H & _)|[(_ & _ & H)|[H|H]]];
        try (rewrite He in H; discriminate). lia.
    - split; [|reflexivity]. intros _. right. left. repeat split; auto. }
  destruct (String.eqb_spec (IncomingMessage.Type_ msg0) MessageTypePing)
    as [Hp|Hp].
  { cbn [orb]. split; [reflexivity|]. unfold validateIncomingPingPong.
    split; [|reflexivity]. intros _. right. right. now left. }
  destruct (String.eqb_spec (IncomingMessage.Type_ msg0) MessageTypePong)
    as [Hq|Hq].
  { cbn [orb]. split; [reflexivity|]. unfold validateIncomingPingPong.
    split; [|reflexivity]. intros _. right. right. now right. }
  cbn [orb]. split; [reflexivity|]. split; [discriminate|].
  intros [(H & _)|[(H & _)|[H|H]]]; contradiction.
Qed.

Lemma other_kinds_are_not_verified_witness :
  let v := NewMessageValidator "secret" in
  let v' := NewMessageValidator "" in
  let data := frame "{'type':'status','id':'m1','status':'read','signature':'00'}" in
  let msg0 := IncomingMessage.mk "status" "m1" "" "" "" [] "" "read" "" 0 "00" in
  Unmarshal_IncomingMessage data = Some msg0
  /\ IncomingMessage.Type_ msg0 <> MessageTypeMessage
  /\ ValidateIncoming v data = ValidateIncoming v' data
  /\ ValidateIncoming v data = Ok msg0.
Proof.
  intros v v' data msg0.
  assert (Hu : Unmarshal_IncomingMessage data = Some msg0)
    by (vm_compute; reflexivity).
  assert (Hn : IncomingMessage.Type_ msg0 <> MessageTypeMessage)
    by discriminate.
  destruct (other_kinds_are_not_verified v v' data msg0 Hu Hn) as [H1 H2].
  split; [exact Hu|]. split; [exact Hn|]. split; [exact H1|].
  apply H2. left. split; [reflexivity|]. split; [discriminate|].
  simpl. tauto.
Defined.

(** What [validateIncomingMessage] accepts, and what it returns. *)
Lemma validateIncomingMessage_accepts
      (v : MessageValidator) (msg msg' : IncomingMessage) :
  validateIncomingMessage v msg = Ok msg'
  <-> 1 <= len (IncomingMessage.From msg) <= 50
      /\ (IncomingMessage.Content msg <> "" \/ IncomingMessage.Media msg <> [])
      /\ len (IncomingMessage.Content msg) <= MaxContentLength
      /\ Forall (fun p => validateMediaPath v p = None)
                (IncomingMessage.Media msg)
      /\ VerifySignature v (cleaned msg) = None
      /\ msg' = cleaned msg.
Proof.
  unfold validateIncomingMessage, cleaned.
  destruct (String.eqb_spec (IncomingMessage.From msg) "") as [Hf|Hf].
  { split; [discriminate|]. intros (H & _). rewrite Hf in H.
    unfold len in H. simpl in H. lia. }
  pose proof (validatePhoneNumber_ok v (IncomingMessage.From msg)) as Hp.
  destruct (validatePhoneNumber v (IncomingMessage.From msg)) as [e|].
  { split; [discriminate|]. intros (H & _). apply Hp in H. discriminate. }
  assert (Hfrom : 1 <= len (IncomingMessage.From msg) <= 50) by now apply Hp.
  destruct (String.eqb_spec (IncomingMessage.Content msg) "") as [Hc|Hc];
    simpl negb; cbv iota.
  - assert (Hshort : len (IncomingMessage.Content msg) <= MaxContentLength)
      by (rewrite Hc; unfold len, MaxContentLength; simpl; lia).
    destruct (IncomingMessage.Media msg) as [|p media] eqn:Hm.
    { simpl. split; [discriminate|]. intros (_ & [H|H] & _); contradiction. }
    cbn [List.length andb]. rewrite Nat2Z.inj_succ.
    destruct (Z.eqb_spec (Z.succ (Z.of_nat (List.length media))) 0); [lia|].
    pose proof (validateMedia_ok v (p :: media)) as Hmed.
    destruct (validateMedia v (p :: media)) as [e|].
    { split; [discriminate|]. intros (_ & _ & _ & H & _).
      apply Hmed in H. discriminate. }
    destruct (VerifySignature v msg) as [e|].
    + split; [discriminate|]. intros (_ & _ & _ & _ & H & _). discriminate.
    + split.
      * intros H. injection H as <-.
        split; [exact Hfrom|]. split; [right; discriminate|].
        split; [exact Hshort|]. split; [now apply Hmed|]. now split.
      * intros (_ & _ & _ & _ & _ & ->). reflexivity.
  - simpl andb. cbv iota. unfold sanitizeContent.
    destruct (Z.ltb_spec MaxContentLength (len (IncomingMessage.Content msg)))
      as [Hl|Hl].
    { split; [discriminate|]. intros (_ & _ & H' & _). lia. }
    change (IncomingMessage.Media
              (IncomingMessage.set_Content msg
                 (sanitize_steps (IncomingMessage.Content msg))))
      with (IncomingMessage.Media msg).
    pose proof (validateMedia_ok v (IncomingMessage.Media msg)) as Hmed.
    destruct (validateMedia v (IncomingMessage.Media msg)) as [e|].
    { split; [discriminate|]. intros (_ & _ & _ & H' & _).
      apply Hmed in H'. discriminate. }
    destruct (VerifySignature v _) as [e|].
    + split; [discriminate|]. intros (_ & _ & _ & _ & H' & _). discriminate.
    + split.
      * intros H'. injection H' as <-.
        split; [exact Hfrom|]. split; [now left|].
        split; [exact Hl|]. split; [now apply Hmed|]. now split.
      * intros (_ & _ & _ & _ & _ & ->). reflexivity.
Qed.


(** X3. A frame that decodes to a message is accepted exactly when its
    sender has 1 to 50 bytes, it has a content or a media path, its
    content, as received, has at most 4096 bytes, every media path passes,
    and the signature check passes on the message with its content
    already sanitized; that message is what is returned. *)
Theorem message_frame_gate
        (v : MessageValidator) (data : string) (msg msg' : IncomingMessage) :
  Unmarshal_IncomingMessage data = Some msg ->
  IncomingMessage.Type_ msg = MessageTypeMessage ->
  ValidateIncoming v data = Ok msg'
  <-> 1 <= len (IncomingMessage.From msg) <= 50
      /\ (IncomingMessage.Content msg <> "" \/ IncomingMessage.Media msg <> [])
      /\ len (IncomingMessage.Content msg) <= MaxContentLength
      /\ Forall (fun p => validateMediaPath v p = None)
                (IncomingMessage.Media msg)
      /\ VerifySignature v (cleaned msg) = None
      /\ msg' = cleaned msg.
Proof.
  intros Hu Ht. rewrite (ValidateIncoming_message v data msg Hu Ht).
  apply validateIncomingMessage_accepts.
Qed.

Lemma message_frame_gate_witness :
  let v := NewMessageValidator "" in
  let data := frame "{'type':'message','from':'+1','media':['a.png']}" in
  let msg := IncomingMessage.mk "message" "" "+1" "" "" ["a.png"] "" "" "" 0 "" in
  Unmarshal_IncomingMessage data = Some msg
  /\ IncomingMessage.Type_ msg = MessageTypeMessage
  /\ ValidateIncoming v data = Ok msg.
Proof.
  intros v data msg.
  assert (Hu : Unmarshal_IncomingMessage data = Some msg)
    by (vm_compute; reflexivity).
  assert (Ht : IncomingMessage.Type_ msg = MessageTypeMessage) by reflexivity.
  split; [exact Hu|]. split; [exact Ht|].
  apply (message_frame_gate v data msg msg Hu Ht).
  split; [vm_compute; split; discriminate|].
  split; [right; discriminate|].
  split; [vm_compute; discriminate|].
  split; [repeat constructor|]. split; reflexivity.
Defined.

(** X4. With a key configured, a message without a signature that passes
    every other check is refused for its missing signature. *)
Theorem unsigned_message_refused
        (v : MessageValidator) (msg : IncomingMessage) :
  hmacKey v <> "" ->
  1 <= len (IncomingMessage.From msg) <= 50 ->
  IncomingMessage.Content msg <> "" \/ IncomingMessage.Media msg <> [] ->
  len (IncomingMessage.Content msg) <= MaxContentLength ->
  Forall (fun p => validateMediaPath v p = None) (IncomingMessage.Media msg) ->
  IncomingMessage.Signature msg = "" ->
  validateIncomingMessage v msg
  = Err (errSignatureVerification errMissingSignature).
Proof.
  intros Hk Hfrom Hcm Hlen Hmed Hsig. unfold validateIncomingMessage.
  destruct (String.eqb_spec (IncomingMessage.From msg) "") as [Hf|Hf].
  { rewrite Hf in Hfrom. unfold len in Hfrom. simpl in Hfrom. lia. }
  apply (validatePhoneNumber_ok v) in Hfrom. rewrite Hfrom.
  apply validateMedia_ok in Hmed.
  destruct (String.eqb_spec (IncomingMessage.Content msg) "") as [Hc|Hc];
    simpl negb; cbv iota.
  - destruct Hcm as [Hcm|Hcm]; [contradiction|].
    destruct (IncomingMessage.Media msg) as [|p media] eqn:Hm;
      [contradiction|].
    cbn [List.length andb]. rewrite Nat2Z.inj_succ.
    destruct (Z.eqb_spec (Z.succ (Z.of_nat (List.length media))) 0); [lia|].
    rewrite Hmed, VerifySignature_with_key, Hsig by exact Hk. reflexivity.
  - simpl andb. cbv iota. unfold sanitizeContent.
    destruct (Z.ltb_spec MaxContentLength (len (IncomingMessage.Content msg)));
      [lia|].
    change (IncomingMessage.Media
              (IncomingMessage.set_Content msg
                 (sanitize_steps (IncomingMessage.Content msg))))
      with (IncomingMessage.Media msg).
    rewrite Hmed, VerifySignature_with_key by exact Hk.
    change (IncomingMessage.Signature
              (IncomingMessage.set_Content msg
                 (sanitize_steps (IncomingMessage.Content msg))))
      with (IncomingMessage.Signature msg).
    rewrite Hsig. reflexivity.
Qed.

Lemma unsigned_message_refused_witness :
  let v := NewMessageValidator "secret" in
  let msg := IncomingMessage.mk "message" "" "+1" "" "hello" ["a.png"] "" "" "" 0 "" in
  hmacKey v <> ""
  /\ 1 <= len (IncomingMessage.From msg) <= 50
  /\ len (IncomingMessage.Content msg) <= MaxContentLength
  /\ Forall (fun p => validateMediaPath v p = None) (IncomingMessage.Media msg)
  /\ validateIncomingMessage v msg
     = Err (errSignatureVerification errMissingSignature).
Proof.
  intros v msg.
  assert (H1 : hmacKey v <> "") by discriminate.
  assert (H2 : 1 <= len (IncomingMessage.From msg) <= 50)
    by (vm_compute; split; discriminate).
  assert (H3 : len (IncomingMessage.Content msg) <= MaxContentLength)
    by (vm_compute; discriminate).
  assert (H4 : Forall (fun p => validateMediaPath v p = None)
                      (IncomingMessage.Media msg))
    by (repeat constructor).
  assert (H5 : IncomingMessage.Content msg <> ""
               \/ IncomingMessage.Media msg <> [])
    by (left; discriminate).
  assert (H6 : IncomingMessage.Signature msg = "") by reflexivity.
  split; [exact H1|]. split; [exact H2|]. split; [exact H3|].
  split; [exact H4|].
  exact (unsigned_message_refused v msg H1 H2 H5 H3 H4 H6).
Defined.

(** ** Outbound messages *)

(** X5. [ValidateOutgoing] accepts a message exactly when its type is
    "message", its recipient has 1 to 50 bytes, its content has at most
    4096 bytes and every media path passes; the key plays no part, and
    signing never fails. *)
Theorem outgoing_gate (v : MessageValidator) (now : Z) (msg : OutgoingMessage) :
  snd (ValidateOutgoing v now msg) = None
  <-> OutgoingMessage.Type_ msg = MessageTypeMessage
      /\ 1 <= len (OutgoingMessage.To msg) <= 50
      /\ len (OutgoingMessage.Content msg) <= MaxContentLength
      /\ Forall (fun p => validateMediaPath v p = None)
                (OutgoingMessage.Media msg).
Proof.
  unfold ValidateOutgoing.
  destruct (String.eqb_spec (OutgoingMessage.Type_ msg) MessageTypeMessage)
    as [Ht|Ht]; cbn [negb].
  2:{ split; [discriminate|]. now intros (H & _). }
  pose proof (validatePhoneNumber_ok v (OutgoingMessage.To msg)) as Hp.
  destruct (validatePhoneNumber v (OutgoingMessage.To msg)) as [e|].
  { split; [discriminate|]. intros (_ & H & _). apply Hp in H. discriminate. }
  assert (Hto : 1 <= len (OutgoingMessage.To msg) <= 50) by now apply Hp.
  unfold sanitizeContent.
  destruct (Z.ltb_spec MaxContentLength (len (OutgoingMessage.Content msg)))
    as [Hl|Hl].
  { split; [discriminate|]. intros (_ & _ & H & _). lia. }
  change (OutgoingMessage.Media
            (OutgoingMessage.set_Content msg
               (sanitize_steps (OutgoingMessage.Content msg))))
    with (OutgoingMessage.Media msg).
  pose proof (validateMedia_ok v (OutgoingMessage.Media msg)) as Hmed.
  destruct (validateMedia v (OutgoingMessage.Media msg)) as [e|].
  { split; [discriminate|]. intros (_ & _ & _ & H). apply Hmed in H.
    discriminate. }
  match goal with
  | |- context [signMessage v ?m] =>
      pose proof (signMessage_no_error v m) as Hs;
        destruct (signMessage v m) as [m' [e|]]
  end; [discriminate|].
  split; [|reflexivity]. intros _.
  split; [exact Ht|]. split; [exact Hto|]. split; [exact Hl|]. now apply Hmed.
Qed.

(** X6. A message that [ValidateOutgoing] accepts comes back with its
    content sanitized: no byte below 0x20 but tab, line feed and carriage
    return, no white space around it, and, when the content given was
    valid UTF-8, not longer than it was, so at most 4096 bytes.  A
    timestamp that was set is kept, one that was zero becomes the current
    time; type, recipient and media are as they were. *)
Theorem sent_message_is_clean
        (v : MessageValidator) (now : Z) (msg : OutgoingMessage) :
  snd (ValidateOutgoing v now msg) = None ->
  let m := fst (ValidateOutgoing v now msg) in
  OutgoingMessage.Content m = sanitize_steps (OutgoingMessage.Content msg)
  /\ no_control_bytes (OutgoingMessage.Content m)
  /\ no_surrounding_space (OutgoingMessage.Content m)
  /\ (utf8.ValidString (OutgoingMessage.Content msg) = true ->
      len (OutgoingMessage.Content m) <= len (OutgoingMessage.Content msg)
      /\ len (OutgoingMessage.Content m) <= MaxContentLength)
  /\ OutgoingMessage.Timestamp m =
     (if OutgoingMessage.Timestamp msg =? 0 then now
      else OutgoingMessage.Timestamp msg)
  /\ OutgoingMessage.Type_ m = OutgoingMessage.Type_ msg
  /\ OutgoingMessage.To m = OutgoingMessage.To msg
  /\ OutgoingMessage.Media m = OutgoingMessage.Media msg.
Proof.
  unfold ValidateOutgoing.
  destruct (negb (String.eqb (OutgoingMessage.Type_ msg) MessageTypeMessage));
    [discriminate|].
  destruct (validatePhoneNumber v (OutgoingMessage.To msg)); [discriminate|].
  unfold sanitizeContent.
  destruct (Z.ltb_spec MaxContentLength (len (OutgoingMessage.Content msg)))
    as [Hlen|Hlen]; [discriminate|].
  destruct (validateMedia v _); [discriminate|].
  match goal with
  | |- context [signMessage v ?m] =>
      pose proof (signMessage_keeps v m) as Hk;
        pose proof (signMessage_no_error v m) as Hs;
        destruct (signMessage v m) as [m' [e|]]
  end; [discriminate|].
  intros _. cbv zeta in Hk. cbn [fst] in Hk |- *.
  destruct Hk as (Hty & Hto & Hc & Hm & Hts).
  assert (Hc' : OutgoingMessage.Content m'
                = sanitize_steps (OutgoingMessage.Content msg)).
  { rewrite Hc. now destruct (OutgoingMessage.Timestamp _ =? 0). }
  split; [exact Hc'|]. rewrite Hc'.
  split; [apply sanitize_steps_clean|].
  split; [apply sanitize_steps_clean|].
  split.
  { intros Hv. pose proof (sanitize_steps_length _ Hv). split; lia. }
  split.
  { rewrite Hts. change (OutgoingMessage.Timestamp
                           (OutgoingMessage.set_Content msg
                              (sanitize_steps (OutgoingMessage.Content msg))))
      with (OutgoingMessage.Timestamp msg).
    now destruct (OutgoingMessage.Timestamp msg =? 0). }
  rewrite Hty, Hto, Hm.
  now destruct (OutgoingMessage.Timestamp _ =? 0).
Qed.

Lemma sent_message_is_clean_witness :
  let v := NewMessageValidator "secret" in
  let msg := OutgoingMessage.mk "message" "+1" (String "001"%char "  hi ")
                                ["a.png"] 0 "" in
  snd (ValidateOutgoing v 7 msg) = None
  /\ OutgoingMessage.Content (fst (ValidateOutgoing v 7 msg)) = "hi"
  /\ OutgoingMessage.Timestamp (fst (ValidateOutgoing v 7 msg)) = 7.
Proof.
  intros v msg.
  assert (H : snd (ValidateOutgoing v 7 msg) = None)
    by (vm_compute; reflexivity).
  destruct (sent_message_is_clean v 7 msg H) as (Hc & _ & _ & _ & Ht & _).
  split; [exact H|]. split.
  - rewrite Hc. vm_compute. reflexivity.
  - rewrite Ht. reflexivity.
Defined.

(** X7. [ValidateOutgoing] never changes the type, the recipient or the
    media of a message.  When it refuses a message, the timestamp and the
    signature are as they were too, and the content has been changed only
    if the refusal is for a media path: the message is then left with its
    content sanitized. *)
Theorem refused_outgoing_message
        (v : MessageValidator) (now : Z) (msg : OutgoingMessage) :
  let m := fst (ValidateOutgoing v now msg) in
  let err := snd (ValidateOutgoing v now msg) in
  OutgoingMessage.Type_ m = OutgoingMessage.Type_ msg
  /\ OutgoingMessage.To m = OutgoingMessage.To msg
  /\ OutgoingMessage.Media m = OutgoingMessage.Media msg
  /\ (err <> None ->
      OutgoingMessage.Timestamp m = OutgoingMessage.Timestamp msg
      /\ OutgoingMessage.Signature m = OutgoingMessage.Signature msg
      /\ ((exists e, err = Some (errInvalidMediaPath e))
          /\ OutgoingMessage.Content m
             = sanitize_steps (OutgoingMessage.Content msg)
          \/ (forall e, err <> Some (errInvalidMediaPath e))
             /\ OutgoingMessage.Content m = OutgoingMessage.Content msg)).
Proof.
  unfold ValidateOutgoing.
  destruct (negb (String.eqb (OutgoingMessage.Type_ msg) MessageTypeMessage)).
  { cbn. repeat split; auto. right. split; [discriminate|reflexivity]. }
  destruct (validatePhoneNumber v (OutgoingMessage.To msg)).
  { cbn. repeat split; auto. right. split; [discriminate|reflexivity]. }
  unfold sanitizeContent.
  destruct (MaxContentLength <? len (OutgoingMessage.Content msg)).
  { cbn. repeat split; auto. right. split; [discriminate|reflexivity]. }
  destruct (validateMedia v _) as [e|] eqn:Hmed.
  { apply validateMedia_error in Hmed as (e' & ->).
    cbn. repeat split; auto. left. split; [now exists e'|reflexivity]. }
  match goal with
  | |- context [signMessage v ?m] =>
      pose proof (signMessage_keeps v m) as Hk;
        pose proof (signMessage_no_error v m) as Hs;
        destruct (signMessage v m) as [m' [e|]]
  end; [discriminate|].
  cbv zeta in Hk. cbn [fst snd] in Hk |- *.
  destruct Hk as (Hty & Hto & _ & Hm & _).
  rewrite Hty, Hto, Hm.
  destruct (OutgoingMessage.Timestamp _ =? 0); cbn;
    (split; [reflexivity|]); (split; [reflexivity|]);
    (split; [reflexivity|]); intros H; contradiction.
Qed.

Lemma refused_outgoing_message_witness :
  let v := NewMessageValidator "" in
  let msg := OutgoingMessage.mk "message" "+1" " hi " ["x.exe"] 0 "" in
  snd (ValidateOutgoing v 7 msg) <> None
  /\ OutgoingMessage.Content (fst (ValidateOutgoing v 7 msg)) = "hi"
  /\ OutgoingMessage.Timestamp (fst (ValidateOutgoing v 7 msg)) = 0.
Proof.
  intros v msg.
  assert (Hn : snd (ValidateOutgoing v 7 msg) <> None)
    by (vm_compute; discriminate).
  pose proof (refused_outgoing_message v 7 msg) as H. cbv zeta in H.
  destruct H as (_ & _ & _ & H).
  destruct (H Hn) as (Ht & _ & [(_ & Hc)|(Hf & _)]).
  - split; [exact Hn|]. split; [rewrite Hc|rewrite Ht]; reflexivity.
  - exfalso. apply (Hf errExtension). vm_compute. reflexivity.
Defined.

(** X8. Under a key, the signature that a message carries when it is
    handed to [ValidateOutgoing] has no effect on the message sent:
    it is replaced, and it is not part of what is signed.  Without a key
    no signature is computed, and the one given is sent as it is. *)
Theorem given_signature_is_not_signed
        (v : MessageValidator) (now : Z) (msg : OutgoingMessage) (s : string) :
  snd (ValidateOutgoing v now msg) = None ->
  ValidateOutgoing v now (OutgoingMessage.set_Signature msg s)
  = (if String.eqb (hmacKey v) ""
     then OutgoingMessage.set_Signature (fst (ValidateOutgoing v now msg)) s
     else fst (ValidateOutgoing v now msg),
     None).
Proof.
  unfold ValidateOutgoing.
  change (OutgoingMessage.Type_ (OutgoingMessage.set_Signature msg s))
    with (OutgoingMessage.Type_ msg).
  change (OutgoingMessage.To (OutgoingMessage.set_Signature msg s))
    with (OutgoingMessage.To msg).
  change (OutgoingMessage.Content (OutgoingMessage.set_Signature msg s))
    with (OutgoingMessage.Content msg).
  destruct (negb (String.eqb (OutgoingMessage.Type_ msg) MessageTypeMessage));
    [discriminate|].
  destruct (validatePhoneNumber v (OutgoingMessage.To msg)); [discriminate|].
  unfold sanitizeContent.
  destruct (MaxContentLength <? len (OutgoingMessage.Content msg));
    [discriminate|].
  change (OutgoingMessage.Media
            (OutgoingMessage.set_Content (OutgoingMessage.set_Signature msg s)
               (sanitize_steps (OutgoingMessage.Content msg))))
    with (OutgoingMessage.Media
            (OutgoingMessage.set_Content msg
               (sanitize_steps (OutgoingMessage.Content msg)))).
  destruct (validateMedia v _); [discriminate|]. intros _.
  unfold signMessage.
  destruct (String.eqb_spec (hmacKey v) "") as [Hk|Hk].
  - rewrite Hk. cbn [len String.length Z.of_nat Z.eqb fst].
    destruct msg as [ty to content media ts sg]; cbn.
    now destruct (ts =? 0).
  - destruct (Z.eqb_spec (len (hmacKey v)) 0) as [H0|_].
    { apply len_zero in H0. contradiction. }
    cbv zeta. cbn [fst].
    match goal with
    | |- (OutgoingMessage.set_Signature ?a _, _)
         = (OutgoingMessage.set_Signature ?b _, _) =>
        assert (Hsame : a = b)
    end.
    { destruct msg as [ty to content media ts sg].
      cbn [OutgoingMessage.set_Signature OutgoingMessage.set_Content
           OutgoingMessage.set_Timestamp OutgoingMessage.Type_
           OutgoingMessage.To OutgoingMessage.Content OutgoingMessage.Media
           OutgoingMessage.Timestamp OutgoingMessage.Signature].
      now destruct (ts =? 0). }
    now rewrite Hsame.
Qed.

Lemma given_signature_is_not_signed_witness :
  let v := NewMessageValidator "" in
  let msg := OutgoingMessage.mk "message" "+1" "hi" [] 5 "" in
  snd (ValidateOutgoing v 7 msg) = None
  /\ ValidateOutgoing v 7 (OutgoingMessage.set_Signature msg "forged")
     = (OutgoingMessage.mk "message" "+1" "hi" [] 5 "forged", None).
Proof.
  intros v msg.
  assert (H : snd (ValidateOutgoing v 7 msg) = None)
    by (vm_compute; reflexivity).
  split; [exact H|].
  rewrite (given_signature_is_not_signed v 7 msg "forged" H).
  vm_compute. reflexivity.
Defined.

(** ** The retry policy *)

Lemma wrap64_small (z : Z) : - 2 ^ 63 <= z < 2 ^ 63 -> wrap64 z = z.
Proof. intros H. unfold wrap64. rewrite Z.mod_small; lia. Qed.

Lemma NextDelay_step (r : ConnectionRetry) :
  retry_wf r ->
  attempts r < maxAttempts r ->
  NextDelay r =
  (currentDelay r,
   {| attempts := attempts r + 1;
      maxAttempts := maxAttempts r;
      initialDelay := initialDelay r;
      maxDelay := maxDelay r;
      currentDelay := Z.min (2 * currentDelay r) (maxDelay r) |}).
Proof.
  intros (Ha & Hm & Hc & Hi & Hd) Hlt. unfold NextDelay.
  destruct (Z.leb_spec (maxAttempts r) (attempts r)); [lia|].
  assert (2 ^ 62 * 2 = 2 ^ 63) by reflexivity.
  rewrite !wrap64_small by lia.
  destruct (Z.ltb_spec (maxDelay r) (currentDelay r * 2)); f_equal; f_equal; lia.
Qed.

(** X9. One call of [NextDelay] on a policy in range: with attempts left
    it counts one attempt, returns the current delay, which is positive
    and at most the cap, and doubles it up to the cap; with none left it
    returns 0 and changes nothing.  So the delay is 0 exactly when
    [ShouldRetry] said no, and the policy stays in range. *)
Theorem NextDelay_backoff (r : ConnectionRetry) :
  retry_wf r ->
  let d := fst (NextDelay r) in
  let r' := snd (NextDelay r) in
  retry_wf r'
  /\ maxAttempts r' = maxAttempts r
  /\ initialDelay r' = initialDelay r
  /\ maxDelay r' = maxDelay r
  /\ 0 <= d <= maxDelay r
  /\ (d = 0 <-> ShouldRetry r = false)
  /\ (ShouldRetry r = true ->
      d = currentDelay r
      /\ attempts r' = attempts r + 1
      /\ currentDelay r' = Z.min (2 * currentDelay r) (maxDelay r))
  /\ (ShouldRetry r = false -> r' = r).
Proof.
  intros Hwf. pose proof Hwf as (Ha & Hm & Hc & Hi & Hd).
  unfold ShouldRetry.
  destruct (Z.ltb_spec (attempts r) (maxAttempts r)) as [Hlt|Hge].
  - rewrite (NextDelay_step r Hwf Hlt). cbn [fst snd].
    unfold retry_wf. cbn [attempts maxAttempts initialDelay maxDelay currentDelay].
    repeat split; try lia; try discriminate.
  - unfold NextDelay.
    destruct (Z.leb_spec (maxAttempts r) (attempts r)); [|lia].
    cbn [fst snd]. repeat split; try lia; try discriminate; try exact Hwf;
      try reflexivity.
Qed.

Lemma NextDelay_backoff_witness :
  retry_wf NewConnectionRetry
  /\ fst (NextDelay NewConnectionRetry) = 1000000000
  /\ currentDelay (snd (NextDelay NewConnectionRetry)) = 2000000000.
Proof.
  assert (Hwf : retry_wf NewConnectionRetry)
    by (vm_compute; repeat split; discriminate).
  destruct (NextDelay_backoff NewConnectionRetry Hwf)
    as (_ & _ & _ & _ & _ & _ & H & _).
  destruct (H eq_refl) as (Hd & _ & Hc).
  split; [exact Hwf|]. split; [rewrite Hd|rewrite Hc]; reflexivity.
Defined.

Lemma schedule_succ (r r1 : ConnectionRetry) (n : nat) :
  0 < currentDelay r <= maxDelay r ->
  maxDelay r1 = maxDelay r ->
  currentDelay r1 = Z.min (2 * currentDelay r) (maxDelay r) ->
  currentDelay r :: schedule r1 n = schedule r (S n).
Proof.
  intros Hc Hm Hc1. unfold schedule. cbn [seq map].
  rewrite <- seq_shift, map_map. f_equal.
  - change (2 ^ Z.of_nat 0) with 1. lia.
  - apply map_ext. intros k. rewrite Hm, Hc1, Nat2Z.inj_succ, Z.pow_succ_r by lia.
    assert (1 <= 2 ^ Z.of_nat k) by (apply (Z.pow_le_mono_r 2 0); lia).
    destruct (Z.le_gt_cases (2 * currentDelay r) (maxDelay r)).
    + rewrite (Z.min_l (2 * currentDelay r)) by lia. f_equal. lia.
    + rewrite (Z.min_r (2 * currentDelay r)) by lia.
      rewrite !Z.min_r; nia.
Qed.

(** X10. [n] calls of [NextDelay] on a policy in range, with [k] attempts
    left: the first [min n k] calls return the current delay doubled each
    time up to the cap, all the later ones return 0; the policy has then
    counted [min n k] more attempts and is still in range. *)
Theorem backoff_schedule (n : nat) (r : ConnectionRetry) :
  retry_wf r ->
  let k := attempts_left r in
  fst (NextDelays n r) = schedule r (Nat.min n k) ++ repeat 0 (n - k)
  /\ attempts (snd (NextDelays n r)) = attempts r + Z.of_nat (Nat.min n k)
  /\ retry_wf (snd (NextDelays n r)).
Proof.
  revert r. induction n as [|n IH]; intros r Hwf k.
  - cbn. repeat split; try exact Hwf; try apply Hwf. lia.
  - pose proof Hwf as (Ha & Hm & Hc & Hi & Hd).
    destruct (Z.le_gt_cases (maxAttempts r) (attempts r)) as [Hge|Hlt].
    + rewrite NextDelays_exhausted by exact Hge.
      assert (k = 0%nat) as -> by (unfold k, attempts_left; lia).
      rewrite Nat.min_0_r, Nat.sub_0_r. cbn [fst snd schedule seq map app].
      split; [reflexivity|]. split; [lia|exact Hwf].
    + cbn [NextDelays]. rewrite (NextDelay_step r Hwf) by lia.
      set (r1 := {| attempts := attempts r + 1;
                    maxAttempts := maxAttempts r;
                    initialDelay := initialDelay r;
                    maxDelay := maxDelay r;
                    currentDelay := Z.min (2 * currentDelay r) (maxDelay r) |}).
      assert (Hwf1 : retry_wf r1).
      { unfold retry_wf, r1.
        cbn [attempts maxAttempts initialDelay maxDelay currentDelay].
        repeat split; lia. }
      destruct (IH r1 Hwf1) as (Hds & Hat & Hw).
      assert (Hk : k = S (attempts_left r1)).
      { unfold k, attempts_left, r1. cbn [attempts maxAttempts]. lia. }
      destruct (NextDelays n r1) as [ds r2]. cbn [fst snd] in *.
      rewrite Hk. cbn [Nat.min Nat.sub].
      split; [|split; [|exact Hw]].
      * rewrite Hds. rewrite <- (schedule_succ r r1); [reflexivity|lia|..];
          reflexivity.
      * rewrite Hat. unfold r1 at 1. cbn [attempts]. lia.
Qed.

Lemma backoff_schedule_witness :
  let r := {| attempts := 1; maxAttempts := 4; initialDelay := 2;
              maxDelay := 10; currentDelay := 3 |} in
  retry_wf r
  /\ fst (NextDelays 5 r) = [3; 6; 10; 0; 0]
  /\ attempts (snd (NextDelays 5 r)) = 4.
Proof.
  intros r.
  assert (Hwf : retry_wf r) by (vm_compute; repeat split; discriminate).
  destruct (backoff_schedule 5 r Hwf) as (Hd & Ha & _).
  split; [exact Hwf|]. split; [rewrite Hd|rewrite Ha]; reflexivity.
Defined.

Lemma NextDelay_keeps_bounds (r : ConnectionRetry) :
  maxAttempts (snd (NextDelay r)) = maxAttempts r
  /\ initialDelay (snd (NextDelay r)) = initialDelay r
  /\ maxDelay (snd (NextDelay r)) = maxDelay r.
Proof.
  unfold NextDelay. now destruct (maxAttempts r <=? attempts r).
Qed.

Lemma Reset_NextDelays (n : nat) (r : ConnectionRetry) :
  Reset (snd (NextDelays n r)) = Reset r.
Proof.
  revert r. induction n as [|n IH]; intros r; [reflexivity|].
  cbn [NextDelays]. destruct (NextDelay r) as [d r1] eqn:Hd.
  specialize (IH r1). destruct (NextDelays n r1) as [ds r2].
  cbn [snd] in *. rewrite IH.
  pose proof (NextDelay_keeps_bounds r) as (H1 & H2 & H3).
  rewrite Hd in H1, H2, H3. cbn [snd] in H1, H2, H3.
  unfold Reset. now rewrite H1, H2, H3.
Qed.

(** X11. [Reset] undoes any number of calls of [NextDelay]: the policy is
    the one that [Reset] gives on the policy before the calls, with no
    attempt counted and the initial delay as current delay, so that, when
    the policy allows an attempt at all, the next call of [NextDelay]
    returns the initial delay; for the default policy it is the policy as
    it was built. *)
Theorem Reset_undoes_attempts (n : nat) (r : ConnectionRetry) :
  Reset (snd (NextDelays n r)) = Reset r
  /\ Reset (snd (NextDelays n NewConnectionRetry)) = NewConnectionRetry
  /\ (0 < maxAttempts r -> ShouldRetry (Reset (snd (NextDelays n r))) = true)
  /\ (0 < maxAttempts r ->
      fst (NextDelay (Reset (snd (NextDelays n r)))) = initialDelay r).
Proof.
  rewrite !Reset_NextDelays. split; [reflexivity|]. split; [reflexivity|].
  split; intros Hpos.
  - unfold ShouldRetry, Reset. cbn [attempts maxAttempts].
    now apply Z.ltb_lt.
  - unfold NextDelay, Reset. cbn [attempts maxAttempts currentDelay].
    destruct (Z.leb_spec (maxAttempts r) 0); [lia|reflexivity].
Qed.

Lemma Reset_undoes_attempts_witness :
  0 < maxAttempts NewConnectionRetry
  /\ Reset (snd (NextDelays 7 NewConnectionRetry)) = NewConnectionRetry
  /\ fst (NextDelay (Reset (snd (NextDelays 7 NewConnectionRetry))))
     = InitialReconnectDelay.
Proof.
  assert (Hpos : 0 < maxAttempts NewConnectionRetry) by reflexivity.
  destruct (Reset_undoes_attempts 7 NewConnectionRetry) as (_ & H1 & _ & H2).
  split; [exact Hpos|]. split; [exact H1|]. exact (H2 Hpos).
Defined.

(** ** The channel *)

Lemma connect_cases (c : WhatsAppChannel) (now : Z) (dial : dialOutcome) :
  (exists e evs, connect c now dial = (c, Some e, evs))
  \/ (exists cn sn st evs,
         dial = dial_ok cn sn st
         /\ validateBridgeResponse c now sn st = None
         /\ connect c now dial = (set_conn c (Some cn) true false, None, evs)).
Proof.
  unfold connect.
  destruct (url.Parse (url_ c)) as [u|]; [|left; eauto].
  destruct (negb (String.eqb (url.Scheme u) "wss")
            && negb (String.eqb (url.Scheme u) "ws")); [left; eauto|].
  destruct dial as [status|cn sn st]; [left; eauto|].
  destruct (validateBridgeResponse c now sn st) eqn:Hv; [left; eauto|].
  right. exists cn, sn, st. eexists. repeat split. exact Hv.
Qed.

Lemma set_conn_same (c : WhatsAppChannel) :
  set_conn c (conn c) (connected c) (connecting c) = c.
Proof. now destruct c. Qed.

Lemma default_policy_next (n : nat) :
  snd (NextDelay (snd (NextDelays n NewConnectionRetry)))
  = snd (NextDelays (n + 1) NewConnectionRetry).
Proof. now rewrite NextDelays_succ. Qed.

(** The state after [attemptReconnection]. *)
Lemma attemptReconnection_state
      (c : WhatsAppChannel) (now : Z) (dial : dialOutcome) :
  let c' := fst (attemptReconnection c now dial) in
  c' = c
  \/ c' = set_retryManager c (snd (NextDelay (retryManager c)))
  \/ exists cn,
      c' = set_retryManager
             (set_conn (set_retryManager c (snd (NextDelay (retryManager c))))
                (Some cn) true false)
             (Reset (snd (NextDelay (retryManager c)))).
Proof.
  unfold attemptReconnection.
  destruct (negb (ShouldRetry (retryManager c))); [now left|].
  destruct (NextDelay (retryManager c)) as [delay r]. cbn [snd].
  destruct (connect_cases (set_retryManager c r) now dial)
    as [(e & evs & ->)|(cn & sn & st & evs & _ & _ & ->)].
  - right. now left.
  - right. right. now exists cn.
Qed.

(** The state after [Start] on a channel that is not connecting. *)
Lemma Start_state (c : WhatsAppChannel) (now : Z) (dial : dialOutcome) :
  connecting c = false ->
  let c' := fst (fst (Start c now dial)) in
  c' = c
  \/ exists cn,
      c' = set_retryManager
             (setRunning (set_conn c (Some cn) true false) true)
             (Reset (retryManager c)).
Proof.
  intros Hc. unfold Start. rewrite Hc.
  destruct (connect_cases (set_conn c (conn c) (connected c) true) now dial)
    as [(e & evs & ->)|(cn & sn & st & evs & _ & _ & ->)].
  - left. cbn [fst]. destruct c; cbn in *. now subst.
  - right. exists cn. reflexivity.
Qed.

Lemma Send_state (c : WhatsAppChannel) (now : Z) (chatID content : string)
      (deadline_set written : bool) :
  let c' := fst (fst (Send c now chatID content deadline_set written)) in
  c' = c \/ c' = set_conn c None false (connecting c).
Proof.
  unfold Send. destruct (connected c); [|now left].
  destruct (conn c) as [cn|]; [|now left].
  destruct (ValidateOutgoing _ _ _) as [m [e|]]; [now left|].
  destruct deadline_set; [|now left].
  destruct written; [now left|]. now right.
Qed.

Lemma listen_round_state (c : WhatsAppChannel) (now : Z) (r : readOutcome) :
  let c' := fst (listen_round c now r) in
  c' = c \/ c' = set_conn c None false (connecting c).
Proof.
  unfold listen_round. destruct (connected c); [|now left].
  destruct (conn c) as [cn|]; [|now left].
  destruct r as [|[] data]; try (now left); [now right|].
  destruct (ValidateIncoming (validator c) data) as [msg|e]; [|now left].
  cbv zeta.
  repeat match goal with
         | |- context [if ?b then _ else _] => destruct b
         end; now left.
Qed.

Lemma read_controls_state
      (c : WhatsAppChannel) (cn : Conn) (frames : list (Z * controlFrame)) :
  fst (read_controls c cn frames)
  = set_lastPing c (last_pong frames (lastPing c)).
Proof.
  revert c. induction frames as [|[t f] rest IH]; intros c.
  - cbn. now destruct c.
  - cbn [read_controls handle_control]. destruct f as [appData|appData].
    + specialize (IH c). destruct (read_controls c cn rest) as [c2 evs2].
      exact IH.
    + unfold pongHandler. specialize (IH (set_lastPing c t)).
      destruct (read_controls (set_lastPing c t) cn rest) as [c2 evs2].
      exact IH.
Qed.

Lemma listen_read_state
      (c : WhatsAppChannel) (now : Z) (frames : list (Z * controlFrame))
      (e : readEnd) :
  let c' := fst (listen_read c now frames e) in
  let c1 := set_lastPing c (last_pong frames (lastPing c)) in
  c' = c \/ c' = c1 \/ c' = set_conn c1 None false (connecting c).
Proof.
  cbv zeta. unfold listen_read. destruct (connected c); [|now left].
  destruct (conn c) as [cn|]; [|now left].
  pose proof (read_controls_state c cn frames) as Hc.
  destruct (read_controls c cn frames) as [c1 evs1]. cbn [fst] in Hc.
  pose proof (listen_round_state c1 now (returned e)) as Hs. cbv zeta in Hs.
  destruct (listen_round c1 now (returned e)) as [c2 evs4].
  cbn [fst] in *. right. destruct Hs as [->| ->]; rewrite Hc; [now left|].
  now right.
Qed.

Lemma keepalive_tick_state (c : WhatsAppChannel) (now : Z) (written : bool) :
  let c' := fst (keepalive_tick c now written) in
  c' = set_lastPing c now \/ c' = set_conn c None false (connecting c).
Proof.
  unfold keepalive_tick, sendPing. destruct (connected c); [|now right].
  destruct (conn c) as [cn|]; [|now right].
  destruct written; [now left|now right].
Qed.

Lemma Stop_state (c c' : WhatsAppChannel) (now : Z) (evs : list event) :
  Stop c now = Some (c', evs) ->
  stopCh_closed c = false
  /\ c' = setRunning (set_conn (set_stopCh_closed c true) None false false) false.
Proof.
  unfold Stop. destruct (stopCh_closed c); [discriminate|].
  intros H. injection H as <- _. now split.
Qed.

Ltac channel_fields :=
  cbn [set_conn set_retryManager set_lastPing setRunning set_stopCh_closed
       base config validator retryManager conn connected connecting url_
       authToken hmacKey_ pingInterval pongTimeout lastPing stopCh_closed
       name allowList running fst snd] in *.

Lemma disconnected_inv : false = true <-> @None Conn <> None.
Proof. split; [discriminate|]. intros H. now destruct H. Qed.

Lemma connected_inv (cn : Conn) : true = true <-> Some cn <> None.
Proof. split; [discriminate|reflexivity]. Qed.

(** One call keeps the invariant and the settings, and does not open the
    stop channel again. *)
Lemma run_call_inv (c c' : WhatsAppChannel) (k : call) (evs : list event) :
  channel_inv c ->
  run_call c k = Some (c', evs) ->
  channel_inv c'
  /\ settings c' = settings c
  /\ (stopCh_closed c = true -> stopCh_closed c' = true).
Proof.
  intros (Hcn & Hcg & n & Hr) Hrun.
  assert (Hsame : channel_inv c /\ settings c = settings c
                  /\ (stopCh_closed c = true -> stopCh_closed c = true)).
  { split; [|split; [reflexivity|auto]].
    split; [exact Hcn|]. split; [exact Hcg|]. now exists n. }
  assert (Hdrop : channel_inv (set_conn c None false (connecting c))
                  /\ settings (set_conn c None false (connecting c))
                     = settings c
                  /\ (stopCh_closed c = true ->
                      stopCh_closed (set_conn c None false (connecting c))
                      = true)).
  { split; [|split; [reflexivity|auto]].
    split; [exact disconnected_inv|]. split; [exact Hcg|]. now exists n. }
  destruct k as [now dial|now|now chatID content ds w|now r|now w|now dial
                |now frames e];
    cbn [run_call] in Hrun.
  - pose proof (Start_state c now dial Hcg) as Hs. cbv zeta in Hs.
    destruct (Start c now dial) as [[c1 e] evs1]. cbn [fst] in Hs.
    injection Hrun as <- _.
    destruct Hs as [->|(cn & ->)]; [exact Hsame|].
    split; [|split; [reflexivity|auto]].
    split; [exact (connected_inv cn)|]. split; [reflexivity|].
    exists 0%nat. channel_fields. rewrite Hr. apply Reset_default.
  - apply Stop_state in Hrun as (_ & ->).
    split; [|split; [reflexivity|auto]].
    split; [exact disconnected_inv|]. split; [reflexivity|]. now exists n.
  - pose proof (Send_state c now chatID content ds w) as Hs. cbv zeta in Hs.
    destruct (Send c now chatID content ds w) as [[c1 e] evs1].
    cbn [fst] in Hs. injection Hrun as <- _.
    destruct Hs as [->| ->]; [exact Hsame|exact Hdrop].
  - pose proof (listen_round_state c now r) as Hs. cbv zeta in Hs.
    destruct (listen_round c now r) as [c1 evs1].
    cbn [fst] in Hs. injection Hrun as <- _.
    destruct Hs as [->| ->]; [exact Hsame|exact Hdrop].
  - pose proof (keepalive_tick_state c now w) as Hs. cbv zeta in Hs.
    destruct (keepalive_tick c now w) as [c1 evs1].
    cbn [fst] in Hs. injection Hrun as <- _.
    destruct Hs as [->| ->]; [|exact Hdrop].
    split; [|split; [reflexivity|auto]].
    split; [exact Hcn|]. split; [exact Hcg|]. now exists n.
  - pose proof (attemptReconnection_state c now dial) as Hs. cbv zeta in Hs.
    destruct (attemptReconnection c now dial) as [c1 evs1].
    cbn [fst] in Hs. injection Hrun as <- _.
    destruct Hs as [->|[->|(cn & ->)]]; [exact Hsame| |].
    + split; [|split; [reflexivity|auto]].
      split; [exact Hcn|]. split; [exact Hcg|].
      exists (n + 1)%nat. channel_fields. rewrite Hr.
      apply default_policy_next.
    + split; [|split; [reflexivity|auto]].
      split; [exact (connected_inv cn)|]. split; [reflexivity|].
      exists 0%nat. channel_fields. rewrite Hr, default_policy_next.
      apply Reset_default.
  - pose proof (listen_read_state c now frames e) as Hs. cbv zeta in Hs.
    destruct (listen_read c now frames e) as [c1 evs1].
    cbn [fst] in Hs. injection Hrun as <- _.
    destruct Hs as [->|[->| ->]]; [exact Hsame| |].
    + split; [|split; [reflexivity|auto]].
      split; [exact Hcn|]. split; [exact Hcg|]. now exists n.
    + split; [|split; [reflexivity|auto]].
      split; [exact disconnected_inv|]. split; [exact Hcg|]. now exists n.
Qed.

Lemma run_calls_inv (ks : list call) (c c' : WhatsAppChannel)
      (evs : list event) :
  channel_inv c ->
  run_calls c ks = Some (c', evs) ->
  channel_inv c' /\ settings c' = settings c.
Proof.
  revert c evs. induction ks as [|k ks IH]; intros c evs Hinv Hrun.
  - injection Hrun as <- _. now split.
  - cbn [run_calls] in Hrun.
    destruct (run_call c k) as [[c1 evs1]|] eqn:Hk; [|discriminate].
    destruct (run_calls c1 ks) as [[c2 evs2]|] eqn:Hks; [|discriminate].
    injection Hrun as <- _.
    destruct (run_call_inv c c1 k evs1 Hinv Hk) as (Hinv1 & Hset1 & _).
    destruct (IH c1 evs2 Hinv1 Hks) as (Hinv2 & Hset2).
    split; [exact Hinv2|congruence].
Qed.

Lemma NewWhatsAppChannel_inv (cfg : WhatsAppConfig) (c : WhatsAppChannel) :
  NewWhatsAppChannel cfg = Ok c ->
  channel_inv c /\ validator c = NewMessageValidator ""
  /\ stopCh_closed c = false /\ running (base c) = false.
Proof.
  unfold NewWhatsAppChannel.
  destruct (validateBridgeURL (BridgeURL cfg)); [discriminate|].
  destruct (extractAuthToken (BridgeURL cfg)) as [bridgeURL token].
  intros H. injection H as <-. unfold channel_inv. cbn.
  repeat split; try congruence. now exists 0%nat.
Qed.

(** X12. Whatever calls of [Start], [Stop] and [Send] and steps of the
    listener, of the keepalive and of reconnection attempts have run, one
    after the other, on a channel built by [NewWhatsAppChannel]: the
    channel is marked connected exactly when it holds a connection, no
    connection attempt is marked as under way, the URL, the token, the
    intervals, the allow-list and the validator are the ones it was built
    with, so that the validator has no key, and the retry policy is the
    default one with 0 to 5 attempts counted. *)
Theorem channel_invariant
        (cfg : WhatsAppConfig) (c0 c : WhatsAppChannel) (ks : list call)
        (evs : list event) :
  NewWhatsAppChannel cfg = Ok c0 ->
  run_calls c0 ks = Some (c, evs) ->
  (connected c = true <-> conn c <> None)
  /\ connecting c = false
  /\ settings c = settings c0
  /\ hmacKey (validator c) = ""
  /\ (exists n, retryManager c = snd (NextDelays n NewConnectionRetry))
  /\ 0 <= GetAttempts (retryManager c) <= MaxReconnectAttempts.
Proof.
  intros Hnew Hrun.
  destruct (NewWhatsAppChannel_inv cfg c0 Hnew) as (Hinv0 & Hv0 & _ & _).
  destruct (run_calls_inv ks c0 c evs Hinv0 Hrun)
    as ((Hcn & Hcg & n & Hr) & Hset).
  split; [exact Hcn|]. split; [exact Hcg|]. split; [exact Hset|].
  split.
  { unfold settings in Hset.
    assert (Hv : validator c = validator c0) by congruence.
    now rewrite Hv, Hv0. }
  split; [now exists n|].
  rewrite Hr, GetAttempts_default. unfold MaxReconnectAttempts. lia.
Qed.

Lemma channel_invariant_witness :
  let c0 := example_channel "ws://localhost:3001" in
  let ks := [call_Start 0 (dial_ok 1%nat "" "");
             call_Send 5 "+1" "hello" true false;
             call_attemptReconnection 9 (dial_failed None);
             call_keepalive 30 true;
             call_Stop 40] in
  NewWhatsAppChannel (config c0) = Ok c0
  /\ (exists c evs,
         run_calls c0 ks = Some (c, evs)
         /\ connecting c = false
         /\ 0 <= GetAttempts (retryManager c) <= MaxReconnectAttempts).
Proof.
  intros c0 ks.
  assert (Hnew : NewWhatsAppChannel (config c0) = Ok c0)
    by (vm_compute; reflexivity).
  split; [exact Hnew|].
  destruct (run_calls c0 ks) as [[c evs]|] eqn:Hrun;
    [|vm_compute in Hrun; discriminate].
  exists c, evs. split; [reflexivity|].
  destruct (channel_invariant (config c0) c0 c ks evs Hnew Hrun)
    as (_ & Hcg & _ & _ & _ & Hat).
  split; [exact Hcg|exact Hat].
Defined.

(** ** Stopping *)

Lemma Start_connecting (c : WhatsAppChannel) (now : Z) (dial : dialOutcome) :
  connecting c = true ->
  Start c now dial = (c, Some errAlreadyConnecting, [Log "Starting" None]).
Proof. intros H. unfold Start. now rewrite H. Qed.

(** A call other than [Stop] returns, and leaves the stop channel as it
    is; [Stop] closes it. *)
Lemma run_call_stopCh (c : WhatsAppChannel) (k : call) :
  match run_call c k with
  | Some (c', _) =>
      stopCh_closed c' = stopCh_closed c || is_call_Stop k
      /\ (is_call_Stop k = true -> stopCh_closed c = false)
  | None => is_call_Stop k = true /\ stopCh_closed c = true
  end.
Proof.
  destruct k as [now dial|now|now chatID content ds w|now r|now w|now dial
                |now frames e];
    cbn [run_call is_call_Stop]; rewrite ?orb_false_r.
  - destruct (connecting c) eqn:Hcg.
    + rewrite Start_connecting by exact Hcg. now split.
    + pose proof (Start_state c now dial Hcg) as Hs. cbv zeta in Hs.
      destruct (Start c now dial) as [[c1 e] evs1]. cbn [fst] in Hs.
      destruct Hs as [->|(cn & ->)]; now split.
  - destruct (Stop c now) as [[c1 evs1]|] eqn:Hs.
    + apply Stop_state in Hs as (Ho & ->). now rewrite orb_true_r.
    + unfold Stop in Hs. now destruct (stopCh_closed c).
  - pose proof (Send_state c now chatID content ds w) as Hs. cbv zeta in Hs.
    destruct (Send c now chatID content ds w) as [[c1 e] evs1].
    cbn [fst] in Hs. destruct Hs as [->| ->]; now split.
  - pose proof (listen_round_state c now r) as Hs. cbv zeta in Hs.
    destruct (listen_round c now r) as [c1 evs1].
    cbn [fst] in Hs. destruct Hs as [->| ->]; now split.
  - pose proof (keepalive_tick_state c now w) as Hs. cbv zeta in Hs.
    destruct (keepalive_tick c now w) as [c1 evs1].
    cbn [fst] in Hs. destruct Hs as [->| ->]; now split.
  - pose proof (attemptReconnection_state c now dial) as Hs. cbv zeta in Hs.
    destruct (attemptReconnection c now dial) as [c1 evs1].
    cbn [fst] in Hs. destruct Hs as [->|[->|(cn & ->)]]; now split.
  - pose proof (listen_read_state c now frames e) as Hs. cbv zeta in Hs.
    destruct (listen_read c now frames e) as [c1 evs1].
    cbn [fst] in Hs. destruct Hs as [->|[->| ->]]; now split.
Qed.

(** X13. A channel can be stopped once.  Calls that run one after the other
    panic exactly when [Stop] is called a second time (a first time, on a
    channel that was stopped before): nothing opens the stop channel
    again, not even [Start], and no other call panics. *)
Theorem stop_only_once (ks : list call) (c : WhatsAppChannel) :
  run_calls c ks = None
  <-> ((if stopCh_closed c then 1 else 2) <= stops ks)%nat.
Proof.
  revert c. induction ks as [|k ks IH]; intros c.
  - cbn. split; [discriminate|]. destruct (stopCh_closed c); lia.
  - cbn [run_calls]. pose proof (run_call_stopCh c k) as Hk.
    unfold stops in *. cbn [filter].
    destruct (run_call c k) as [[c1 evs1]|].
    + destruct Hk as (Hk & Hopen). specialize (IH c1). rewrite Hk in IH.
      destruct (run_calls c1 ks) as [[c2 evs2]|].
      * split; [discriminate|]. intros H. exfalso.
        assert (H' : Some (c2, evs2) = None); [|discriminate].
        apply IH.
        destruct (is_call_Stop k); [rewrite Hopen in * by reflexivity|];
          destruct (stopCh_closed c); cbn in *; lia.
      * split; [|reflexivity]. intros _.
        assert (H : @None (WhatsAppChannel * list event) = None)
          by reflexivity.
        apply IH in H.
        destruct (is_call_Stop k); [rewrite Hopen in * by reflexivity|];
          destruct (stopCh_closed c); cbn in *; lia.
    + destruct Hk as (-> & ->). split; [|reflexivity]. intros _. cbn. lia.
Qed.

(** X14. [Stop] on a channel that has not been stopped leaves it not
    running, disconnected and without connection, after a close frame
    with the code 1000 and the text "channel stopping" on the connection
    it had.  It does not cancel the reconnection: an attempt that runs
    afterwards, while the policy has attempts left, and whose dial
    succeeds, leaves the stopped channel connected, on the new
    connection, and still not running. *)
Theorem stopped_channel_reconnects
        (c c1 : WhatsAppChannel) (now now' : Z) (evs : list event)
        (u : url.URL) (cn : Conn) :
  Stop c now = Some (c1, evs) ->
  url.Parse (url_ c) = Some u ->
  String.eqb (url.Scheme u) "wss" || String.eqb (url.Scheme u) "ws" = true ->
  ShouldRetry (retryManager c) = true ->
  let c2 := fst (attemptReconnection c1 now' (dial_ok cn "" "")) in
  running (base c1) = false /\ connected c1 = false /\ conn c1 = None
  /\ (forall old, conn c = Some old ->
        evs = [Log "Stopping WhatsApp channel..." None;
               WriteControl old CloseMessage
                 (String (byte_of 0x03)
                    (String (byte_of 0xE8) "channel stopping"))
                 (now + 5 * time.Second);
               Close old;
               Log "WhatsApp channel stopped" None])
  /\ (conn c = None -> filter is_write evs = [])
  /\ running (base c2) = false /\ stopCh_closed c2 = true
  /\ connected c2 = true /\ conn c2 = Some cn.
Proof.
  intros Hstop Hu Hsch Hretry c2.
  pose proof Hstop as Hst. apply Stop_state in Hst as (Hopen & Hc1).
  unfold Stop in Hstop. rewrite Hopen in Hstop. injection Hstop as _ Hevs.
  assert (Hu1 : url.Parse (url_ c1) = Some u) by (now rewrite Hc1).
  assert (Hr1 : ShouldRetry (retryManager c1) = true) by (now rewrite Hc1).
  destruct (attemptReconnection_success c1 now' cn u Hu1 Hsch Hr1)
    as (Hcd & Hcn & _).
  fold c2 in Hcd, Hcn.
  assert (Hbase : base c2 = base c1 /\ stopCh_closed c2 = stopCh_closed c1).
  { pose proof (attemptReconnection_state c1 now' (dial_ok cn "" "")) as Hs.
    cbv zeta in Hs. fold c2 in Hs.
    now destruct Hs as [->|[->|(cn' & ->)]]. }
  destruct Hbase as (Hb & Hs). rewrite Hb, Hs, Hc1.
  split; [reflexivity|]. split; [reflexivity|]. split; [reflexivity|].
  split.
  { intros old Hold. rewrite <- Hevs. cbn [set_stopCh_closed conn].
    rewrite Hold. reflexivity. }
  split.
  { intros Hnone. rewrite <- Hevs. cbn [set_stopCh_closed conn].
    rewrite Hnone. reflexivity. }
  split; [reflexivity|]. split; [reflexivity|]. split; assumption.
Qed.

Lemma stopped_channel_reconnects_witness :
  let c := set_conn (example_channel "ws://localhost:3001") (Some 1%nat)
                    true false in
  exists c1 evs,
    Stop c 0 = Some (c1, evs)
    /\ connected c1 = false
    /\ connected (fst (attemptReconnection c1 7 (dial_ok 2%nat "" ""))) = true
    /\ running (base (fst (attemptReconnection c1 7 (dial_ok 2%nat "" ""))))
       = false.
Proof.
  intros c.
  destruct (Stop c 0) as [[c1 evs]|] eqn:Hstop;
    [|vm_compute in Hstop; discriminate].
  destruct (url.Parse (url_ c)) as [u|] eqn:Hu;
    [|vm_compute in Hu; discriminate].
  assert (Hsch : String.eqb (url.Scheme u) "wss"
                 || String.eqb (url.Scheme u) "ws" = true).
  { vm_compute in Hu. injection Hu as <-. reflexivity. }
  assert (Hr : ShouldRetry (retryManager c) = true) by reflexivity.
  pose proof (stopped_channel_reconnects c c1 0 7 evs u 2%nat Hstop Hu Hsch Hr)
    as H. cbv zeta in H.
  destruct H as (_ & H1 & _ & _ & _ & H2 & _ & H3 & _).
  exists c1, evs. split; [reflexivity|]. split; [exact H1|].
  split; [exact H3|exact H2].
Defined.

(** ** Connecting and starting *)

(** What [connect] does to the outside. *)
Lemma connect_events (c : WhatsAppChannel) (now : Z) (dial : dialOutcome) :
  let evs := snd (connect c now dial) in
  filter is_any_go evs = []
  /\ filter is_write evs = []
  /\ (List.length (filter is_dial evs) <= 1)%nat
  /\ (snd (fst (connect c now dial)) = None -> filter is_close_any evs = []).
Proof.
  unfold connect.
  destruct (url.Parse (url_ c)) as [u|];
    [|cbn; repeat split; try lia; discriminate].
  destruct (negb (String.eqb (url.Scheme u) "wss")
            && negb (String.eqb (url.Scheme u) "ws"));
    [cbn; repeat split; try lia; discriminate|].
  destruct dial as [status|cn sn st];
    [cbn; repeat split; try lia; discriminate|].
  destruct (validateBridgeResponse c now sn st);
    cbn; repeat split; try lia; discriminate.
Qed.

Lemma validateBridgeResponse_ok (c : WhatsAppChannel) (now : Z)
      (sn st : string) :
  validateBridgeResponse c now sn st = None
  <-> (sn = "" /\ st = ""
       \/ sn <> "" /\ st <> ""
          /\ exists ts, time.Parse st = Some ts
                        /\ time.Sub now ts <= 5 * time.Minute).
Proof.
  unfold validateBridgeResponse.
  destruct (String.eqb_spec sn "") as [Hn|Hn];
    destruct (String.eqb_spec st "") as [Ht|Ht]; cbn [andb orb].
  - split; [now left|reflexivity].
  - split; [discriminate|]. intros [(_ & H)|(H & _)]; contradiction.
  - split; [discriminate|]. intros [(H & _)|(_ & H & _)]; contradiction.
  - destruct (time.Parse st) as [ts|].
    + destruct (Z.ltb_spec (5 * time.Minute) (time.Sub now ts)) as [Hl|Hl].
      * split; [discriminate|].
        intros [(H & _)|(_ & _ & ts' & Hp & Hle)]; [contradiction|].
        injection Hp as <-. lia.
      * split; [|reflexivity]. intros _. right. split; [exact Hn|].
        split; [exact Ht|]. now exists ts.
    + split; [discriminate|].
      intros [(H & _)|(_ & _ & ts' & Hp & _)]; [contradiction|discriminate].
Qed.

(** X15. [connect] succeeds exactly when the URL of the channel parses
    with the scheme [ws] or [wss], the dial succeeds, and the response
    either carries neither of the two server headers or carries both with
    a timestamp that parses and is not more than five minutes old; a
    timestamp in the future passes.  It dials at most once, starts
    nothing and writes nothing; when it fails the channel is as it was,
    and a connection that was dialled and then refused has been closed. *)
Theorem connect_accepts (c : WhatsAppChannel) (now : Z) (dial : dialOutcome) :
  let c' := fst (fst (connect c now dial)) in
  let err := snd (fst (connect c now dial)) in
  let evs := snd (connect c now dial) in
  (err = None
   <-> exists u cn sn st,
       url.Parse (url_ c) = Some u
       /\ (url.Scheme u = "wss" \/ url.Scheme u = "ws")
       /\ dial = dial_ok cn sn st
       /\ (sn = "" /\ st = ""
           \/ sn <> "" /\ st <> ""
              /\ exists ts, time.Parse st = Some ts
                            /\ time.Sub now ts <= 5 * time.Minute))
  /\ (err = None ->
      exists cn sn st, dial = dial_ok cn sn st
                       /\ c' = set_conn c (Some cn) true false)
  /\ (err <> None -> c' = c)
  /\ (forall cn sn st, dial = dial_ok cn sn st -> err <> None ->
                       evs <> [] -> In (Close cn) evs)
  /\ (List.length (filter is_dial evs) <= 1)%nat
  /\ filter is_any_go evs = []
  /\ filter is_write evs = [].
Proof.
  cbv zeta.
  pose proof (connect_events c now dial) as (Hgo & Hw & Hd & _).
  split; [|split; [|split; [|split; [|now repeat split]]]].
  - unfold connect.
    destruct (url.Parse (url_ c)) as [u|].
    2:{ cbn. split; [discriminate|].
        intros (u' & cn' & sn' & st' & Hpa & _). discriminate. }
    assert (Hscheme : negb (String.eqb (url.Scheme u) "wss")
                      && negb (String.eqb (url.Scheme u) "ws") = false
                      <-> url.Scheme u = "wss" \/ url.Scheme u = "ws").
    { destruct (String.eqb_spec (url.Scheme u) "wss");
        destruct (String.eqb_spec (url.Scheme u) "ws"); cbn;
        intuition congruence. }
    destruct (negb (String.eqb (url.Scheme u) "wss")
              && negb (String.eqb (url.Scheme u) "ws")).
    { cbn. split; [discriminate|].
      intros (u' & cn' & sn' & st' & Hpa & Hsc & _).
      injection Hpa as <-. apply Hscheme in Hsc. discriminate. }
    destruct dial as [status|cn sn st].
    { cbn. split; [discriminate|].
      intros (u' & cn' & sn' & st' & _ & _ & Hdl & _). discriminate. }
    pose proof (validateBridgeResponse_ok c now sn st) as Hv.
    destruct (validateBridgeResponse c now sn st) as [e|]; cbn.
    + split; [discriminate|].
      intros (u' & cn' & sn' & st' & _ & _ & Hdl & Hh).
      injection Hdl as <- <- <-. apply Hv in Hh. discriminate.
    + split; [|reflexivity]. intros _. exists u, cn, sn, st.
      split; [reflexivity|]. split; [now apply Hscheme|].
      split; [reflexivity|]. now apply Hv.
  - intros Herr.
    destruct (connect_cases c now dial)
      as [(e & evs & Hc)|(cn & sn & st & evs & Hdial & _ & Hc)];
      rewrite Hc in *; [discriminate|].
    now exists cn, sn, st.
  - intros Herr.
    destruct (connect_cases c now dial)
      as [(e & evs & Hc)|(cn & sn & st & evs & Hdial & _ & Hc)];
      rewrite Hc in *; [reflexivity|]. now destruct Herr.
  - intros cn sn st -> . unfold connect.
    destruct (url.Parse (url_ c)) as [u|]; [|cbn; intros _ H; now destruct H].
    destruct (negb (String.eqb (url.Scheme u) "wss")
              && negb (String.eqb (url.Scheme u) "ws"));
      [cbn; intros _ H; now destruct H|].
    destruct (validateBridgeResponse c now sn st).
    + cbn. intros _ _. right. now left.
    + cbn. intros H. now destruct H.
Qed.

Lemma connect_accepts_witness :
  let c := example_channel "ws://localhost:3001" in
  let dial := dial_ok 1%nat "n1" "2024-01-01 00:00:00" in
  snd (fst (connect c 0 dial)) = None
  /\ fst (fst (connect c 0 dial)) = set_conn c (Some 1%nat) true false.
Proof.
  intros c dial.
  pose proof (connect_accepts c 0 dial) as H. cbv zeta in H.
  destruct H as (H1 & H2 & _).
  assert (Herr : snd (fst (connect c 0 dial)) = None).
  { apply H1. eexists _, 1%nat, "n1", "2024-01-01 00:00:00".
    split; [vm_compute; reflexivity|]. split; [right; reflexivity|].
    split; [reflexivity|]. right. split; [discriminate|].
    split; [discriminate|]. eexists. split; [vm_compute; reflexivity|].
    vm_compute. discriminate. }
  split; [exact Herr|].
  destruct (H2 Herr) as (cn & sn & st & Hd & Hc).
  injection Hd as <- _ _. exact Hc.
Defined.

(** X16. [Start] on a channel that is marked as connecting does nothing but
    fail.  Otherwise it connects: when that fails the channel is as it
    was and no goroutine is started; when it succeeds the channel is
    running and connected, the retry policy is reset, and the listener
    and the keepalive are started, each once.  [Start] does not look at
    whether the channel is running or connected already: on success it
    closes no connection, so that a connection that the channel held is
    replaced without being closed. *)
Theorem Start_outcomes (c : WhatsAppChannel) (now : Z) (dial : dialOutcome) :
  let c' := fst (fst (Start c now dial)) in
  let err := snd (fst (Start c now dial)) in
  let evs := snd (Start c now dial) in
  (connecting c = true ->
   c' = c /\ err = Some errAlreadyConnecting /\ evs = [Log "Starting" None])
  /\ (connecting c = false ->
      (err = None <-> snd (fst (connect c now dial)) = None)
      /\ (err <> None ->
          c' = c /\ filter is_any_go evs = []
          /\ exists e, err = Some (errConnectFailed e))
      /\ (err = None ->
          running (base c') = true
          /\ connected c' = true
          /\ connecting c' = false
          /\ (exists cn sn st, dial = dial_ok cn sn st /\ conn c' = Some cn)
          /\ retryManager c' = Reset (retryManager c)
          /\ filter is_any_go evs = [Go task_listen; Go task_keepalive]
          /\ filter is_close_any evs = [])).
Proof.
  cbv zeta. split.
  { intros H. now rewrite Start_connecting. }
  intros Hcg. unfold Start. rewrite Hcg.
  assert (Hsame : connect (set_conn c (conn c) (connected c) true) now dial
                  = let '(c1, e, evs) := connect c now dial in
                    (match e with
                     | Some _ => set_conn c (conn c) (connected c) true
                     | None => c1
                     end, e, evs)).
  { unfold connect. cbn [url_ set_conn authToken].
    destruct (url.Parse (url_ c)) as [u|]; [|reflexivity].
    destruct (negb (String.eqb (url.Scheme u) "wss")
              && negb (String.eqb (url.Scheme u) "ws")); [reflexivity|].
    destruct dial as [status|cn sn st]; [reflexivity|].
    unfold validateBridgeResponse.
    destruct (String.eqb sn "" && String.eqb st ""); [reflexivity|].
    destruct (String.eqb sn "" || String.eqb st ""); [reflexivity|].
    destruct (time.Parse st) as [ts|]; [|reflexivity].
    now destruct (5 * time.Minute <? time.Sub now ts). }
  rewrite Hsame.
  pose proof (connect_events c now dial) as (Hgo & _ & _ & Hcl).
  destruct (connect_cases c now dial)
    as [(e & evs & Hc)|(cn & sn & st & evs & Hdial & _ & Hc)];
    rewrite Hc in *; cbn [fst snd] in *.
  - split; [split; discriminate|]. split; [|discriminate].
    intros _. split; [|split; [exact Hgo|now exists e]].
    destruct c; cbn in *. now subst.
  - split; [split; reflexivity|]. split; [intros H; now destruct H|].
    intros _. split; [reflexivity|]. split; [reflexivity|].
    split; [reflexivity|]. split; [now exists cn, sn, st|].
    split; [reflexivity|].
    cbn [filter is_any_go is_close_any].
    rewrite !filter_app, Hgo, (Hcl eq_refl). split; reflexivity.
Qed.

Lemma Start_outcomes_witness :
  let c := set_conn (example_channel "ws://localhost:3001") (Some 1%nat)
                    true false in
  connecting c = false
  /\ snd (fst (Start c 0 (dial_ok 2%nat "" ""))) = None
  /\ conn c = Some 1%nat
  /\ filter is_close_any (snd (Start c 0 (dial_ok 2%nat "" ""))) = [].
Proof.
  intros c.
  assert (Hcg : connecting c = false) by reflexivity.
  assert (Herr : snd (fst (Start c 0 (dial_ok 2%nat "" ""))) = None)
    by (vm_compute; reflexivity).
  pose proof (Start_outcomes c 0 (dial_ok 2%nat "" "")) as H. cbv zeta in H.
  destruct H as (_ & H). destruct (H Hcg) as (_ & _ & H').
  destruct (H' Herr) as (_ & _ & _ & _ & _ & _ & Hcl).
  split; [exact Hcg|]. split; [exact Herr|]. split; [reflexivity|exact Hcl].
Defined.

(** ** Sending and listening *)

(** The message that [Send] builds, validated. *)
Lemma Send_message_valid (v : MessageValidator) (t : Z)
      (chatID content : string) :
  let outgoing := OutgoingMessage.mk MessageTypeMessage chatID content [] 0 "" in
  (snd (ValidateOutgoing v t outgoing) = None
   <-> 1 <= len chatID <= 50 /\ len content <= MaxContentLength)
  /\ (snd (ValidateOutgoing v t outgoing) = None ->
      let m := fst (ValidateOutgoing v t outgoing) in
      OutgoingMessage.Type_ m = MessageTypeMessage
      /\ OutgoingMessage.To m = chatID
      /\ OutgoingMessage.Content m = sanitize_steps content
      /\ OutgoingMessage.Media m = []
      /\ OutgoingMessage.Timestamp m = t).
Proof.
  cbv zeta. unfold ValidateOutgoing.
  cbn [OutgoingMessage.Type_ OutgoingMessage.To OutgoingMessage.Content].
  change (negb (String.eqb MessageTypeMessage MessageTypeMessage)) with false.
  cbv iota.
  pose proof (validatePhoneNumber_ok v chatID) as Hp.
  destruct (validatePhoneNumber v chatID) as [e|].
  { cbn. split; [|discriminate]. split; [discriminate|].
    intros (H & _). apply Hp in H. discriminate. }
  assert (Hto : 1 <= len chatID <= 50) by now apply Hp.
  unfold sanitizeContent.
  destruct (Z.ltb_spec MaxContentLength (len content)) as [Hl|Hl].
  { cbn. split; [|discriminate]. split; [discriminate|]. lia. }
  cbn [OutgoingMessage.set_Content OutgoingMessage.Media validateMedia
       OutgoingMessage.Timestamp OutgoingMessage.Type_ OutgoingMessage.To
       OutgoingMessage.Content].
  change (0 =? 0) with true. cbv iota.
  match goal with
  | |- context [signMessage v ?m] =>
      pose proof (signMessage_keeps v m) as Hk;
        pose proof (signMessage_no_error v m) as Hs;
        destruct (signMessage v m) as [m' [e|]]
  end; [discriminate|].
  cbv zeta in Hk. cbn [fst snd] in Hk |- *.
  destruct Hk as (Hty & Hto' & Hc & Hm & Hts).
  split; [split; [now intros _|reflexivity]|]. intros _.
  rewrite Hty, Hto', Hc, Hm, Hts. repeat split.
Qed.

(** X17. [Send] succeeds exactly when the channel is connected, the chat
    id has 1 to 50 bytes, the content has at most 4096 bytes, and the two
    writes succeed.  It writes at most one frame: a text frame with the
    serialization of a message of type "message" to the chat id, with the
    content sanitized, no media and the current time.  Nothing is written
    for a message that is refused.  The channel changes only when the
    write of the frame fails: it is then disconnected, its connection is
    closed, and a reconnection attempt is started. *)
Theorem Send_outcomes
        (c : WhatsAppChannel) (now : Z) (chatID content : string)
        (deadline_set written : bool) :
  let c' := fst (fst (Send c now chatID content deadline_set written)) in
  let err := snd (fst (Send c now chatID content deadline_set written)) in
  let evs := snd (Send c now chatID content deadline_set written) in
  (err = None
   <-> connected c = true /\ conn c <> None
       /\ 1 <= len chatID <= 50 /\ len content <= MaxContentLength
       /\ deadline_set = true /\ written = true)
  /\ (filter is_write evs = []
      \/ exists cn m,
          conn c = Some cn
          /\ filter is_write evs
             = [WriteMessage cn TextMessage (Marshal_OutgoingMessage m)]
          /\ OutgoingMessage.Type_ m = MessageTypeMessage
          /\ OutgoingMessage.To m = chatID
          /\ OutgoingMessage.Content m = sanitize_steps content
          /\ OutgoingMessage.Media m = []
          /\ OutgoingMessage.Timestamp m = time.Unix now
          /\ 1 <= len chatID <= 50 /\ len content <= MaxContentLength)
  /\ (c' = c /\ filter is_any_go evs = []
      \/ err = Some errSendFailed
         /\ c' = set_conn c None false (connecting c)
         /\ (exists cn, conn c = Some cn /\ In (Close cn) evs)
         /\ filter is_any_go evs = [Go task_attemptReconnection]).
Proof.
  cbv zeta. unfold Send.
  destruct (connected c).
  2:{ cbn. split; [|split; [now left|now left]].
      split; [discriminate|]. intros (H & _). discriminate. }
  destruct (conn c) as [cn|] eqn:Hconn.
  2:{ cbn. split; [|split; [now left|now left]].
      split; [discriminate|]. intros (_ & H & _). now destruct H. }
  pose proof (Send_message_valid (validator c) (time.Unix now) chatID content)
    as H. cbv zeta in H.
  change (OutgoingMessage.mk MessageTypeMessage chatID content [] 0 "")
    with {| OutgoingMessage.Type_ := MessageTypeMessage;
            OutgoingMessage.To := chatID;
            OutgoingMessage.Content := content;
            OutgoingMessage.Media := [];
            OutgoingMessage.Timestamp := 0;
            OutgoingMessage.Signature := "" |} in H.
  destruct H as (Hiff & Hm).
  destruct (ValidateOutgoing _ _ _) as [m [e|]]; cbn [fst snd] in *.
  { split; [|split; [now left|now left]].
    split; [discriminate|]. intros (_ & _ & H1 & H2 & _).
    assert (Some e = None) by (apply Hiff; now split). discriminate. }
  destruct (proj1 Hiff eq_refl) as (Hto & Hlen).
  destruct (Hm eq_refl) as (M1 & M2 & M3 & M4 & M5).
  destruct deadline_set; cbn [negb].
  2:{ cbn. split; [|split; [now left|now left]].
      split; [discriminate|]. intros (_ & _ & _ & _ & H & _). discriminate. }
  destruct written; cbn [negb].
  - cbn [fst snd filter is_write is_any_go app].
    split; [|split; [|now left]].
    + split; [|reflexivity]. intros _. split; [reflexivity|].
      split; [discriminate|]. split; [exact Hto|]. split; [exact Hlen|].
      split; reflexivity.
    + right. exists cn, m. split; [reflexivity|]. split; [reflexivity|].
      split; [exact M1|]. split; [exact M2|]. split; [exact M3|].
      split; [exact M4|]. split; [exact M5|]. split; [exact Hto|exact Hlen].
  - unfold handleConnectionError. rewrite Hconn.
    cbn [fst snd filter is_write is_any_go app]. split; [|split].
    + split; [discriminate|]. intros (_ & _ & _ & _ & _ & H). discriminate.
    + right. exists cn, m. split; [reflexivity|]. split; [reflexivity|].
      split; [exact M1|]. split; [exact M2|]. split; [exact M3|].
      split; [exact M4|]. split; [exact M5|]. split; [exact Hto|exact Hlen].
    + right. split; [reflexivity|]. split; [reflexivity|].
      split; [|reflexivity]. exists cn. split; [reflexivity|].
      right. right. now left.
Qed.

Lemma Send_outcomes_witness :
  let c := set_conn (example_channel "ws://localhost:3001") (Some 1%nat)
                    true false in
  (snd (fst (Send c 0 "+1" " hi " true true)) = None)
  /\ (snd (fst (Send c 0 "" "hi" true true)) <> None).
Proof.
  intros c.
  pose proof (Send_outcomes c 0 "+1" " hi " true true) as H1.
  pose proof (Send_outcomes c 0 "" "hi" true true) as H2.
  cbv zeta in H1, H2. destruct H1 as (H1 & _). destruct H2 as (H2 & _).
  split.
  - apply H1. split; [reflexivity|]. split; [discriminate|].
    split; [vm_compute; split; discriminate|].
    split; [vm_compute; discriminate|]. split; reflexivity.
  - intros H. apply H2 in H. destruct H as (_ & _ & (H & _) & _).
    vm_compute in H. now apply H.
Defined.

(** A round of the listener after the read writes nothing to the
    connection and dials nothing, whatever was read.  It changes the
    channel only when the read has failed, on a connected channel: the
    channel is then disconnected, its connection is closed, and a
    reconnection attempt is started. *)
Lemma listen_round_passive
      (c : WhatsAppChannel) (now : Z) (r : readOutcome) :
  let c' := fst (listen_round c now r) in
  let evs := snd (listen_round c now r) in
  filter is_write evs = []
  /\ filter is_dial evs = []
  /\ (c' = c /\ filter is_any_go evs = [] /\ filter is_close_any evs = []
      /\ (r = read_failed -> connected c = false \/ conn c = None)
      \/ r = read_failed
         /\ connected c = true
         /\ c' = set_conn c None false (connecting c)
         /\ (exists cn, conn c = Some cn /\ evs = [Close cn; Go task_attemptReconnection])).
Proof.
  cbv zeta. unfold listen_round.
  destruct (connected c).
  2:{ cbn. repeat split. left. repeat split. now left. }
  destruct (conn c) as [cn|] eqn:Hconn.
  2:{ cbn. repeat split. left. repeat split. now right. }
  destruct r as [|ty data].
  { unfold handleConnectionError. rewrite Hconn. cbn.
    split; [reflexivity|]. split; [reflexivity|]. right.
    split; [reflexivity|]. split; [reflexivity|]. split; [reflexivity|].
    now exists cn. }
  assert (Hidle : forall evs : list event,
             filter is_write evs = [] -> filter is_dial evs = [] ->
             filter is_any_go evs = [] -> filter is_close_any evs = [] ->
             filter is_write (snd (c, evs)) = []
             /\ filter is_dial (snd (c, evs)) = []
             /\ (fst (c, evs) = c /\ filter is_any_go (snd (c, evs)) = []
                 /\ filter is_close_any (snd (c, evs)) = []
                 /\ (read_frame ty data = read_failed ->
                     true = false \/ Some cn = None)
                 \/ read_frame ty data = read_failed
                    /\ true = true
                    /\ fst (c, evs) = set_conn c None false (connecting c)
                    /\ (exists cn0, Some cn = Some cn0
                        /\ snd (c, evs)
                           = [Close cn0; Go task_attemptReconnection]))).
  { intros evs H1 H2 H3 H4. cbn [fst snd]. split; [exact H1|].
    split; [exact H2|]. left. split; [reflexivity|]. split; [exact H3|].
    split; [exact H4|]. discriminate. }
  destruct ty; try (apply Hidle; reflexivity).
  destruct (ValidateIncoming (validator c) data) as [msg|e];
    [|apply Hidle; reflexivity].
  cbv zeta.
  repeat match goal with
         | |- context [if String.eqb ?a ?b then _ else _] =>
             destruct (String.eqb a b)
         end; apply Hidle; reflexivity.
Qed.

Lemma filter_data_write (evs : list event) :
  filter is_write evs = [] -> filter is_data_write evs = [].
Proof.
  induction evs as [|ev evs IH]; [reflexivity|].
  destruct ev; cbn; try exact IH; discriminate.
Qed.

(** The control frames of a read: the pongs are the only writes, and the
    channel has the time of the last pong as its last ping. *)
Lemma read_controls_outcomes
      (c : WhatsAppChannel) (cn : Conn) (frames : list (Z * controlFrame)) :
  fst (read_controls c cn frames)
  = set_lastPing c (last_pong frames (lastPing c))
  /\ filter is_write (snd (read_controls c cn frames)) = pong_replies cn frames
  /\ filter is_data_write (snd (read_controls c cn frames)) = []
  /\ filter is_dial (snd (read_controls c cn frames)) = []
  /\ filter is_any_go (snd (read_controls c cn frames)) = []
  /\ filter is_close_any (snd (read_controls c cn frames)) = [].
Proof.
  revert c. induction frames as [|[t f] rest IH]; intros c.
  - cbn. repeat split. now destruct c.
  - cbn [read_controls handle_control pongHandler].
    destruct f as [appData|appData].
    + specialize (IH c).
      destruct (read_controls c cn rest) as [c2 evs2]. cbn [fst snd] in *.
      destruct IH as (H1 & H2 & H3 & H4 & H5 & H6).
      cbn [app filter is_write is_data_write is_dial is_any_go is_close_any
           last_pong pong_replies].
      rewrite H2. repeat split; assumption.
    + unfold pongHandler. specialize (IH (set_lastPing c t)).
      destruct (read_controls (set_lastPing c t) cn rest) as [c2 evs2].
      cbn [fst snd] in *.
      destruct IH as (H1 & H2 & H3 & H4 & H5 & H6).
      cbn [app filter is_write is_data_write is_dial is_any_go is_close_any
           last_pong pong_replies].
      split; [exact H1|]. repeat split; assumption.
Qed.

(** X18. What a round of the listener writes, with the read.  It dials
    nothing and writes no data frame, whatever arrives: no inbound
    message is answered, a ping in a text frame included.  On a connected
    channel the only writes are those of the library during the read, in
    order: a pong for each ping frame that arrived, with the payload of
    the ping, and a close frame when the read ended with a close frame or
    a protocol error.  The pong handler of [connect] sets the last ping to
    the time of the last pong frame.  When the read returns a message the
    channel is otherwise as it was, nothing is closed and nothing is
    started; when it returns an error the channel is disconnected, its
    connection is closed, and one reconnection attempt is started.  A
    channel that is not connected reads nothing and sleeps for a
    second. *)
Theorem listener_writes_control_replies_only
        (c : WhatsAppChannel) (now : Z) (frames : list (Z * controlFrame))
        (e : readEnd) :
  let c' := fst (listen_read c now frames e) in
  let evs := snd (listen_read c now frames e) in
  let c1 := set_lastPing c (last_pong frames (lastPing c)) in
  filter is_dial evs = []
  /\ filter is_data_write evs = []
  /\ (connected c = false \/ conn c = None ->
      c' = c /\ evs = [Sleep (1 * time.Second)])
  /\ (forall cn, connected c = true -> conn c = Some cn ->
      filter is_write evs
      = pong_replies cn frames
        ++ match close_reply e with
           | Some payload =>
               [WriteControl cn CloseMessage payload
                  (now + websocket.writeWait)]
           | None => []
           end
      /\ match e with
         | end_data _ _ =>
             c' = c1
             /\ filter is_any_go evs = []
             /\ filter is_close_any evs = []
         | _ =>
             c' = set_conn c1 None false (connecting c)
             /\ filter is_any_go evs = [Go task_attemptReconnection]
             /\ filter is_close_any evs = [Close cn]
         end).
Proof.
  cbv zeta. unfold listen_read.
  destruct (connected c) eqn:Hcd.
  2:{ cbn. split; [reflexivity|]. split; [reflexivity|].
      split; [now intros _|]. intros cn H. discriminate. }
  destruct (conn c) as [cn|] eqn:Hconn.
  2:{ cbn. split; [reflexivity|]. split; [reflexivity|].
      split; [now intros _|]. intros cn _ H. discriminate. }
  pose proof (read_controls_outcomes c cn frames) as Hr.
  destruct (read_controls c cn frames) as [c1 evs1]. cbn [fst snd] in Hr.
  destruct Hr as (Hc1 & Hw1 & Hd1 & Hdial1 & Hgo1 & Hcl1).
  assert (Hcd1 : connected c1 = true) by (rewrite Hc1; exact Hcd).
  assert (Hconn1 : conn c1 = Some cn) by (rewrite Hc1; exact Hconn).
  assert (Hcg1 : connecting c1 = connecting c) by (now rewrite Hc1).
  pose proof (listen_round_passive c1 now (returned e)) as Hl.
  cbv zeta in Hl.
  destruct (listen_round c1 now (returned e)) as [c2 evs4].
  cbn [fst snd] in *.
  destruct Hl as (Hw4 & Hdial4 & Hst).
  assert (Hd4 : filter is_data_write evs4 = [])
    by (now apply filter_data_write).
  assert (Hmid :
            forall p : event -> bool,
              (forall payload,
                  p (WriteControl cn CloseMessage payload
                       (now + websocket.writeWait)) = false) ->
              (forall text, p (Log text None) = false) ->
              filter p
                (match close_reply e with
                 | Some payload =>
                     [WriteControl cn CloseMessage payload
                        (now + websocket.writeWait)]
                 | None => []
                 end
                 ++ (if IsUnexpectedCloseError e
                     then [Log "WhatsApp WebSocket error" None] else [])
                 ++ evs4)
              = filter p evs4).
  { intros p Hp1 Hp2. rewrite !filter_app.
    destruct (close_reply e) as [payload|];
      destruct (IsUnexpectedCloseError e); cbn [filter];
        rewrite ?Hp1, ?Hp2; reflexivity. }
  split.
  { rewrite filter_app, Hdial1, Hmid, Hdial4 by reflexivity. reflexivity. }
  split.
  { rewrite filter_app, Hd1, Hmid, Hd4 by reflexivity. reflexivity. }
  split.
  { intros [H|H]; discriminate. }
  intros cn0 _ Heq. injection Heq as <-.
  split.
  { rewrite filter_app, Hw1, !filter_app, Hw4, app_nil_r.
    f_equal.
    destruct (close_reply e) as [payload|];
      destruct (IsUnexpectedCloseError e); reflexivity. }
  rewrite !filter_app, Hgo1, Hcl1. cbn [app].
  rewrite <- !filter_app, !Hmid by reflexivity.
  destruct e as [binary data|code text|message|].
  - destruct Hst as [(H1 & H2 & H3 & _)|(H1 & _)].
    + subst c2. split; [exact Hc1|]. split; assumption.
    + destruct binary; discriminate.
  - destruct Hst as [(_ & _ & _ & H)|(_ & _ & H1 & cn' & H2 & H3)].
    + destruct (H eq_refl) as [H0|H0]; congruence.
    + rewrite Hconn1 in H2. injection H2 as <-. subst evs4 c2.
      rewrite Hcg1, Hc1. repeat split.
  - destruct Hst as [(_ & _ & _ & H)|(_ & _ & H1 & cn' & H2 & H3)].
    + destruct (H eq_refl) as [H0|H0]; congruence.
    + rewrite Hconn1 in H2. injection H2 as <-. subst evs4 c2.
      rewrite Hcg1, Hc1. repeat split.
  - destruct Hst as [(_ & _ & _ & H)|(_ & _ & H1 & cn' & H2 & H3)].
    + destruct (H eq_refl) as [H0|H0]; congruence.
    + rewrite Hconn1 in H2. injection H2 as <-. subst evs4 c2.
      rewrite Hcg1, Hc1. repeat split.
Qed.

Lemma listener_writes_control_replies_only_witness :
  let c := set_conn (example_channel "ws://localhost:3001") (Some 1%nat)
                    true false in
  let frames := [(5, ping_frame "a"); (7, pong_frame "ping")] in
  let e := end_data false (frame "{'type':'ping'}") in
  filter is_write (snd (listen_read c 9 frames e))
  = [WriteControl 1%nat PongMessage "a" (5 + websocket.writeWait)]
  /\ fst (listen_read c 9 frames e) = set_lastPing c 7
  /\ filter is_write (snd (listen_read c 9 [] e)) = []
  /\ filter is_write (snd (listen_read c 9 [] (end_close 1000 "bye")))
     = [WriteControl 1%nat CloseMessage
          (websocket.FormatCloseMessage 1000 "")
          (9 + websocket.writeWait)].
Proof.
  intros c frames e.
  pose proof (listener_writes_control_replies_only c 9 frames e) as H1.
  pose proof (listener_writes_control_replies_only c 9 [] e) as H2.
  pose proof (listener_writes_control_replies_only c 9 []
                (end_close 1000 "bye")) as H3.
  cbv zeta in H1, H2, H3.
  destruct H1 as (_ & _ & _ & H1). destruct H2 as (_ & _ & _ & H2).
  destruct H3 as (_ & _ & _ & H3).
  destruct (H1 1%nat eq_refl eq_refl) as (H1w & H1c & _).
  destruct (H2 1%nat eq_refl eq_refl) as (H2w & _).
  destruct (H3 1%nat eq_refl eq_refl) as (H3w & _).
  split; [exact H1w|]. split; [exact H1c|]. split; [exact H2w|exact H3w].
Defined.

Lemma validateIncomingMessage_fields
      (v : MessageValidator) (msg msg' : IncomingMessage) :
  validateIncomingMessage v msg = Ok msg' ->
  1 <= len (IncomingMessage.From msg') <= 50
  /\ Forall (fun p => validateMediaPath v p = None) (IncomingMessage.Media msg')
  /\ no_control_bytes (IncomingMessage.Content msg')
  /\ no_surrounding_space (IncomingMessage.Content msg')
  /\ VerifySignature v msg' = None.
Proof.
  intros H. apply validateIncomingMessage_accepts in H.
  destruct H as (Hf & _ & _ & Hm & Hs & ->). unfold cleaned in *.
  destruct (String.eqb_spec (IncomingMessage.Content msg) "") as [Hc|Hc].
  - rewrite Hc. repeat split; try assumption; try apply Hf. now left.
  - cbn [IncomingMessage.set_Content IncomingMessage.From
         IncomingMessage.Media IncomingMessage.Content].
    destruct msg; cbn in *. repeat split; try assumption; try apply Hf;
      apply sanitize_steps_clean.
Qed.

Ltac no_handle :=
  cbn; intros Hin;
  repeat (destruct Hin as [Hin|Hin]; [discriminate|]); contradiction.

(** X19. What the listener hands to the message bus.  A round hands over
    at most one message, and only for a text frame that [ValidateIncoming]
    accepts as a message: the sender has 1 to 50 bytes, the chat is the
    chat of the frame or, when the frame has none, the sender, so it is
    never empty; the content has no control byte but tab, line feed and
    carriage return and no white space around it, every media path has
    passed [validateMediaPath], and the signature check has passed. *)
Theorem bus_receives_only_valid_messages
        (c : WhatsAppChannel) (now : Z) (r : readOutcome)
        (senderID chatID content : string) (media : list string)
        (metadata : list (string * string)) :
  In (HandleMessage senderID chatID content media metadata)
     (snd (listen_round c now r)) ->
  (exists data msg,
      r = read_frame TextMessage data
      /\ ValidateIncoming (validator c) data = Ok msg
      /\ IncomingMessage.Type_ msg = MessageTypeMessage
      /\ senderID = IncomingMessage.From msg
      /\ chatID = (if String.eqb (IncomingMessage.Chat msg) "" then senderID
                   else IncomingMessage.Chat msg)
      /\ content = IncomingMessage.Content msg
      /\ media = IncomingMessage.Media msg
      /\ VerifySignature (validator c) msg = None)
  /\ 1 <= len senderID <= 50
  /\ chatID <> ""
  /\ no_control_bytes content
  /\ no_surrounding_space content
  /\ Forall (fun p => validateMediaPath (validator c) p = None) media
  /\ filter is_handle (snd (listen_round c now r))
     = [HandleMessage senderID chatID content media metadata].
Proof.
  unfold listen_round.
  destruct (connected c); [|no_handle].
  destruct (conn c) as [cn|] eqn:Hconn; [|no_handle].
  destruct r as [|ty data];
    [unfold handleConnectionError; rewrite Hconn; no_handle|].
  destruct ty; try (no_handle).
  destruct (ValidateIncoming (validator c) data) as [msg|e] eqn:Hv;
    [|no_handle].
  cbv zeta.
  destruct (String.eqb_spec (IncomingMessage.Type_ msg) MessageTypeMessage)
    as [Hty|Hty].
  2:{ repeat match goal with
             | |- context [if String.eqb ?a ?b then _ else _] =>
                 destruct (String.eqb a b)
             end; no_handle. }
  cbn [snd]. unfold handleIncomingMessage.
  intros [H|[H|[]]]; [discriminate|].
  injection H as <- <- <- <- <-.
  destruct (ValidateIncoming_inv _ _ _ Hv) as [(msg0 & _ & _ & Hok)|Hno];
    [|contradiction].
  symmetry in Hok. apply validateIncomingMessage_fields in Hok.
  destruct Hok as (Hf & Hm & Hc1 & Hc2 & Hs).
  split.
  { exists data, msg. repeat split; try assumption. }
  split; [exact Hf|]. split.
  { destruct (String.eqb_spec (IncomingMessage.Chat msg) "") as [He|He];
      [|exact He].
    intros H0. rewrite H0 in Hf. unfold len in Hf. cbn in Hf. lia. }
  repeat split; assumption.
Qed.

Lemma bus_receives_only_valid_messages_witness :
  let c := set_conn (example_channel "ws://localhost:3001") (Some 1%nat)
                    true false in
  let r := read_frame TextMessage
             (frame "{'type':'message','from':'+1','content':' hi '}") in
  In (HandleMessage "+1" "+1" "hi" [] []) (snd (listen_round c 0 r))
  /\ filter is_handle (snd (listen_round c 0 r))
     = [HandleMessage "+1" "+1" "hi" [] []].
Proof.
  intros c r.
  assert (H : In (HandleMessage "+1" "+1" "hi" [] [])
                 (snd (listen_round c 0 r)))
    by (vm_compute; right; left; reflexivity).
  split; [exact H|].
  apply (bus_receives_only_valid_messages c 0 r "+1" "+1" "hi" [] [] H).
Defined.

(** X20. The check that a message has a content or a media path is made
    before the content is sanitized.  So a message without media whose
    content is not empty but sanitizes to nothing (white space, control
    characters) is accepted, and comes back with neither content nor
    media; the same message with the empty content is refused. *)
Theorem blank_content_is_accepted
        (v : MessageValidator) (msg : IncomingMessage) :
  1 <= len (IncomingMessage.From msg) <= 50 ->
  IncomingMessage.Content msg <> "" ->
  len (IncomingMessage.Content msg) <= MaxContentLength ->
  sanitize_steps (IncomingMessage.Content msg) = "" ->
  IncomingMessage.Media msg = [] ->
  VerifySignature v (IncomingMessage.set_Content msg "") = None ->
  validateIncomingMessage v msg = Ok (IncomingMessage.set_Content msg "")
  /\ validateIncomingMessage v (IncomingMessage.set_Content msg "")
     = Err errNoContentOrMedia.
Proof.
  intros Hf Hc Hl Hs Hm Hv. split.
  - apply validateIncomingMessage_accepts. unfold cleaned.
    destruct (String.eqb_spec (IncomingMessage.Content msg) "") as [H|_];
      [contradiction|].
    rewrite Hs. split; [exact Hf|]. split; [now left|]. split; [exact Hl|].
    split; [rewrite Hm; constructor|]. split; [exact Hv|reflexivity].
  - unfold validateIncomingMessage.
    change (IncomingMessage.From (IncomingMessage.set_Content msg ""))
      with (IncomingMessage.From msg).
    destruct (String.eqb_spec (IncomingMessage.From msg) "") as [H0|_].
    { rewrite H0 in Hf. unfold len in Hf. cbn in Hf. lia. }
    apply (validatePhoneNumber_ok v) in Hf. rewrite Hf.
    change (IncomingMessage.Media (IncomingMessage.set_Content msg ""))
      with (IncomingMessage.Media msg).
    rewrite Hm. reflexivity.
Qed.

Lemma blank_content_is_accepted_witness :
  let v := NewMessageValidator "" in
  let msg := IncomingMessage.mk "message" "" "+1" "" (String "001"%char " ")
                                [] "" "" "" 0 "" in
  1 <= len (IncomingMessage.From msg) <= 50
  /\ IncomingMessage.Content msg <> ""
  /\ sanitize_steps (IncomingMessage.Content msg) = ""
  /\ validateIncomingMessage v msg = Ok (IncomingMessage.set_Content msg "").
Proof.
  intros v msg.
  assert (H1 : 1 <= len (IncomingMessage.From msg) <= 50)
    by (vm_compute; split; discriminate).
  assert (H2 : IncomingMessage.Content msg <> "") by discriminate.
  assert (H3 : len (IncomingMessage.Content msg) <= MaxContentLength)
    by (vm_compute; discriminate).
  assert (H4 : sanitize_steps (IncomingMessage.Content msg) = "")
    by (vm_compute; reflexivity).
  assert (H5 : IncomingMessage.Media msg = []) by reflexivity.
  assert (H6 : VerifySignature v (IncomingMessage.set_Content msg "") = None)
    by reflexivity.
  split; [exact H1|]. split; [exact H2|]. split; [exact H4|].
  exact (proj1 (blank_content_is_accepted v msg H1 H2 H3 H4 H5 H6)).
Defined.

(** ** UTF-8: encoding and decoding are inverse to each other *)

Lemma byte_of_val (c : ascii) : byte_of (byte_val c) = c.
Proof.
  unfold byte_of. pose proof (byte_val_range c) as H.
  change 255 with (Z.ones 8). rewrite Z.land_ones by lia.
  rewrite Z.mod_small by lia. unfold byte_val.
  rewrite N2Z.id. apply ascii_N_embedding.
Qed.

Lemma byte_of_eq (z : Z) (c : ascii) : z = byte_val c -> byte_of z = c.
Proof. intros ->. apply byte_of_val. Qed.

(** Bits that do not overlap add up. *)
Lemma lor_disjoint_add (x m k : Z) :
  0 <= k -> x mod 2 ^ k = 0 -> 0 <= m < 2 ^ k -> Z.lor x m = x + m.
Proof.
  intros Hk Hx Hm.
  assert (H0 : Z.land x m = 0).
  { apply Z.bits_inj'. intros n Hn. rewrite Z.land_spec, Z.bits_0.
    destruct (Z.lt_ge_cases n k) as [Hlt|Hge].
    - assert (Hq : x = x / 2 ^ k * 2 ^ k).
      { pose proof (Z.div_mod x (2 ^ k)) as Hd.
        assert (2 ^ k <> 0) by (apply Z.pow_nonzero; lia). lia. }
      rewrite Hq, Z.mul_pow2_bits_low by lia. reflexivity.
    - destruct (Z.eq_dec m 0) as [->|Hm0];
        [rewrite Z.bits_0; apply andb_false_r|].
      rewrite (Z.bits_above_log2 m n); [apply andb_false_r|lia|].
      apply Z.lt_le_trans with k; [|exact Hge].
      apply Z.log2_lt_pow2; lia. }
  pose proof (Zbitwise.Z.add_lor_land x m). lia.
Qed.

Lemma land_low (x k : Z) : 0 <= k -> Z.land x (Z.ones k) = x mod 2 ^ k.
Proof. intros Hk. now apply Z.land_ones. Qed.

(** The rune of a two-byte sequence. *)
Lemma decode2_arith (s0 s1 : Z) :
  0xC0 <= s0 <= 0xDF -> 0x80 <= s1 <= 0xBF ->
  Z.lor (Z.shiftl (Z.land s0 utf8.mask2) 6) (Z.land s1 utf8.maskx)
  = (s0 - 192) * 64 + (s1 - 128).
Proof.
  intros H0 H1. change utf8.mask2 with (Z.ones 5).
  change utf8.maskx with (Z.ones 6). rewrite !land_low by lia.
  rewrite Z.shiftl_mul_pow2 by lia. change (2 ^ 5) with 32.
  change (2 ^ 6) with 64.
  assert (E0 : s0 mod 32 = s0 - 192) by (Z.div_mod_to_equations; lia).
  assert (E1 : s1 mod 64 = s1 - 128) by (Z.div_mod_to_equations; lia).
  rewrite E0, E1. apply (lor_disjoint_add _ _ 6); [lia| |change (2 ^ 6) with 64; lia].
  change (2 ^ 6) with 64. apply Z.mod_mul. lia.
Qed.

Lemma decode3_arith (s0 s1 s2 : Z) :
  0xE0 <= s0 <= 0xEF -> 0x80 <= s1 <= 0xBF -> 0x80 <= s2 <= 0xBF ->
  Z.lor (Z.lor (Z.shiftl (Z.land s0 utf8.mask3) 12)
               (Z.shiftl (Z.land s1 utf8.maskx) 6))
        (Z.land s2 utf8.maskx)
  = (s0 - 224) * 4096 + (s1 - 128) * 64 + (s2 - 128).
Proof.
  intros H0 H1 H2. change utf8.mask3 with (Z.ones 4).
  change utf8.maskx with (Z.ones 6). rewrite !land_low by lia.
  rewrite !Z.shiftl_mul_pow2 by lia. change (2 ^ 4) with 16.
  change (2 ^ 6) with 64. change (2 ^ 12) with 4096.
  assert (E0 : s0 mod 16 = s0 - 224) by (Z.div_mod_to_equations; lia).
  assert (E1 : s1 mod 64 = s1 - 128) by (Z.div_mod_to_equations; lia).
  assert (E2 : s2 mod 64 = s2 - 128) by (Z.div_mod_to_equations; lia).
  rewrite E0, E1, E2.
  rewrite (lor_disjoint_add _ ((s1 - 128) * 64) 12);
    [|lia|change (2 ^ 12) with 4096; apply Z.mod_mul; lia
     |change (2 ^ 12) with 4096; lia].
  apply (lor_disjoint_add _ _ 6); [lia| |change (2 ^ 6) with 64; lia].
  change (2 ^ 6) with 64. Z.div_mod_to_equations. lia.
Qed.

Lemma decode4_arith (s0 s1 s2 s3 : Z) :
  0xF0 <= s0 <= 0xF7 -> 0x80 <= s1 <= 0xBF -> 0x80 <= s2 <= 0xBF ->
  0x80 <= s3 <= 0xBF ->
  Z.lor (Z.lor (Z.lor (Z.shiftl (Z.land s0 utf8.mask4) 18)
                      (Z.shiftl (Z.land s1 utf8.maskx) 12))
               (Z.shiftl (Z.land s2 utf8.maskx) 6))
        (Z.land s3 utf8.maskx)
  = (s0 - 240) * 262144 + (s1 - 128) * 4096 + (s2 - 128) * 64 + (s3 - 128).
Proof.
  intros H0 H1 H2 H3. change utf8.mask4 with (Z.ones 3).
  change utf8.maskx with (Z.ones 6). rewrite !land_low by lia.
  rewrite !Z.shiftl_mul_pow2 by lia. change (2 ^ 3) with 8.
  change (2 ^ 6) with 64. change (2 ^ 12) with 4096.
  change (2 ^ 18) with 262144.
  assert (E0 : s0 mod 8 = s0 - 240) by (Z.div_mod_to_equations; lia).
  assert (E1 : s1 mod 64 = s1 - 128) by (Z.div_mod_to_equations; lia).
  assert (E2 : s2 mod 64 = s2 - 128) by (Z.div_mod_to_equations; lia).
  assert (E3 : s3 mod 64 = s3 - 128) by (Z.div_mod_to_equations; lia).
  rewrite E0, E1, E2, E3.
  rewrite (lor_disjoint_add _ ((s1 - 128) * 4096) 18);
    [|lia|change (2 ^ 18) with 262144; apply Z.mod_mul; lia
     |change (2 ^ 18) with 262144; lia].
  rewrite (lor_disjoint_add _ ((s2 - 128) * 64) 12);
    [|lia|change (2 ^ 12) with 4096; Z.div_mod_to_equations; lia
     |change (2 ^ 12) with 4096; lia].
  apply (lor_disjoint_add _ _ 6); [lia| |change (2 ^ 6) with 64; lia].
  change (2 ^ 6) with 64. Z.div_mod_to_equations. lia.
Qed.

(** The bytes that [EncodeRune] writes. *)
Lemma lead_byte (t x k : Z) :
  0 <= k -> t mod 2 ^ k = 0 -> 0 <= x < 2 ^ k -> Z.lor t x = t + x.
Proof. intros. now apply (lor_disjoint_add t x k). Qed.

Lemma cont_byte (x : Z) :
  Z.lor utf8.tx (Z.land x utf8.maskx) = 128 + x mod 64.
Proof.
  change utf8.maskx with (Z.ones 6). rewrite land_low by lia.
  change (2 ^ 6) with 64.
  apply (lor_disjoint_add _ _ 6); [lia|reflexivity|].
  change (2 ^ 6) with 64. apply Z.mod_pos_bound. lia.
Qed.

Lemma first_cases (s0 sz lo hi : Z) :
  utf8.first s0 = Some (sz, lo, hi) ->
  0x80 <= lo /\ hi <= 0xBF
  /\ (sz = 2 /\ 0xC2 <= s0 <= 0xDF /\ lo = 0x80 /\ hi = 0xBF
      \/ sz = 3 /\ 0xE0 <= s0 <= 0xEF
         /\ (s0 = 0xE0 -> lo = 0xA0) /\ (s0 = 0xED -> hi = 0x9F)
      \/ sz = 4 /\ 0xF0 <= s0 <= 0xF4
         /\ (s0 = 0xF0 -> lo = 0x90) /\ (s0 = 0xF4 -> hi = 0x8F)).
Proof.
  unfold utf8.first, utf8.locb, utf8.hicb.
  repeat match goal with
         | |- context [if ?x <? ?y then _ else _] =>
             destruct (Z.ltb_spec x y)
         | |- context [if ?x <=? ?y then _ else _] =>
             destruct (Z.leb_spec x y)
         | |- context [if ?x =? ?y then _ else _] =>
             destruct (Z.eqb_spec x y)
         end; intros Heq; try discriminate; injection Heq as <- <- <-; lia.
Qed.

(** What a successful step of the decoder has read. *)
Lemma Decode_inv (s : string) (r : Z) (w : nat) :
  s <> "" ->
  utf8.DecodeRuneInString s = (r, w) ->
  (r =? utf8.RuneError) && (w =? 1)%nat = false ->
  (exists c0 rest,
      s = String c0 rest /\ byte_val c0 < 0x80 /\ r = byte_val c0 /\ w = 1%nat)
  \/ (exists c0 c1 rest,
         s = String c0 (String c1 rest)
         /\ 0xC2 <= byte_val c0 <= 0xDF /\ 0x80 <= byte_val c1 <= 0xBF
         /\ r = (byte_val c0 - 192) * 64 + (byte_val c1 - 128) /\ w = 2%nat)
  \/ (exists c0 c1 c2 rest,
         s = String c0 (String c1 (String c2 rest))
         /\ 0xE0 <= byte_val c0 <= 0xEF /\ 0x80 <= byte_val c1 <= 0xBF
         /\ (byte_val c0 = 0xE0 -> 0xA0 <= byte_val c1)
         /\ (byte_val c0 = 0xED -> byte_val c1 <= 0x9F)
         /\ 0x80 <= byte_val c2 <= 0xBF
         /\ r = (byte_val c0 - 224) * 4096 + (byte_val c1 - 128) * 64
                + (byte_val c2 - 128)
         /\ w = 3%nat)
  \/ (exists c0 c1 c2 c3 rest,
         s = String c0 (String c1 (String c2 (String c3 rest)))
         /\ 0xF0 <= byte_val c0 <= 0xF4 /\ 0x80 <= byte_val c1 <= 0xBF
         /\ (byte_val c0 = 0xF0 -> 0x90 <= byte_val c1)
         /\ (byte_val c0 = 0xF4 -> byte_val c1 <= 0x8F)
         /\ 0x80 <= byte_val c2 <= 0xBF /\ 0x80 <= byte_val c3 <= 0xBF
         /\ r = (byte_val c0 - 240) * 262144 + (byte_val c1 - 128) * 4096
                + (byte_val c2 - 128) * 64 + (byte_val c3 - 128)
         /\ w = 4%nat).
Proof.
  intros Hne. destruct s as [|c0 s]; [contradiction|].
  unfold utf8.DecodeRuneInString, utf8.RuneSelf.
  destruct (Z.ltb_spec (byte_val c0) 0x80) as [Hlow|Hhigh].
  { intros Hd _. apply pair_equal_spec in Hd as [<- <-].
    left. now exists c0, s. }
  assert (Hbad : forall P : Prop,
             (utf8.RuneError, 1%nat) = (r, w) ->
             (r =? utf8.RuneError) && (w =? 1)%nat = false -> P).
  { intros P Hd. injection Hd as <- <-. discriminate. }
  destruct (utf8.first (byte_val c0)) as [[[sz lo] hi]|] eqn:Hfirst;
    [|apply Hbad].
  apply first_cases in Hfirst as (Hlo & Hhi & Hcases).
  destruct s as [|c1 s]; [apply Hbad|].
  destruct (Z.ltb_spec (byte_val c1) lo) as [H1|H1]; [apply Hbad|].
  destruct (Z.ltb_spec hi (byte_val c1)) as [H2|H2]; [apply Hbad|].
  cbn [orb].
  destruct (Z.leb_spec sz 2) as [Hsz|Hsz].
  { intros Hd _. apply pair_equal_spec in Hd as [<- <-].
    right. left. exists c0, c1, s.
    destruct Hcases as [(_ & Hs0 & _)|[(? & _)|(? & _)]]; try lia.
    rewrite decode2_arith by lia. repeat split; lia. }
  destruct s as [|c2 s]; [apply Hbad|].
  unfold utf8.locb, utf8.hicb.
  destruct (Z.ltb_spec (byte_val c2) 0x80) as [H3|H3]; [apply Hbad|].
  destruct (Z.ltb_spec 0xBF (byte_val c2)) as [H4|H4]; [apply Hbad|].
  cbn [orb].
  destruct (Z.leb_spec sz 3) as [Hsz3|Hsz3].
  { intros Hd _. apply pair_equal_spec in Hd as [<- <-].
    right. right. left. exists c0, c1, c2, s.
    destruct Hcases as [(? & _)|[(_ & Hs0 & Ha & Hb)|(? & _)]]; try lia.
    rewrite decode3_arith by lia. repeat split; lia. }
  destruct s as [|c3 s]; [apply Hbad|].
  destruct (Z.ltb_spec (byte_val c3) 0x80) as [H5|H5]; [apply Hbad|].
  destruct (Z.ltb_spec 0xBF (byte_val c3)) as [H6|H6]; [apply Hbad|].
  cbn [orb].
  intros Hd _. apply pair_equal_spec in Hd as [<- <-].
  right. right. right. exists c0, c1, c2, c3, s.
  destruct Hcases as [(? & _)|[(? & _)|(_ & Hs0 & Ha & Hb)]]; try lia.
  rewrite decode4_arith by lia. repeat split; lia.
Qed.

(** [EncodeRune], range by range. *)
Lemma EncodeRune_1 (r : Z) :
  0 <= r <= 0x7F -> utf8.EncodeRune r = String (byte_of r) "".
Proof.
  intros H. unfold utf8.EncodeRune.
  destruct (Z.leb_spec 0 r); [|lia]. destruct (Z.leb_spec r 0x7F); [|lia].
  reflexivity.
Qed.

Lemma EncodeRune_2 (r : Z) :
  0x80 <= r <= 0x7FF ->
  utf8.EncodeRune r
  = String (byte_of (192 + r / 64)) (String (byte_of (128 + r mod 64)) "").
Proof.
  intros H. unfold utf8.EncodeRune.
  destruct (Z.leb_spec 0 r); [|lia]. destruct (Z.leb_spec r 0x7F); [lia|].
  destruct (Z.leb_spec r 0x7FF); [|lia]. cbn [andb].
  rewrite cont_byte, Z.shiftr_div_pow2 by lia. change (2 ^ 6) with 64.
  rewrite (lead_byte utf8.t2 _ 5); [reflexivity|lia|reflexivity|].
  change (2 ^ 5) with 32. Z.div_mod_to_equations. lia.
Qed.

Lemma EncodeRune_3 (r : Z) :
  0x800 <= r <= 0xFFFF -> ~ 0xD800 <= r <= 0xDFFF ->
  utf8.EncodeRune r
  = String (byte_of (224 + r / 4096))
      (String (byte_of (128 + (r / 64) mod 64))
         (String (byte_of (128 + r mod 64)) "")).
Proof.
  intros H Hs. unfold utf8.EncodeRune, utf8.MaxRune.
  destruct (Z.leb_spec 0 r); [|lia]. destruct (Z.leb_spec r 0x7F); [lia|].
  destruct (Z.leb_spec r 0x7FF); [lia|]. cbn [andb].
  destruct (Z.ltb_spec r 0); [lia|]. destruct (Z.ltb_spec 0x10FFFF r); [lia|].
  cbn [orb].
  assert (Hsur : (0xD800 <=? r) && (r <=? 0xDFFF) = false).
  { destruct (Z.leb_spec 0xD800 r); destruct (Z.leb_spec r 0xDFFF);
      try reflexivity. lia. }
  rewrite Hsur. destruct (Z.leb_spec r 0xFFFF); [|lia].
  rewrite !cont_byte, !Z.shiftr_div_pow2 by lia.
  change (2 ^ 6) with 64. change (2 ^ 12) with 4096.
  rewrite (lead_byte utf8.t3 _ 4); [reflexivity|lia|reflexivity|].
  change (2 ^ 4) with 16. Z.div_mod_to_equations. lia.
Qed.

Lemma EncodeRune_4 (r : Z) :
  0x10000 <= r <= 0x10FFFF ->
  utf8.EncodeRune r
  = String (byte_of (240 + r / 262144))
      (String (byte_of (128 + (r / 4096) mod 64))
         (String (byte_of (128 + (r / 64) mod 64))
            (String (byte_of (128 + r mod 64)) ""))).
Proof.
  intros H. unfold utf8.EncodeRune, utf8.MaxRune.
  destruct (Z.leb_spec 0 r); [|lia]. destruct (Z.leb_spec r 0x7F); [lia|].
  destruct (Z.leb_spec r 0x7FF); [lia|]. cbn [andb].
  destruct (Z.ltb_spec r 0); [lia|]. destruct (Z.ltb_spec 0x10FFFF r); [lia|].
  cbn [orb].
  assert (Hsur : (0xD800 <=? r) && (r <=? 0xDFFF) = false).
  { destruct (Z.leb_spec 0xD800 r); destruct (Z.leb_spec r 0xDFFF);
      try reflexivity. lia. }
  rewrite Hsur. destruct (Z.leb_spec r 0xFFFF); [lia|].
  rewrite !cont_byte, !Z.shiftr_div_pow2 by lia.
  change (2 ^ 6) with 64. change (2 ^ 12) with 4096.
  change (2 ^ 18) with 262144.
  rewrite (lead_byte utf8.t4 _ 3); [reflexivity|lia|reflexivity|].
  change (2 ^ 3) with 8. Z.div_mod_to_equations. lia.
Qed.

(** Encoding the rune that was decoded gives back the bytes it was decoded
    from. *)
Lemma Encode_Decode (s : string) (r : Z) (w : nat) :
  s <> "" ->
  utf8.DecodeRuneInString s = (r, w) ->
  (r =? utf8.RuneError) && (w =? 1)%nat = false ->
  utf8.EncodeRune r = take w s.
Proof.
  intros Hne Hd Hok.
  destruct (Decode_inv s r w Hne Hd Hok)
    as [(c0 & rest & -> & H0 & -> & ->)
       |[(c0 & c1 & rest & -> & H0 & H1 & -> & ->)
        |[(c0 & c1 & c2 & rest & -> & H0 & H1 & Ha & Hb & H2 & -> & ->)
         |(c0 & c1 & c2 & c3 & rest & -> & H0 & H1 & Ha & Hb & H2 & H3
           & -> & ->)]]].
  - pose proof (byte_val_range c0).
    rewrite EncodeRune_1 by lia. cbn [take]. now rewrite byte_of_val.
  - rewrite EncodeRune_2 by lia. cbn [take].
    repeat f_equal; apply byte_of_eq; Z.div_mod_to_equations; lia.
  - rewrite EncodeRune_3 by lia. cbn [take].
    repeat f_equal; apply byte_of_eq; Z.div_mod_to_equations; lia.
  - rewrite EncodeRune_4 by lia. cbn [take].
    repeat f_equal; apply byte_of_eq; Z.div_mod_to_equations; lia.
Qed.

(** ** Sanitizing leaves clean content as it is *)

Lemma plain_rune (s : string) (r : Z) (w : nat) :
  s <> "" ->
  utf8.DecodeRuneInString s = (r, w) ->
  (r =? utf8.RuneError) && (w =? 1)%nat = false ->
  no_control_bytes s ->
  sanitize_rune r = r /\ 0 <= r.
Proof.
  intros Hne Hd Hok Hp.
  assert (Hr : 0x20 <= r \/ r = 0x09 \/ r = 0x0A \/ r = 0x0D).
  { destruct (Decode_inv s r w Hne Hd Hok)
      as [(c0 & rest & -> & H0 & -> & ->)
         |[(c0 & c1 & rest & -> & H0 & H1 & -> & ->)
          |[(c0 & c1 & c2 & rest & -> & H0 & H1 & Ha & Hb & H2 & -> & ->)
           |(c0 & c1 & c2 & c3 & rest & -> & H0 & H1 & Ha & Hb & H2 & H3
             & -> & ->)]]]; try (left; lia).
    unfold no_control_bytes in Hp. rewrite bytes_String in Hp.
    cbn [forallb] in Hp. apply andb_true_iff in Hp as (Hp & _).
    unfold plain_byte in Hp.
    destruct (Z.leb_spec 0x20 (byte_val c0)); [now left|].
    destruct (Z.eqb_spec (byte_val c0) 0x09); [now right; left|].
    destruct (Z.eqb_spec (byte_val c0) 0x0A); [now right; right; left|].
    destruct (Z.eqb_spec (byte_val c0) 0x0D); [now right; right; right|].
    discriminate. }
  unfold sanitize_rune.
  destruct (Z.ltb_spec r 32); [|split; [reflexivity|lia]].
  destruct Hr as [Hr|[->|[->| ->]]]; [lia| | |]; split; reflexivity || lia.
Qed.

Lemma Map_sanitize_clean (fuel : nat) (s : string) :
  utf8.valid_fuel fuel s = true ->
  no_control_bytes s ->
  strings.Map_fuel fuel sanitize_rune s = s.
Proof.
  revert s. induction fuel as [|f IH]; intros s.
  - cbn. now destruct s.
  - cbn [strings.Map_fuel utf8.valid_fuel]. destruct s as [|c s0]; [reflexivity|].
    set (s := String c s0).
    destruct (utf8.DecodeRuneInString s) as [r w] eqn:Hdec.
    destruct ((r =? utf8.RuneError) && (w =? 1)%nat) eqn:Hbad; [discriminate|].
    intros Hv Hp.
    destruct (plain_rune s r w ltac:(discriminate) Hdec Hbad Hp) as (Hr & H0).
    rewrite Hr. destruct (Z.leb_spec 0 r); [|lia].
    rewrite (Encode_Decode s r w ltac:(discriminate) Hdec Hbad).
    rewrite IH; [apply drop_take|exact Hv|].
    unfold no_control_bytes in *. now apply bytes_drop.
Qed.

Lemma ReplaceAll_clean (fuel : nat) (s : string) :
  no_control_bytes s ->
  strings.ReplaceAll_fuel fuel s (String "000"%char "") "" = s.
Proof.
  revert s. induction fuel as [|f IH]; intros s Hp; [reflexivity|].
  cbn [strings.ReplaceAll_fuel]. destruct s as [|c t]; [reflexivity|].
  unfold no_control_bytes in *. rewrite bytes_String in Hp.
  cbn [forallb] in Hp. apply andb_true_iff in Hp as (Hc & Ht).
  unfold strings.HasPrefix. cbn [String.prefix].
  destruct (ascii_dec "000"%char c) as [<-|Hne]; [discriminate|].
  now rewrite IH.
Qed.

Lemma TrimSpace_clean (s : string) :
  no_surrounding_space s -> strings.TrimSpace s = s.
Proof.
  intros [->|(Hfirst & Hlast)]; [reflexivity|].
  unfold strings.TrimSpace, strings.TrimLeftFunc, strings.TrimRightFunc.
  destruct s as [|c s0]; [reflexivity|]. set (s := String c s0) in *.
  assert (Hl : strings.TrimLeftFunc_fuel (String.length s) unicode.IsSpace s
               = s).
  { cbn [String.length s strings.TrimLeftFunc_fuel]. fold s.
    destruct (utf8.DecodeRuneInString s) as [r w]. cbn [fst] in Hfirst.
    now rewrite Hfirst. }
  rewrite Hl. cbn [String.length s strings.TrimRightFunc_fuel]. fold s.
  destruct (utf8.DecodeLastRuneInString s) as [r w]. cbn [fst] in Hlast.
  now rewrite Hlast.
Qed.

Lemma sanitize_steps_fixed (s : string) :
  utf8.ValidString s = true ->
  no_control_bytes s ->
  no_surrounding_space s ->
  sanitize_steps s = s.
Proof.
  intros Hv Hp Hs. unfold sanitize_steps, strings.Map, strings.ReplaceAll.
  rewrite (Map_sanitize_clean _ s Hv Hp).
  rewrite (ReplaceAll_clean _ s Hp). now apply TrimSpace_clean.
Qed.

(** X21. Sanitizing changes nothing in a content that is clean already: a
    content that is valid UTF-8, has no byte below 0x20 but tab, line
    feed and carriage return, and has no white space at either end comes
    out of the three cleaning steps as it went in; when it has at most
    4096 bytes [sanitizeContent] returns it, and [ValidateOutgoing], when
    it accepts the message, leaves its content as it was. *)
Theorem clean_content_is_unchanged
        (v : MessageValidator) (now : Z) (msg : OutgoingMessage) :
  utf8.ValidString (OutgoingMessage.Content msg) = true ->
  no_control_bytes (OutgoingMessage.Content msg) ->
  no_surrounding_space (OutgoingMessage.Content msg) ->
  sanitize_steps (OutgoingMessage.Content msg) = OutgoingMessage.Content msg
  /\ (len (OutgoingMessage.Content msg) <= MaxContentLength ->
      sanitizeContent v (OutgoingMessage.Content msg)
      = Ok (OutgoingMessage.Content msg))
  /\ (snd (ValidateOutgoing v now msg) = None ->
      OutgoingMessage.Content (fst (ValidateOutgoing v now msg))
      = OutgoingMessage.Content msg).
Proof.
  intros Hv Hp Hs.
  pose proof (sanitize_steps_fixed _ Hv Hp Hs) as Hfix.
  split; [exact Hfix|]. split.
  - intros Hl. unfold sanitizeContent.
    destruct (Z.ltb_spec MaxContentLength (len (OutgoingMessage.Content msg)));
      [lia|]. now rewrite Hfix.
  - unfold ValidateOutgoing.
    destruct (negb (String.eqb (OutgoingMessage.Type_ msg) MessageTypeMessage));
      [discriminate|].
    destruct (validatePhoneNumber v (OutgoingMessage.To msg)); [discriminate|].
    unfold sanitizeContent.
    destruct (MaxContentLength <? len (OutgoingMessage.Content msg));
      [discriminate|].
    destruct (validateMedia v _); [discriminate|].
    match goal with
    | |- context [signMessage v ?m] =>
        pose proof (signMessage_keeps v m) as Hk;
          destruct (signMessage v m) as [m' [e|]]
    end; [discriminate|].
    intros _. cbv zeta in Hk. cbn [fst] in Hk |- *.
    destruct Hk as (_ & _ & Hc & _). rewrite Hc, <- Hfix at 1.
    now destruct (OutgoingMessage.Timestamp _ =? 0).
Qed.

Lemma clean_content_is_unchanged_witness :
  let v := NewMessageValidator "" in
  let content := of_bytes [0x68; 0xC3; 0xA9; 0x09; 0xE2; 0x82; 0xAC; 0xF0;
                           0x9F; 0x98; 0x80] in
  let msg := OutgoingMessage.mk "message" "+1" content [] 0 "" in
  utf8.ValidString content = true
  /\ no_control_bytes content
  /\ no_surrounding_space content
  /\ sanitize_steps content = content.
Proof.
  intros v content msg.
  assert (H1 : utf8.ValidString (OutgoingMessage.Content msg) = true)
    by (vm_compute; reflexivity).
  assert (H2 : no_control_bytes (OutgoingMessage.Content msg))
    by (vm_compute; reflexivity).
  assert (H3 : no_surrounding_space (OutgoingMessage.Content msg))
    by (right; vm_compute; split; reflexivity).
  split; [exact H1|]. split; [exact H2|]. split; [exact H3|].
  exact (proj1 (clean_content_is_unchanged v 0 msg H1 H2 H3)).
Defined.

(** ** Sanitizing twice *)

Lemma valid_fuel_any (f : nat) :
  forall (f1 f2 : nat) (s : string),
    (f1 <= f)%nat -> (f2 <= f)%nat ->
    (String.length s <= f1)%nat -> (String.length s <= f2)%nat ->
    utf8.valid_fuel f1 s = utf8.valid_fuel f2 s.
Proof.
  induction f as [|f IH]; intros f1 f2 s H1 H2 L1 L2.
  - assert (f1 = 0%nat) as -> by lia. assert (f2 = 0%nat) as -> by lia.
    reflexivity.
  - destruct s as [|c s0]; [now destruct f1, f2|].
    destruct f1 as [|f1]; [cbn in L1; lia|].
    destruct f2 as [|f2]; [cbn in L2; lia|].
    cbn [utf8.valid_fuel]. set (s := String c s0) in *.
    destruct (utf8.DecodeRuneInString s) as [r w] eqn:Hd.
    destruct ((r =? utf8.RuneError) && (w =? 1)%nat); [reflexivity|].
    pose proof (Decode_width s ltac:(discriminate)) as Hw.
    rewrite Hd in Hw. cbn [snd] in Hw.
    apply IH; try lia; rewrite drop_length; lia.
Qed.

Lemma valid_fuel_enough (f : nat) (s : string) :
  (String.length s <= f)%nat -> utf8.valid_fuel f s = utf8.ValidString s.
Proof.
  intros H. unfold utf8.ValidString. apply (valid_fuel_any f); lia.
Qed.

(** One step of [ValidString]. *)
Lemma valid_step (s : string) (r : Z) (w : nat) :
  s <> "" ->
  utf8.DecodeRuneInString s = (r, w) ->
  utf8.ValidString s
  = if (r =? utf8.RuneError) && (w =? 1)%nat then false
    else utf8.ValidString (drop w s).
Proof.
  intros Hne Hd. destruct s as [|c s0]; [contradiction|].
  unfold utf8.ValidString at 1. cbn [String.length utf8.valid_fuel].
  rewrite Hd. destruct ((r =? utf8.RuneError) && (w =? 1)%nat); [reflexivity|].
  apply valid_fuel_enough. rewrite drop_length.
  pose proof (Decode_width (String c s0) ltac:(discriminate)) as Hw.
  rewrite Hd in Hw. cbn [snd String.length] in *. lia.
Qed.

(** A rune that was decoded is decoded again, whatever follows it. *)
Lemma Decode_extend (u t : string) (r : Z) (w : nat) :
  u <> "" ->
  utf8.DecodeRuneInString u = (r, w) ->
  (r =? utf8.RuneError) && (w =? 1)%nat = false ->
  utf8.DecodeRuneInString (String.append u t) = (r, w).
Proof.
  intros Hne. destruct u as [|c0 u]; [contradiction|].
  cbn [String.append]. unfold utf8.DecodeRuneInString.
  destruct (byte_val c0 <? utf8.RuneSelf); [now intros|].
  assert (Hbad : forall x : Z * nat,
             (utf8.RuneError, 1%nat) = (r, w) ->
             (r =? utf8.RuneError) && (w =? 1)%nat = false -> x = (r, w)).
  { intros x Hd. injection Hd as <- <-. discriminate. }
  destruct (utf8.first (byte_val c0)) as [[[sz lo] hi]|]; [|now intros].
  destruct u as [|c1 u]; [apply Hbad|]. cbn [String.append].
  destruct ((byte_val c1 <? lo) || (hi <? byte_val c1)); [now intros|].
  destruct (sz <=? 2); [now intros|].
  destruct u as [|c2 u]; [apply Hbad|]. cbn [String.append].
  destruct ((byte_val c2 <? utf8.locb) || (utf8.hicb <? byte_val c2));
    [now intros|].
  destruct (sz <=? 3); [now intros|].
  destruct u as [|c3 u]; [apply Hbad|]. cbn [String.append].
  now intros.
Qed.

Lemma drop_app_length (u t : string) :
  drop (String.length u) (String.append u t) = t.
Proof. induction u as [|c u IH]; [now destruct t|exact IH]. Qed.

(** A valid string after one rune is a valid string. *)
Lemma valid_app_rune (u t : string) (r : Z) :
  u <> "" ->
  utf8.DecodeRuneInString u = (r, String.length u) ->
  (r =? utf8.RuneError) && (String.length u =? 1)%nat = false ->
  utf8.ValidString t = true ->
  utf8.ValidString (String.append u t) = true.
Proof.
  intros Hne Hd Hok Ht.
  rewrite (valid_step _ r (String.length u)).
  - now rewrite Hok, drop_app_length.
  - destruct u; [contradiction|discriminate].
  - now apply Decode_extend.
Qed.

(** What [Map] writes is valid UTF-8, whatever it reads: an invalid byte
    is read as U+FFFD and written as its three bytes. *)
Lemma Map_sanitize_valid (fuel : nat) (s : string) :
  utf8.ValidString (strings.Map_fuel fuel sanitize_rune s) = true.
Proof.
  revert s. induction fuel as [|f IH]; intros s; [reflexivity|].
  cbn [strings.Map_fuel]. destruct s as [|c s0]; [reflexivity|].
  set (s := String c s0).
  destruct (utf8.DecodeRuneInString s) as [r w] eqn:Hdec.
  destruct (Z.leb_spec 0 (sanitize_rune r)) as [Hk|Hk]; [|apply IH].
  destruct (sanitize_rune_keeps r Hk) as [-> _].
  destruct ((r =? utf8.RuneError) && (w =? 1)%nat) eqn:Hbad.
  - apply andb_true_iff in Hbad as (Hr & _). apply Z.eqb_eq in Hr. subst r.
    apply (valid_app_rune _ _ utf8.RuneError);
      [discriminate|reflexivity|reflexivity|apply IH].
  - rewrite (Encode_Decode s r w ltac:(discriminate) Hdec Hbad).
    pose proof (Decode_width s ltac:(discriminate)) as Hw.
    pose proof (Decode_width_le s) as Hle.
    rewrite Hdec in Hw, Hle. cbn [snd] in Hw, Hle.
    assert (Hlen : String.length (take w s) = w)
      by (rewrite take_length; lia).
    apply (valid_app_rune _ _ r).
    + intros H0. rewrite H0 in Hlen. cbn in Hlen. lia.
    + rewrite Hlen, Decode_take by (rewrite ?Hdec; cbn [snd]; lia).
      exact Hdec.
    + now rewrite Hlen.
    + apply IH.
Qed.

Lemma TrimLeft_valid (fuel : nat) (f : Z -> bool) (s : string) :
  utf8.ValidString s = true ->
  utf8.ValidString (strings.TrimLeftFunc_fuel fuel f s) = true.
Proof.
  revert s. induction fuel as [|k IH]; intros s Hv; [exact Hv|].
  cbn [strings.TrimLeftFunc_fuel]. destruct s as [|c s0]; [reflexivity|].
  set (s := String c s0) in *.
  destruct (utf8.DecodeRuneInString s) as [r w] eqn:Hd.
  destruct (f r); [|exact Hv]. apply IH.
  rewrite (valid_step s r w ltac:(discriminate) Hd) in Hv.
  now destruct ((r =? utf8.RuneError) && (w =? 1)%nat).
Qed.

Lemma take_app_drop (j w : nat) (s : string) :
  (w <= j)%nat ->
  take j s = String.append (take w s) (take (j - w) (drop w s)).
Proof.
  revert j s. induction w as [|w IH]; intros j s H.
  - rewrite Nat.sub_0_r. now destruct s.
  - destruct j as [|j]; [lia|].
    destruct s as [|c s]; [cbn; now destruct (j - w)%nat|].
    cbn [take drop String.append Nat.sub]. now rewrite (IH j s) by lia.
Qed.

Lemma drop_drop (j w : nat) (s : string) :
  drop j (drop w s) = drop (w + j) s.
Proof.
  revert s. induction w as [|w IH]; intros s; [now destruct s|].
  destruct s as [|c s]; [now destruct j|]. exact (IH s).
Qed.

(** A valid string cut where a rune starts is valid. *)
Lemma valid_prefix (f : nat) :
  forall (s : string) (j : nat),
    (String.length s <= f)%nat ->
    utf8.ValidString s = true ->
    (forall c rest, drop j s = String c rest ->
                    ~ 0x80 <= byte_val c <= 0xBF) ->
    utf8.ValidString (take j s) = true.
Proof.
  induction f as [|f IH]; intros s j Hlen Hv Hstart.
  - destruct s; [now destruct j|cbn in Hlen; lia].
  - destruct s as [|c s0]; [now destruct j|]. set (s := String c s0) in *.
    destruct j as [|j]; [reflexivity|].
    destruct (utf8.DecodeRuneInString s) as [r w] eqn:Hd.
    rewrite (valid_step s r w ltac:(discriminate) Hd) in Hv.
    destruct ((r =? utf8.RuneError) && (w =? 1)%nat) eqn:Hbad; [discriminate|].
    pose proof (Decode_width s ltac:(discriminate)) as Hw.
    pose proof (Decode_width_le s) as Hle.
    rewrite Hd in Hw, Hle. cbn [snd] in Hw, Hle.
    destruct (Nat.lt_ge_cases (S j) w) as [Hin|Hout].
    + exfalso.
      destruct (Decode_tail s (S j)) as (c' & rest & Hdrop & Hc');
        [rewrite Hd; cbn [snd]; lia|].
      exact (Hstart c' rest Hdrop Hc').
    + rewrite (take_app_drop (S j) w s Hout).
      assert (Hlen' : String.length (take w s) = w)
        by (rewrite take_length; lia).
      apply (valid_app_rune _ _ r).
      * intros H0. rewrite H0 in Hlen'. cbn in Hlen'. lia.
      * rewrite Hlen', Decode_take by (rewrite ?Hd; cbn [snd]; lia).
        exact Hd.
      * now rewrite Hlen'.
      * apply IH; [rewrite drop_length; cbn [String.length s] in *; lia
                  |exact Hv|].
        intros c' rest Hdrop. rewrite drop_drop in Hdrop.
        replace (w + (S j - w))%nat with (S j) in Hdrop by lia.
        exact (Hstart c' rest Hdrop).
Qed.

Lemma space_not_error (r : Z) : unicode.IsSpace r = true -> r <> utf8.RuneError.
Proof. intros H Hr. rewrite Hr, IsSpace_RuneError in H. discriminate. Qed.

Lemma TrimRight_valid (fuel : nat) (s : string) :
  utf8.ValidString s = true ->
  utf8.ValidString (strings.TrimRightFunc_fuel fuel unicode.IsSpace s) = true.
Proof.
  revert s. induction fuel as [|k IH]; intros s Hv; [exact Hv|].
  cbn [strings.TrimRightFunc_fuel]. destruct s as [|c s0]; [reflexivity|].
  set (s := String c s0) in *.
  destruct (utf8.DecodeLastRuneInString s) as [r size] eqn:Hlast.
  destruct (unicode.IsSpace r) eqn:Hsp; [|exact Hv]. apply IH.
  destruct (DecodeLast_space s r size Hlast Hsp) as (j & Hj & Hsize & Hd).
  replace (String.length s - size)%nat with j by lia.
  apply (valid_prefix (String.length s)); [lia|exact Hv|].
  intros c' rest Hdrop Hc'.
  assert (Hok : (r =? utf8.RuneError) && (size =? 1)%nat = false).
  { apply space_not_error in Hsp. apply Z.eqb_neq in Hsp. now rewrite Hsp. }
  rewrite Hdrop in Hd.
  destruct (Decode_inv (String c' rest) r size ltac:(discriminate) Hd Hok)
    as [(c0 & rest0 & He & H0 & _)
       |[(c0 & c1 & rest0 & He & H0 & _)
        |[(c0 & c1 & c2 & rest0 & He & H0 & _)
         |(c0 & c1 & c2 & c3 & rest0 & He & H0 & _)]]];
    injection He as <- _; lia.
Qed.

Lemma sanitize_steps_valid (s : string) :
  utf8.ValidString (sanitize_steps s) = true.
Proof.
  unfold sanitize_steps, strings.TrimSpace, strings.TrimRightFunc,
    strings.TrimLeftFunc, strings.ReplaceAll, strings.Map.
  apply TrimRight_valid, TrimLeft_valid.
  rewrite ReplaceAll_clean; [apply Map_sanitize_valid|].
  apply Map_sanitize_plain.
Qed.

Lemma sanitize_steps_idempotent (s : string) :
  sanitize_steps (sanitize_steps s) = sanitize_steps s.
Proof.
  apply sanitize_steps_fixed; [apply sanitize_steps_valid| |];
    apply sanitize_steps_clean.
Qed.

(** X22. What [sanitizeContent] returns is valid UTF-8, whatever it was
    given (a byte that is not part of a valid sequence comes out as the
    three bytes of U+FFFD), and sanitizing it again changes nothing: when
    the result has at most 4096 bytes, [sanitizeContent] returns it as it
    is.  For a content that was valid UTF-8 the result is never longer
    than the content, so that it always passes again. *)
Theorem sanitized_content_is_stable
        (v : MessageValidator) (content sanitized : string) :
  sanitizeContent v content = Ok sanitized ->
  utf8.ValidString sanitized = true
  /\ sanitize_steps sanitized = sanitized
  /\ (len sanitized <= MaxContentLength ->
      sanitizeContent v sanitized = Ok sanitized)
  /\ (utf8.ValidString content = true ->
      sanitizeContent v sanitized = Ok sanitized).
Proof.
  unfold sanitizeContent.
  destruct (Z.ltb_spec MaxContentLength (len content)) as [Hl|Hl];
    [discriminate|].
  intros H. injection H as <-.
  assert (Hagain : len (sanitize_steps content) <= MaxContentLength ->
                   (if MaxContentLength <? len (sanitize_steps content)
                    then Err errContentTooLong
                    else Ok (sanitize_steps (sanitize_steps content)))
                   = Ok (sanitize_steps content)).
  { intros Hle.
    destruct (Z.ltb_spec MaxContentLength (len (sanitize_steps content)));
      [lia|]. now rewrite sanitize_steps_idempotent. }
  split; [apply sanitize_steps_valid|].
  split; [apply sanitize_steps_idempotent|]. split; [exact Hagain|].
  intros Hv. apply Hagain. pose proof (sanitize_steps_length content Hv). lia.
Qed.

Lemma sanitized_content_is_stable_witness :
  let v := NewMessageValidator "" in
  let content := of_bytes [0x20; 0x61; 0xFF; 0x01; 0x62; 0x0A] in
  let sanitized := of_bytes [0x61; 0xEF; 0xBF; 0xBD; 0x62] in
  sanitizeContent v content = Ok sanitized
  /\ utf8.ValidString sanitized = true
  /\ sanitizeContent v sanitized = Ok sanitized.
Proof.
  intros v content sanitized.
  assert (H : sanitizeContent v content = Ok sanitized)
    by (vm_compute; reflexivity).
  destruct (sanitized_content_is_stable v content sanitized H)
    as (H1 & _ & H2 & _).
  split; [exact H|]. split; [exact H1|]. apply H2. vm_compute. discriminate.
Defined.

Lemma ValidateOutgoing_accepted
      (v : MessageValidator) (now : Z) (msg : OutgoingMessage) :
  snd (ValidateOutgoing v now msg) = None ->
  OutgoingMessage.Type_ msg = MessageTypeMessage
  /\ validatePhoneNumber v (OutgoingMessage.To msg) = None
  /\ len (OutgoingMessage.Content msg) <= MaxContentLength
  /\ validateMedia v (OutgoingMessage.Media msg) = None
  /\ fst (ValidateOutgoing v now msg)
     = fst (signMessage v
              (let m := OutgoingMessage.set_Content msg
                          (sanitize_steps (OutgoingMessage.Content msg)) in
               if OutgoingMessage.Timestamp m =? 0
               then OutgoingMessage.set_Timestamp m now else m)).
Proof.
  unfold ValidateOutgoing.
  destruct (String.eqb_spec (OutgoingMessage.Type_ msg) MessageTypeMessage)
    as [Ht|Ht]; cbn [negb]; [|discriminate].
  destruct (validatePhoneNumber v (OutgoingMessage.To msg)); [discriminate|].
  unfold sanitizeContent.
  destruct (Z.ltb_spec MaxContentLength (len (OutgoingMessage.Content msg)))
    as [Hl|Hl]; [discriminate|].
  change (OutgoingMessage.Media
            (OutgoingMessage.set_Content msg
               (sanitize_steps (OutgoingMessage.Content msg))))
    with (OutgoingMessage.Media msg).
  destruct (validateMedia v (OutgoingMessage.Media msg)); [discriminate|].
  cbv zeta.
  destruct (signMessage v _) as [m' [e|]]; [discriminate|].
  intros _. repeat split; assumption.
Qed.

Lemma OutgoingMessage_set_Content_same (m : OutgoingMessage) :
  OutgoingMessage.set_Content m (OutgoingMessage.Content m) = m.
Proof. now destruct m. Qed.

Lemma OutgoingMessage_set_Signature_same (m : OutgoingMessage) :
  OutgoingMessage.set_Signature m (OutgoingMessage.Signature m) = m.
Proof. now destruct m. Qed.

(** X23. Validating a message that has been validated changes nothing:
    when [ValidateOutgoing] has accepted a message, and left it with a
    timestamp that is not zero and a content of at most 4096 bytes (as it
    does whenever the content given was valid UTF-8), it accepts the
    message it returned, at any later time, and returns it unchanged,
    with the same signature. *)
Theorem validated_message_is_stable
        (v : MessageValidator) (now now' : Z) (msg : OutgoingMessage) :
  snd (ValidateOutgoing v now msg) = None ->
  let m := fst (ValidateOutgoing v now msg) in
  OutgoingMessage.Timestamp m <> 0 ->
  len (OutgoingMessage.Content m) <= MaxContentLength ->
  ValidateOutgoing v now' m = (m, None).
Proof.
  intros Hok m Hts Hlen.
  destruct (ValidateOutgoing_accepted v now msg Hok)
    as (Hty & Hph & _ & Hmed & Hm).
  pose proof (ValidateOutgoing_signs v now msg) as Hsig.
  cbv zeta in Hsig, Hm. fold m in Hsig, Hm.
  match type of Hm with
  | m = fst (signMessage v ?m1) =>
      pose proof (signMessage_keeps v m1) as Hk; cbv zeta in Hk;
        rewrite <- Hm in Hk; destruct Hk as (K1 & K2 & K3 & K4 & K5);
        assert (F : OutgoingMessage.Type_ m1 = OutgoingMessage.Type_ msg
                    /\ OutgoingMessage.To m1 = OutgoingMessage.To msg
                    /\ OutgoingMessage.Content m1
                       = sanitize_steps (OutgoingMessage.Content msg)
                    /\ OutgoingMessage.Media m1 = OutgoingMessage.Media msg)
          by (destruct msg as [ty to content media ts sg]; cbn;
              now destruct (ts =? 0))
  end.
  destruct F as (F1 & F2 & F3 & F4).
  rewrite F1 in K1. rewrite F2 in K2. rewrite F3 in K3. rewrite F4 in K4.
  clear Hm K5.
  unfold ValidateOutgoing. rewrite K1, Hty, K2, Hph.
  change (negb (String.eqb MessageTypeMessage MessageTypeMessage)) with false.
  cbv iota. unfold sanitizeContent.
  destruct (Z.ltb_spec MaxContentLength (len (OutgoingMessage.Content m)));
    [lia|].
  assert (Hfix : sanitize_steps (OutgoingMessage.Content m)
                 = OutgoingMessage.Content m)
    by (rewrite K3; apply sanitize_steps_idempotent).
  rewrite !Hfix, !OutgoingMessage_set_Content_same, K4, Hmed.
  destruct (Z.eqb_spec (OutgoingMessage.Timestamp m) 0); [contradiction|].
  destruct (String.eqb_spec (hmacKey v) "") as [Hk|Hk].
  - unfold signMessage. rewrite Hk. change (len "" =? 0) with true.
    reflexivity.
  - rewrite signMessage_with_key by exact Hk.
    rewrite <- (Hsig Hk Hok). now rewrite OutgoingMessage_set_Signature_same.
Qed.

Lemma validated_message_is_stable_witness :
  let v := NewMessageValidator "secret" in
  let msg := OutgoingMessage.mk "message" "+1" " hi " ["a.png"] 0 "" in
  snd (ValidateOutgoing v 7 msg) = None
  /\ ValidateOutgoing v 9 (fst (ValidateOutgoing v 7 msg))
     = (fst (ValidateOutgoing v 7 msg), None).
Proof.
  intros v msg.
  assert (H : snd (ValidateOutgoing v 7 msg) = None)
    by (vm_compute; reflexivity).
  split; [exact H|].
  apply (validated_message_is_stable v 7 9 msg H).
  - vm_compute. discriminate.
  - vm_compute. discriminate.
Defined.

(** ** The form of a signature *)

Lemma digit_lower_hex (x : Z) : is_lower_hex (byte_val (hex.digit x)) = true.
Proof.
  unfold hex.digit, hex.hextable. generalize (Z.to_nat x) as n. intros n.
  do 16 (destruct n as [|n]; [reflexivity|]). reflexivity.
Qed.

Lemma EncodeToString_lower_hex (src : list Z) :
  forallb is_lower_hex (bytes (hex.EncodeToString src)) = true.
Proof.
  induction src as [|b src IH]; [reflexivity|].
  cbn [hex.EncodeToString]. rewrite !bytes_String. cbn [forallb].
  now rewrite !digit_lower_hex, IH.
Qed.

(** X24. Under a key, the signature of a message that [ValidateOutgoing]
    accepts is made of 64 hexadecimal digits, in lower case. *)
Theorem signature_is_lowercase_hex
        (v : MessageValidator) (now : Z) (msg : OutgoingMessage) :
  hmacKey v <> "" ->
  snd (ValidateOutgoing v now msg) = None ->
  let sig := OutgoingMessage.Signature (fst (ValidateOutgoing v now msg)) in
  String.length sig = 64%nat
  /\ forallb is_lower_hex (bytes sig) = true.
Proof.
  intros Hk Hok sig. unfold sig.
  rewrite (ValidateOutgoing_signs v now msg Hk Hok).
  split; [apply calculateSignature_length|].
  unfold calculateSignature. apply EncodeToString_lower_hex.
Qed.

Lemma signature_is_lowercase_hex_witness :
  let v := NewMessageValidator "secret" in
  let msg := OutgoingMessage.mk "message" "+1" "hi" [] 5 "" in
  hmacKey v <> ""
  /\ snd (ValidateOutgoing v 7 msg) = None
  /\ String.length
       (OutgoingMessage.Signature (fst (ValidateOutgoing v 7 msg))) = 64%nat.
Proof.
  intros v msg.
  assert (Hk : hmacKey v <> "") by discriminate.
  assert (Hok : snd (ValidateOutgoing v 7 msg) = None)
    by (vm_compute; reflexivity).
  split; [exact Hk|]. split; [exact Hok|].
  exact (proj1 (signature_is_lowercase_hex v 7 msg Hk Hok)).
Defined.

(** ** Validating an accepted message again *)

Lemma cleaned_fixed (msg : IncomingMessage) :
  cleaned (cleaned msg) = cleaned msg.
Proof.
  unfold cleaned.
  destruct (String.eqb_spec (IncomingMessage.Content msg) "") as [Hc|Hc].
  - now rewrite Hc.
  - cbn [IncomingMessage.set_Content IncomingMessage.Content].
    destruct (String.eqb (sanitize_steps (IncomingMessage.Content msg)) "");
      [reflexivity|].
    rewrite sanitize_steps_idempotent. now destruct msg.
Qed.

(** X25. The content of a message that [ValidateIncoming] accepts is valid
    UTF-8 and is not changed by sanitizing it again; and the accepted
    message, handed to [validateIncomingMessage] once more, is accepted
    and returned as it is, provided it still has a content or a media
    path and its content has at most 4096 bytes (as it does whenever the
    content received was valid UTF-8). *)
Theorem accepted_message_is_stable
        (v : MessageValidator) (data : string) (msg : IncomingMessage) :
  ValidateIncoming v data = Ok msg ->
  IncomingMessage.Type_ msg = MessageTypeMessage ->
  utf8.ValidString (IncomingMessage.Content msg) = true
  /\ sanitize_steps (IncomingMessage.Content msg) = IncomingMessage.Content msg
  /\ (IncomingMessage.Content msg <> "" \/ IncomingMessage.Media msg <> [] ->
      len (IncomingMessage.Content msg) <= MaxContentLength ->
      validateIncomingMessage v msg = Ok msg).
Proof.
  intros Hv Hty.
  destruct (ValidateIncoming_inv v data _ Hv)
    as [(msg0 & _ & _ & Hok)|Hno]; [|contradiction].
  symmetry in Hok. apply validateIncomingMessage_accepts in Hok.
  destruct Hok as (Hf & _ & _ & Hm & Hs & ->).
  assert (Hfields : IncomingMessage.From (cleaned msg0)
                    = IncomingMessage.From msg0
                    /\ IncomingMessage.Media (cleaned msg0)
                       = IncomingMessage.Media msg0
                    /\ IncomingMessage.Content (cleaned msg0)
                       = (if String.eqb (IncomingMessage.Content msg0) ""
                          then ""
                          else sanitize_steps (IncomingMessage.Content msg0))).
  { unfold cleaned.
    destruct (String.eqb_spec (IncomingMessage.Content msg0) "") as [Hc|Hc];
      [now rewrite Hc|now destruct msg0]. }
  destruct Hfields as (F1 & F2 & F3).
  assert (Hfix : sanitize_steps (IncomingMessage.Content (cleaned msg0))
                 = IncomingMessage.Content (cleaned msg0)).
  { rewrite F3. destruct (String.eqb (IncomingMessage.Content msg0) "");
      [reflexivity|apply sanitize_steps_idempotent]. }
  split.
  { rewrite F3. destruct (String.eqb (IncomingMessage.Content msg0) "");
      [reflexivity|apply sanitize_steps_valid]. }
  split; [exact Hfix|].
  intros Hcm Hlen. apply validateIncomingMessage_accepts.
  rewrite F1, cleaned_fixed. split; [exact Hf|]. split; [exact Hcm|].
  split; [exact Hlen|]. split; [rewrite F2; exact Hm|].
  split; [exact Hs|reflexivity].
Qed.

Lemma accepted_message_is_stable_witness :
  let v := NewMessageValidator "" in
  let data := frame "{'type':'message','from':'+1','content':' hi '}" in
  let msg := IncomingMessage.mk "message" "" "+1" "" "hi" [] "" "" "" 0 "" in
  ValidateIncoming v data = Ok msg
  /\ validateIncomingMessage v msg = Ok msg.
Proof.
  intros v data msg.
  assert (H : ValidateIncoming v data = Ok msg) by (vm_compute; reflexivity).
  assert (Ht : IncomingMessage.Type_ msg = MessageTypeMessage) by reflexivity.
  destruct (accepted_message_is_stable v data msg H Ht) as (_ & _ & H3).
  split; [exact H|]. apply H3.
  - left. discriminate.
  - vm_compute. discriminate.
Defined.

(** ** The token and the headers of the dial *)

(** X26. A channel built by [NewWhatsAppChannel] holds as its token the
    value of the query parameter [token] of the bridge URL (empty when
    there is none, and then the URL is kept as it was given).  Whenever
    [connect] dials, it dials the URL of the channel, with the header
    [Authorization: Bearer <token>] exactly when the token is not empty,
    followed by [X-Nonce], made of the clock in nanoseconds and in
    seconds, and [X-Timestamp], the clock in seconds. *)
Theorem token_goes_to_header
        (cfg : WhatsAppConfig) (c : WhatsAppChannel) :
  NewWhatsAppChannel cfg = Ok c ->
  (exists u,
      url.Parse (BridgeURL cfg) = Some u
      /\ authToken c = url.Get (url.Query u) "token")
  /\ (authToken c = "" -> url_ c = BridgeURL cfg)
  /\ forall now dial target headers,
      In (Dial target headers) (snd (connect c now dial)) ->
      target = url_ c
      /\ headers
         = (if String.eqb (authToken c) "" then []
            else [("Authorization", String.append "Bearer " (authToken c))])
           ++ [("X-Nonce",
                String.append (strconv.FormatInt (time.UnixNano now))
                  (String.append "-" (strconv.FormatInt (time.Unix now))));
               ("X-Timestamp", strconv.FormatInt (time.Unix now))].
Proof.
  unfold NewWhatsAppChannel, validateBridgeURL, extractAuthToken.
  destruct (String.eqb (BridgeURL cfg) ""); [discriminate|].
  destruct (url.Parse (BridgeURL cfg)) as [u|]; [|discriminate].
  destruct (negb (String.eqb (url.Scheme u) "wss")
            && negb (String.eqb (url.Scheme u) "ws")); [discriminate|].
  destruct (String.eqb_spec (url.Get (url.Query u) "token") "") as [Ht|Ht];
    cbn [negb]; intros H; injection H as <-;
    cbn [authToken url_].
  - split; [exists u; now rewrite Ht|]. split; [reflexivity|].
    intros now dial target headers. unfold connect. cbn [authToken url_].
    destruct (url.Parse (BridgeURL cfg)) as [u'|]; [|intros []].
    destruct (negb (String.eqb (url.Scheme u') "wss")
              && negb (String.eqb (url.Scheme u') "ws")); [intros []|].
    destruct dial as [status|cn sn st];
      [|destruct (validateBridgeResponse _ now sn st)];
      cbn [snd app In]; intros [H|H];
      try (injection H as <- <-; now split);
      try (destruct H as [H|H]; [discriminate|contradiction]);
      contradiction.
  - split; [now exists u|]. split; [intros H; contradiction|].
    intros now dial target headers. unfold connect. cbn [authToken url_].
    apply String.eqb_neq in Ht. rewrite Ht. cbn [negb].
    destruct (url.Parse _) as [u'|]; [|intros []].
    destruct (negb (String.eqb (url.Scheme u') "wss")
              && negb (String.eqb (url.Scheme u') "ws")); [intros []|].
    destruct dial as [status|cn sn st];
      [|destruct (validateBridgeResponse _ now sn st)];
      cbn [snd app In]; intros [H|H];
      try (injection H as <- <-; now split);
      try (destruct H as [H|H]; [discriminate|contradiction]);
      contradiction.
Qed.

Lemma token_goes_to_header_witness :
  let cfg :=
    mkWhatsAppConfig true "wss://bridge.example.com/ws?token=s3cret" [] "" "" "" in
  exists c,
    NewWhatsAppChannel cfg = Ok c
    /\ authToken c = "s3cret"
    /\ forall target headers,
        In (Dial target headers) (snd (connect c 0 (dial_failed None))) ->
        headers = [("Authorization", "Bearer s3cret");
                   ("X-Nonce", "0-0"); ("X-Timestamp", "0")].
Proof.
  intros cfg.
  destruct (NewWhatsAppChannel cfg) as [c|e] eqn:Hnew;
    [|vm_compute in Hnew; discriminate].
  exists c. split; [reflexivity|].
  destruct (token_goes_to_header cfg c Hnew) as (_ & _ & H).
  assert (Htok : authToken c = "s3cret")
    by (vm_compute in Hnew; injection Hnew as <-; reflexivity).
  split; [exact Htok|].
  intros target headers Hin.
  destruct (H 0 (dial_failed None) target headers Hin) as (_ & ->).
  rewrite Htok. reflexivity.
Defined.
(** ** The encoding of a string in JSON *)

Lemma Decode_take4 (s : string) :
  utf8.DecodeRuneInString (take 4 s) = utf8.DecodeRuneInString s.
Proof. destruct s as [|c0 [|c1 [|c2 [|c3 s]]]]; reflexivity. Qed.

(** The rune that starts a string is the rune of its own bytes, whatever
    follows them. *)
Lemma Decode_prefix (s t : string) (r : Z) (w : nat) :
  s <> "" ->
  utf8.DecodeRuneInString s = (r, w) ->
  (r =? utf8.RuneError) && (w =? 1)%nat = false ->
  utf8.DecodeRuneInString (String.append (take w s) t) = (r, w).
Proof.
  intros Hne H Herr.
  assert (Hu : utf8.DecodeRuneInString (take w s) = (r, w)).
  { destruct s as [|c0 s]; [contradiction|].
    unfold utf8.DecodeRuneInString in H.
    destruct (byte_val c0 <? utf8.RuneSelf) eqn:E0.
    { injection H as <- <-. cbn [take]. unfold utf8.DecodeRuneInString.
      now rewrite E0. }
    destruct (utf8.first (byte_val c0)) as [[[sz lo] hi]|] eqn:Ef;
      [|injection H as <- <-; discriminate].
    destruct s as [|c1 s]; [injection H as <- <-; discriminate|].
    destruct ((byte_val c1 <? lo) || (hi <? byte_val c1)) eqn:E1;
      [injection H as <- <-; discriminate|].
    destruct (sz <=? 2) eqn:E2.
    { injection H as <- <-. cbn [take]. unfold utf8.DecodeRuneInString.
      now rewrite E0, Ef, E1, E2. }
    destruct s as [|c2 s]; [injection H as <- <-; discriminate|].
    destruct ((byte_val c2 <? utf8.locb) || (utf8.hicb <? byte_val c2)) eqn:E3;
      [injection H as <- <-; discriminate|].
    destruct (sz <=? 3) eqn:E4.
    { injection H as <- <-. cbn [take]. unfold utf8.DecodeRuneInString.
      now rewrite E0, Ef, E1, E2, E3, E4. }
    destruct s as [|c3 s]; [injection H as <- <-; discriminate|].
    destruct ((byte_val c3 <? utf8.locb) || (utf8.hicb <? byte_val c3)) eqn:E5;
      [injection H as <- <-; discriminate|].
    injection H as <- <-. cbn [take]. unfold utf8.DecodeRuneInString.
    now rewrite E0, Ef, E1, E2, E3, E4, E5. }
  apply Decode_extend; [|exact Hu|exact Herr].
  destruct s as [|c0 s]; [contradiction|].
  pose proof (Decode_width (String c0 s) Hne) as Hw. rewrite H in Hw.
  cbn [snd] in Hw. destruct w as [|w]; [lia|]. discriminate.
Qed.

Lemma escape_fuel_any (f : nat) :
  forall (f1 f2 : nat) (s : string),
    (f1 <= f)%nat -> (f2 <= f)%nat ->
    (String.length s <= f1)%nat -> (String.length s <= f2)%nat ->
    json.escape_fuel f1 s = json.escape_fuel f2 s.
Proof.
  induction f as [|f IH]; intros f1 f2 s H1 H2 L1 L2.
  - assert (f1 = 0%nat) by lia. assert (f2 = 0%nat) by lia. now subst.
  - destruct s as [|c t].
    { destruct f1, f2; reflexivity. }
    cbn [String.length] in L1, L2.
    destruct f1 as [|f1]; [lia|]. destruct f2 as [|f2]; [lia|].
    cbn [json.escape_fuel].
    destruct (byte_val c <? utf8.RuneSelf).
    { rewrite (IH f1 f2 t) by lia. reflexivity. }
    pose proof (Decode_width (take 4 (String c t))) as Hw.
    destruct (utf8.DecodeRuneInString (take 4 (String c t))) as [r size].
    cbn [snd] in Hw. specialize (Hw ltac:(discriminate)).
    assert (Hd : (String.length (drop size (String c t)) <= String.length t)%nat).
    { rewrite drop_length. cbn [String.length]. lia. }
    rewrite (IH f1 f2 (drop size (String c t))) by lia. reflexivity.
Qed.

Lemma escape_fuel_enough (f : nat) (s : string) :
  (String.length s <= f)%nat ->
  json.escape_fuel f s = json.escape_fuel (String.length s) s.
Proof.
  intros H. apply (escape_fuel_any f); lia.
Qed.

Lemma append_assoc (a b c : string) :
  String.append (String.append a b) c = String.append a (String.append b c).
Proof.
  induction a as [|x a IH]; [reflexivity|]. cbn. now rewrite IH.
Qed.

(** The escape of a byte below 0x80 that is not written as it is, read
    back. *)
Lemma parse_escape_byte (c : ascii) (t : string) (fuel : nat) :
  byte_val c < 0x80 ->
  json.htmlSafe (byte_val c) = false ->
  json.parse_string (S fuel) (String.append (json.escape_byte (byte_val c)) t)
  = match json.parse_string fuel t with
    | Some (d, rest) => Some (String c d, rest)
    | None => None
    end.
Proof.
  destruct c as [[] [] [] [] [] [] [] []]; intros Hb Hs;
    try (exfalso; vm_compute in Hb; discriminate);
    try (exfalso; vm_compute in Hs; discriminate);
    reflexivity.
Qed.

(** The escape of a line or paragraph separator, read back. *)
Lemma parse_line_separator (r : Z) (t : string) (fuel : nat) :
  r = 0x2028 \/ r = 0x2029 ->
  json.parse_string (S fuel)
    (String.append
       (String.append (String json.backslash "u202")
          (String (hex.digit (Z.land r 0xF)) ""))
       t)
  = match json.parse_string fuel t with
    | Some (d, rest) => Some (String.append (utf8.EncodeRune r) d, rest)
    | None => None
    end.
Proof. intros [-> | ->]; reflexivity. Qed.

(** What [appendString] writes between the quotes for a string of valid
    UTF-8, read back by the decoder, is the string: the decoder stops at
    the quote that closes it. *)
Lemma parse_string_escape (f : nat) :
  forall (s rest : string) (fuel : nat),
    (String.length s <= f)%nat ->
    (String.length s < fuel)%nat ->
    utf8.ValidString s = true ->
    json.parse_string fuel
      (String.append (json.escape_fuel (String.length s) s)
                     (String json.quote rest))
    = Some (s, rest).
Proof.
  induction f as [|f IH]; intros s rest fuel Hf Hfuel Hv.
  { destruct s; [|cbn in Hf; lia]. destruct fuel; [lia|]. reflexivity. }
  destruct s as [|c t].
  { destruct fuel; [lia|]. reflexivity. }
  destruct fuel as [|fuel]; [lia|].
  cbn [String.length] in Hf, Hfuel.
  destruct (utf8.DecodeRuneInString (String c t)) as [r w] eqn:Hdec.
  pose proof (valid_step (String c t) r w ltac:(discriminate) Hdec) as Hstep.
  rewrite Hv in Hstep.
  destruct ((r =? utf8.RuneError) && (w =? 1)%nat) eqn:Herr; [discriminate|].
  symmetry in Hstep.
  pose proof (Decode_width (String c t) ltac:(discriminate)) as Hw.
  rewrite Hdec in Hw. cbn [snd] in Hw.
  assert (Hlen : (String.length (drop w (String c t)) <= String.length t)%nat).
  { rewrite drop_length. cbn [String.length]. lia. }
  assert (Hrec : json.parse_string fuel
                   (String.append
                      (json.escape_fuel (String.length t) (drop w (String c t)))
                      (String json.quote rest))
                 = Some (drop w (String c t), rest)).
  { rewrite escape_fuel_enough by exact Hlen.
    apply IH; [lia|lia|exact Hstep]. }
  cbn [String.length json.escape_fuel].
  destruct (byte_val c <? utf8.RuneSelf) eqn:Hb.
  - (* one byte *)
    assert (Hw1 : w = 1%nat).
    { unfold utf8.DecodeRuneInString in Hdec. rewrite Hb in Hdec.
      now injection Hdec. }
    subst w. cbn [drop] in Hrec.
    apply Z.ltb_lt in Hb. unfold utf8.RuneSelf in Hb.
    destruct (json.htmlSafe (byte_val c)) eqn:Hs.
    + cbn [String.append json.parse_string].
      unfold json.htmlSafe in Hs.
      destruct (Z.eqb_spec (byte_val c) 0x22) as [E|_];
        [rewrite E in Hs; discriminate|].
      destruct (Z.eqb_spec (byte_val c) 0x5C) as [E|_];
        [rewrite E in Hs; discriminate|].
      destruct (Z.ltb_spec (byte_val c) 0x20) as [E|_].
      { destruct (Z.leb_spec 0x20 (byte_val c)); [lia|discriminate]. }
      destruct (Z.ltb_spec (byte_val c) utf8.RuneSelf) as [_|E];
        [|unfold utf8.RuneSelf in E; lia].
      now rewrite Hrec.
    + rewrite append_assoc, parse_escape_byte by assumption.
      now rewrite Hrec.
  - (* a sequence of two to four bytes *)
    rewrite Decode_take4, Hdec, Herr.
    assert (Henc : utf8.EncodeRune r = take w (String c t))
      by (apply Encode_Decode; [discriminate|exact Hdec|exact Herr]).
    destruct ((r =? 0x2028) || (r =? 0x2029)) eqn:Hls.
    + assert (Hr : r = 0x2028 \/ r = 0x2029).
      { apply orb_true_iff in Hls. destruct Hls as [E|E];
          apply Z.eqb_eq in E; auto. }
      rewrite append_assoc, parse_line_separator by exact Hr.
      rewrite Hrec, Henc, drop_take. reflexivity.
    + rewrite append_assoc.
      assert (Hc0 : exists c' t', take w (String c t) = String c' t'
                                  /\ c' = c).
      { destruct w as [|w']; [lia|]. exists c, (take w' t).
        split; reflexivity. }
      destruct Hc0 as (c' & t' & Htake & ->).
      pose proof (Decode_prefix (String c t)
                    (String.append
                       (json.escape_fuel (String.length t)
                          (drop w (String c t)))
                       (String json.quote rest))
                    r w ltac:(discriminate) Hdec Herr) as Hpre.
      assert (Hdrop : drop w (String.append (take w (String c t))
                          (String.append
                             (json.escape_fuel (String.length t)
                                (drop w (String c t)))
                             (String json.quote rest)))
                      = String.append
                          (json.escape_fuel (String.length t)
                             (drop w (String c t)))
                          (String json.quote rest)).
      { assert (Hl : String.length (take w (String c t)) = w).
        { pose proof (Decode_width_le (String c t)) as Hle.
          rewrite Hdec in Hle. cbn [snd String.length] in Hle.
          rewrite take_length. cbn [String.length]. lia. }
        rewrite <- Hl at 1. apply drop_app_length. }
      revert Hpre Hdrop. rewrite Htake. cbn [String.append]. intros Hpre Hdrop.
      cbn [json.parse_string].
      apply Z.ltb_ge in Hb. unfold utf8.RuneSelf in Hb.
      destruct (Z.eqb_spec (byte_val c) 0x22) as [E|_]; [lia|].
      destruct (Z.eqb_spec (byte_val c) 0x5C) as [E|_]; [lia|].
      destruct (Z.ltb_spec (byte_val c) 0x20) as [E|_]; [lia|].
      destruct (Z.ltb_spec (byte_val c) utf8.RuneSelf) as [E|_];
        [unfold utf8.RuneSelf in E; lia|].
      rewrite Hpre, Hdrop, Hrec, Henc, drop_take. reflexivity.
Qed.

(** The encoding of a string of valid UTF-8 determines the string. *)
Lemma appendString_injective (s1 s2 : string) :
  utf8.ValidString s1 = true ->
  utf8.ValidString s2 = true ->
  json.appendString s1 = json.appendString s2 ->
  s1 = s2.
Proof.
  intros V1 V2 H. unfold json.appendString in H. injection H as H.
  pose (fuel := S (Nat.max (String.length s1) (String.length s2))).
  pose proof (parse_string_escape (String.length s1) s1 "" fuel
                (Nat.le_refl _) ltac:(unfold fuel; lia) V1) as P1.
  pose proof (parse_string_escape (String.length s2) s2 "" fuel
                (Nat.le_refl _) ltac:(unfold fuel; lia) V2) as P2.
  rewrite H in P1. rewrite P1 in P2. now injection P2.
Qed.

Lemma append_empty_r (a : string) : String.append a "" = a.
Proof. induction a as [|x a IH]; [reflexivity|]. cbn. now rewrite IH. Qed.

Lemma append_inv_head (a x y : string) :
  String.append a x = String.append a y -> x = y.
Proof.
  induction a as [|c a IH]; [auto|]. cbn. intros H. injection H as H. auto.
Qed.

Lemma append_inv_tail (x y r : string) :
  String.append x r = String.append y r -> x = y.
Proof.
  revert y. induction x as [|c x IH]; intros y H.
  - destruct y as [|d y]; [reflexivity|].
    apply (f_equal String.length) in H.
    rewrite !append_length in H. cbn in H. lia.
  - destruct y as [|d y].
    + apply (f_equal String.length) in H.
      rewrite !append_length in H. cbn in H. lia.
    + cbn in H. injection H as -> H. f_equal. now apply IH.
Qed.

Lemma concat_empty_cons (a : string) (l : list string) :
  String.concat "" (a :: l) = String.append a (String.concat "" l).
Proof.
  destruct l as [|b l]; cbn [String.concat]; [now rewrite append_empty_r|].
  reflexivity.
Qed.

Lemma concat_empty_app (l1 l2 : list string) :
  String.concat "" (l1 ++ l2)
  = String.append (String.concat "" l1) (String.concat "" l2).
Proof.
  induction l1 as [|a l1 IH]; [reflexivity|].
  cbn [app]. now rewrite !concat_empty_cons, IH, append_assoc.
Qed.

(** A list joined by a separator: its head, then each other element after
    a separator. *)
Lemma concat_cons_sep (sep x : string) (l : list string) :
  String.concat sep (x :: l)
  = String.append x (String.concat "" (map (String.append sep) l)).
Proof.
  revert x. induction l as [|y l IH]; intros x.
  - cbn. now rewrite append_empty_r.
  - change (String.concat sep (x :: y :: l))
      with (String.append x (String.append sep (String.concat sep (y :: l)))).
    rewrite IH. cbn [map]. rewrite concat_empty_cons, append_assoc.
    reflexivity.
Qed.

(** The serialization of an inbound message determines its content, when
    the content is valid UTF-8: two messages that differ in their content
    alone have different serializations. *)
Lemma Marshal_content_injective (m : IncomingMessage) (c1 c2 : string) :
  utf8.ValidString c1 = true ->
  utf8.ValidString c2 = true ->
  Marshal_IncomingMessage (IncomingMessage.set_Content m c1)
  = Marshal_IncomingMessage (IncomingMessage.set_Content m c2) ->
  c1 = c2.
Proof.
  intros V1 V2. unfold Marshal_IncomingMessage, json.appendObject.
  cbn [IncomingMessage.set_Content IncomingMessage.Type_ IncomingMessage.ID
       IncomingMessage.From IncomingMessage.Chat IncomingMessage.Content
       IncomingMessage.Media IncomingMessage.FromName IncomingMessage.Status
       IncomingMessage.Error IncomingMessage.Timestamp
       IncomingMessage.Signature].
  cbn [app map]. rewrite !concat_cons_sep, !map_app, !concat_empty_app.
  intros H. apply append_inv_head in H. apply append_inv_tail in H.
  apply append_inv_head in H. do 3 apply append_inv_head in H.
  apply append_inv_tail in H.
  unfold omitempty_string in H.
  destruct (String.eqb_spec c1 "") as [E1|N1];
    destruct (String.eqb_spec c2 "") as [E2|N2]; cbn in H.
  - congruence.
  - discriminate.
  - discriminate.
  - injection H as H. apply appendString_injective; [exact V1|exact V2|].
    unfold json.appendString. now rewrite H.
Qed.
(** ** Signing, verifying and a changed content *)

(** A message that has passed the checks on its fields is accepted or
    refused by the signature check alone. *)
Lemma validateIncomingMessage_checked
      (v : MessageValidator) (msg : IncomingMessage) :
  1 <= len (IncomingMessage.From msg) <= 50 ->
  IncomingMessage.Content msg <> "" \/ IncomingMessage.Media msg <> [] ->
  len (IncomingMessage.Content msg) <= MaxContentLength ->
  Forall (fun p => validateMediaPath v p = None) (IncomingMessage.Media msg) ->
  validateIncomingMessage v msg
  = match VerifySignature v (cleaned msg) with
    | Some err => Err (errSignatureVerification err)
    | None => Ok (cleaned msg)
    end.
Proof.
  intros Hf Hcm Hl Hm.
  destruct (VerifySignature v (cleaned msg)) as [e|] eqn:Hv.
  2:{ apply validateIncomingMessage_accepts. repeat split; try assumption;
      apply Hf. }
  unfold validateIncomingMessage. unfold cleaned in Hv.
  destruct (String.eqb_spec (IncomingMessage.From msg) "") as [H0|_].
  { rewrite H0 in Hf. unfold len in Hf. cbn in Hf. lia. }
  apply (validatePhoneNumber_ok v) in Hf. rewrite Hf.
  apply validateMedia_ok in Hm.
  destruct (String.eqb_spec (IncomingMessage.Content msg) "") as [Hc|Hc].
  - destruct (IncomingMessage.Media msg) as [|p media] eqn:Hmed.
    { destruct Hcm as [H|H]; contradiction. }
    cbn [List.length andb negb]. rewrite Nat2Z.inj_succ.
    destruct (Z.eqb_spec (Z.succ (Z.of_nat (List.length media))) 0); [lia|].
    rewrite Hmed, Hm, Hv. reflexivity.
  - cbn [andb negb]. unfold sanitizeContent.
    destruct (Z.ltb_spec MaxContentLength (len (IncomingMessage.Content msg)));
      [lia|].
    fold (sanitize_steps (IncomingMessage.Content msg)).
    change (IncomingMessage.Media
              (IncomingMessage.set_Content msg
                 (sanitize_steps (IncomingMessage.Content msg))))
      with (IncomingMessage.Media msg).
    rewrite Hm, Hv. reflexivity.
Qed.

(** The message that inbound validation returns is the message with
    another content, which is valid UTF-8. *)
Lemma cleaned_content (msg : IncomingMessage) :
  cleaned msg
  = IncomingMessage.set_Content msg (IncomingMessage.Content (cleaned msg))
  /\ utf8.ValidString (IncomingMessage.Content (cleaned msg)) = true.
Proof.
  unfold cleaned.
  destruct (String.eqb_spec (IncomingMessage.Content msg) "") as [Hc|Hc].
  - rewrite set_Content_same. split; [reflexivity|]. now rewrite Hc.
  - split; [reflexivity|]. apply sanitize_steps_valid.
Qed.

(** C2, as the code has it.  Under a non-empty key the signature that
    [ValidateOutgoing] attaches is the HMAC-SHA256, in 64 hexadecimal
    digits, of the outbound serialization of the message with the
    signature cleared.  The check on an inbound message is over another
    serialization, the inbound one, of the message with its content
    sanitized and its signature cleared: the message is accepted exactly
    when its fields pass their checks and its signature is that HMAC.
    For an accepted message and a changed content:
    - when the changed content is sanitized to another string than the
      content was, what is signed is another string of bytes, and the
      changed message is refused with the invalid-signature error, unless
      HMAC-SHA256 gives the two strings the same value;
    - when the changed content is sanitized to the same string, the
      changed message is accepted, with the same result.
    [VerifySignature] itself, on a message that it accepts and whose
    content is then changed, both contents being valid UTF-8, is given
    another string of bytes to check, and reports an invalid signature
    unless HMAC-SHA256 gives the two strings the same value. *)
Theorem signature_covers_own_serialization
        (v : MessageValidator) (now : Z) (msg : OutgoingMessage)
        (inc : IncomingMessage) (content' : string) :
  hmacKey v <> "" ->
  snd (ValidateOutgoing v now msg) = None ->
  let m := fst (ValidateOutgoing v now msg) in
  let signed_data (i : IncomingMessage) :=
    Marshal_IncomingMessage (IncomingMessage.set_Signature (cleaned i) "") in
  let inc' := IncomingMessage.set_Content inc content' in
  OutgoingMessage.Signature m =
    calculateSignature v
      (Marshal_OutgoingMessage (OutgoingMessage.set_Signature m ""))
  /\ String.length (OutgoingMessage.Signature m) = 64%nat
  /\ (validateIncomingMessage v inc = Ok (cleaned inc)
      <-> 1 <= len (IncomingMessage.From inc) <= 50
          /\ (IncomingMessage.Content inc <> ""
              \/ IncomingMessage.Media inc <> [])
          /\ len (IncomingMessage.Content inc) <= MaxContentLength
          /\ Forall (fun p => validateMediaPath v p = None)
                    (IncomingMessage.Media inc)
          /\ IncomingMessage.Signature inc
             = calculateSignature v (signed_data inc))
  /\ (forall r, validateIncomingMessage v inc = Ok r -> r = cleaned inc)
  /\ (validateIncomingMessage v inc = Ok (cleaned inc) ->
      content' <> "" \/ IncomingMessage.Media inc <> [] ->
      len content' <= MaxContentLength ->
      IncomingMessage.Content (cleaned inc')
      <> IncomingMessage.Content (cleaned inc) ->
      signed_data inc' <> signed_data inc
      /\ (validateIncomingMessage v inc'
          = Err (errSignatureVerification errInvalidSignature)
          \/ calculateSignature v (signed_data inc')
             = calculateSignature v (signed_data inc)
             /\ validateIncomingMessage v inc' = Ok (cleaned inc')))
  /\ (validateIncomingMessage v inc = Ok (cleaned inc) ->
      content' <> "" \/ IncomingMessage.Media inc <> [] ->
      len content' <= MaxContentLength ->
      IncomingMessage.Content (cleaned inc')
      = IncomingMessage.Content (cleaned inc) ->
      validateIncomingMessage v inc' = Ok (cleaned inc))
  /\ (VerifySignature v inc = None ->
      utf8.ValidString (IncomingMessage.Content inc) = true ->
      utf8.ValidString content' = true ->
      content' <> IncomingMessage.Content inc ->
      Marshal_IncomingMessage (IncomingMessage.set_Signature inc' "")
      <> Marshal_IncomingMessage (IncomingMessage.set_Signature inc "")
      /\ (VerifySignature v inc' = Some errInvalidSignature
          \/ calculateSignature v
               (Marshal_IncomingMessage (IncomingMessage.set_Signature inc' ""))
             = calculateSignature v
                 (Marshal_IncomingMessage
                    (IncomingMessage.set_Signature inc "")))).
Proof.
  intros Hk Hok m signed_data inc'.
  pose proof (ValidateOutgoing_signs v now msg Hk Hok) as Hsig.
  fold m in Hsig.
  assert (Hver : forall i : IncomingMessage,
             VerifySignature v (cleaned i) = None
             <-> IncomingMessage.Signature i
                 = calculateSignature v (signed_data i)).
  { intros i. rewrite VerifySignature_with_key by exact Hk.
    assert (Hs : IncomingMessage.Signature (cleaned i)
                 = IncomingMessage.Signature i).
    { unfold cleaned.
      now destruct (String.eqb (IncomingMessage.Content i) ""). }
    rewrite Hs. fold (signed_data i).
    destruct (String.eqb_spec (IncomingMessage.Signature i) "") as [He|Hne].
    - split; [discriminate|]. intros H. rewrite He in H. symmetry in H.
      now apply calculateSignature_nonempty in H.
    - destruct (String.eqb_spec (IncomingMessage.Signature i)
                  (calculateSignature v (signed_data i))); split;
        try discriminate; try reflexivity; auto; contradiction. }
  assert (Hacc : forall i : IncomingMessage,
             validateIncomingMessage v i = Ok (cleaned i)
             <-> 1 <= len (IncomingMessage.From i) <= 50
                 /\ (IncomingMessage.Content i <> ""
                     \/ IncomingMessage.Media i <> [])
                 /\ len (IncomingMessage.Content i) <= MaxContentLength
                 /\ Forall (fun p => validateMediaPath v p = None)
                           (IncomingMessage.Media i)
                 /\ IncomingMessage.Signature i
                    = calculateSignature v (signed_data i)).
  { intros i. rewrite validateIncomingMessage_accepts, Hver. tauto. }
  assert (Hdata : forall i : IncomingMessage,
             signed_data i
             = Marshal_IncomingMessage
                 (IncomingMessage.set_Content
                    (IncomingMessage.set_Signature i "")
                    (IncomingMessage.Content (cleaned i)))).
  { intros i. unfold signed_data.
    destruct (cleaned_content i) as (Hc & _). now rewrite Hc at 1. }
  assert (Hsame : IncomingMessage.Content (cleaned inc')
                  = IncomingMessage.Content (cleaned inc) ->
                  cleaned inc' = cleaned inc).
  { intros H. destruct (cleaned_content inc') as (H1 & _).
    destruct (cleaned_content inc) as (H2 & _).
    rewrite H1, H2, H. reflexivity. }
  split; [exact Hsig|].
  split; [rewrite Hsig; apply calculateSignature_length|].
  split; [apply Hacc|].
  split.
  { intros r H. apply validateIncomingMessage_accepts in H.
    now destruct H as (_ & _ & _ & _ & _ & ->). }
  split.
  { intros Hin Hcm Hl Hdiff. apply Hacc in Hin.
    destruct Hin as (Hf & _ & _ & Hm & Hs).
    split.
    { rewrite !Hdata. intros H.
      change (Marshal_IncomingMessage
                (IncomingMessage.set_Content
                   (IncomingMessage.set_Signature inc "")
                   (IncomingMessage.Content (cleaned inc')))
              = Marshal_IncomingMessage
                  (IncomingMessage.set_Content
                     (IncomingMessage.set_Signature inc "")
                     (IncomingMessage.Content (cleaned inc)))) in H.
      apply Marshal_content_injective in H;
        [contradiction|apply cleaned_content|apply cleaned_content]. }
    rewrite (validateIncomingMessage_checked v inc') by assumption.
    rewrite VerifySignature_with_key by exact Hk.
    assert (Hs' : IncomingMessage.Signature (cleaned inc')
                  = IncomingMessage.Signature inc).
    { unfold cleaned.
      now destruct (String.eqb (IncomingMessage.Content inc') ""). }
    rewrite Hs'. fold (signed_data inc').
    destruct (String.eqb_spec (IncomingMessage.Signature inc) "") as [He|Hne].
    { rewrite He in Hs. symmetry in Hs.
      now apply calculateSignature_nonempty in Hs. }
    destruct (String.eqb_spec (IncomingMessage.Signature inc)
                (calculateSignature v (signed_data inc'))) as [He|Hne'].
    + right. split; [congruence|reflexivity].
    + now left. }
  split.
  { intros Hin Hcm Hl Heq. rewrite <- (Hsame Heq). apply Hacc.
    apply Hacc in Hin. destruct Hin as (Hf & _ & _ & Hm & Hs).
    split; [exact Hf|]. split; [exact Hcm|]. split; [exact Hl|].
    split; [exact Hm|].
    change (IncomingMessage.Signature inc')
      with (IncomingMessage.Signature inc).
    rewrite Hs. unfold signed_data. now rewrite (Hsame Heq). }
  intros Hin V1 V2 Hdiff.
  rewrite VerifySignature_with_key in Hin by exact Hk.
  rewrite VerifySignature_with_key by exact Hk.
  change (IncomingMessage.Signature inc')
    with (IncomingMessage.Signature inc).
  destruct (String.eqb_spec (IncomingMessage.Signature inc) "") as [He|Hne];
    [discriminate|].
  destruct (String.eqb_spec (IncomingMessage.Signature inc)
              (calculateSignature v
                 (Marshal_IncomingMessage
                    (IncomingMessage.set_Signature inc ""))))
    as [Hs|Hs]; [|discriminate].
  split.
  { intros H.
    rewrite <- (set_Content_same (IncomingMessage.set_Signature inc ""))
      in H.
    change (Marshal_IncomingMessage
              (IncomingMessage.set_Content
                 (IncomingMessage.set_Signature inc "") content')
            = Marshal_IncomingMessage
                (IncomingMessage.set_Content
                   (IncomingMessage.set_Signature inc "")
                   (IncomingMessage.Content inc))) in H.
    apply Marshal_content_injective in H; [contradiction|exact V2|exact V1]. }
  destruct (String.eqb_spec (IncomingMessage.Signature inc)
              (calculateSignature v
                 (Marshal_IncomingMessage
                    (IncomingMessage.set_Signature inc' ""))))
    as [Hs'|Hs']; [right; congruence|now left].
Qed.

Lemma signature_covers_own_serialization_witness :
  let v := NewMessageValidator "k" in
  let msg := OutgoingMessage.mk "message" "+1" "A" [] 1 "" in
  let inc :=
    IncomingMessage.mk "message" "" "+1" "" "A" [] "" "" "" 1
      "1193b7cca2fc58e2bbe839a536e7064b4ab786fa7eab7e48d9d8490efe4cedd6" in
  hmacKey v <> ""
  /\ snd (ValidateOutgoing v 5 msg) = None
  /\ OutgoingMessage.Signature (fst (ValidateOutgoing v 5 msg)) =
     "87ac667a4c9beec229cc15b4d52cc982efd5f6260036117c61b518744a52c882"
  /\ validateIncomingMessage v inc = Ok inc
  /\ Marshal_IncomingMessage
       (IncomingMessage.set_Signature
          (cleaned (IncomingMessage.set_Content inc "B")) "")
     <> Marshal_IncomingMessage
          (IncomingMessage.set_Signature (cleaned inc) "")
  /\ validateIncomingMessage v (IncomingMessage.set_Content inc " A ")
     = Ok inc.
Proof.
  intros v msg inc.
  assert (Hk : hmacKey v <> "") by discriminate.
  assert (Hok : snd (ValidateOutgoing v 5 msg) = None)
    by (vm_compute; reflexivity).
  assert (Hc : cleaned inc = inc) by (vm_compute; reflexivity).
  pose proof (signature_covers_own_serialization v 5 msg inc "B" Hk Hok)
    as (Hsig & _ & Hacc & _ & Hdiff & _ & Hver).
  pose proof (signature_covers_own_serialization v 5 msg inc " A " Hk Hok)
    as (_ & _ & _ & _ & _ & Hgap & _).
  assert (Hin : validateIncomingMessage v inc = Ok (cleaned inc)).
  { apply Hacc. split; [vm_compute; split; discriminate|].
    split; [left; discriminate|]. split; [vm_compute; discriminate|].
    split; [constructor|]. vm_compute. reflexivity. }
  assert (H1 : "B" <> "" \/ IncomingMessage.Media inc <> [])
    by (left; discriminate).
  assert (H2 : len "B" <= MaxContentLength) by (vm_compute; discriminate).
  assert (H3 : IncomingMessage.Content
                 (cleaned (IncomingMessage.set_Content inc "B"))
               <> IncomingMessage.Content (cleaned inc))
    by (vm_compute; discriminate).
  assert (H4 : " A " <> "" \/ IncomingMessage.Media inc <> [])
    by (left; discriminate).
  assert (H5 : len " A " <= MaxContentLength) by (vm_compute; discriminate).
  assert (H6 : IncomingMessage.Content
                 (cleaned (IncomingMessage.set_Content inc " A "))
               = IncomingMessage.Content (cleaned inc))
    by (vm_compute; reflexivity).
  split; [exact Hk|]. split; [exact Hok|].
  split; [rewrite Hsig; vm_compute; reflexivity|].
  split; [rewrite Hin, Hc; reflexivity|].
  split; [exact (proj1 (Hdiff Hin H1 H2 H3))|].
  rewrite (Hgap Hin H4 H5 H6), Hc. reflexivity.
Defined.

(** C2, as the claim states it, fails twice.

    A signed outbound frame does not pass the inbound check: the frame
    that [Send] writes for the message below, read back as an inbound
    message, has lost the field [to], which [IncomingMessage] does not
    have, so that the HMAC computed again by [VerifySignature] is over
    another serialization.

    A change of one byte of the content can go unseen.  The two inbound
    frames below differ in one byte of their content, a tab in the one and
    a line feed in the other; both carry the signature of the message
    whose content is the letter alone, and [ValidateIncoming] accepts
    both, since it sanitizes the content before it checks the signature.
    [VerifySignature] itself accepts the two messages below under one
    signature: their contents differ in a byte that is not valid UTF-8,
    and [json.Marshal] writes both bytes as U+FFFD. *)
Lemma signed_frame_refused_changed_content_accepted :
  let v := NewMessageValidator "k" in
  let msg := OutgoingMessage.mk "message" "+1" "A" [] 1 "" in
  let signed := fst (ValidateOutgoing v 5 msg) in
  let accepted :=
    IncomingMessage.mk "message" "" "+1" "" "A" [] "" "" "" 1
      "1193b7cca2fc58e2bbe839a536e7064b4ab786fa7eab7e48d9d8490efe4cedd6" in
  let raw (b : Z) :=
    IncomingMessage.mk "message" "" "+1" "" (of_bytes [0x41; b]) [] "" "" "" 1
      "c2b4851396a43486f4abd6ac96f097beb613e9515472be0c5f632991cda3e0a2" in
  (snd (ValidateOutgoing v 5 msg) = None
   /\ Marshal_OutgoingMessage signed =
      frame "{'type':'message','to':'+1','content':'A','timestamp':1,'signature':'87ac667a4c9beec229cc15b4d52cc982efd5f6260036117c61b518744a52c882'}"
   /\ Unmarshal_IncomingMessage (Marshal_OutgoingMessage signed) =
      Some (IncomingMessage.mk "message" "" "" "" "A" [] "" "" "" 1
              "87ac667a4c9beec229cc15b4d52cc982efd5f6260036117c61b518744a52c882")
   /\ option_map (VerifySignature v)
        (Unmarshal_IncomingMessage (Marshal_OutgoingMessage signed))
      = Some (Some errInvalidSignature)
   /\ ValidateIncoming v (Marshal_OutgoingMessage signed)
      = Err errMissingFrom)
  /\ (ValidateIncoming v
        (frame "{'type':'message','from':'+1','content':'\tA','timestamp':1,'signature':'1193b7cca2fc58e2bbe839a536e7064b4ab786fa7eab7e48d9d8490efe4cedd6'}")
      = Ok accepted
      /\ ValidateIncoming v
           (frame "{'type':'message','from':'+1','content':'\nA','timestamp':1,'signature':'1193b7cca2fc58e2bbe839a536e7064b4ab786fa7eab7e48d9d8490efe4cedd6'}")
         = Ok accepted)
  /\ (VerifySignature v (raw 0xFF) = None
      /\ VerifySignature v (raw 0xFE) = None
      /\ IncomingMessage.Content (raw 0xFF)
         <> IncomingMessage.Content (raw 0xFE)).
Proof. vm_compute. repeat split; try reflexivity; discriminate. Qed.
